(** * bugwarrior services: Gerrit, Phabricator and Redmine connectors

    A shallow embedding of [bugwarrior/services/gerrit.py],
    [bugwarrior/services/phab.py] and [bugwarrior/services/redmine.py],
    and the properties of their record mapping, filtering and error
    handling. *)

From Stdlib Require Import ZArith String Ascii List Bool Lia.
From Stdlib Require Import SpecFloat.
From stdpp Require Import base option list strings gmap pretty.

#[local] Set Warnings "-register-all,-clear-no-such-hyp".

Open Scope string_scope.
Open Scope list_scope.
Open Scope Z_scope.

(** * The Python layer

    Provider records are decoded JSON: the connectors index them as
    dictionaries and lists, so the embedding keeps them as a universal
    value type and gives every access its Python failure mode. *)

Module Py.

(** [datetime.datetime], as far as the connectors touch it. *)
Record datetime := {
  year : Z; month : Z; day : Z;
  hour : Z; minute : Z; second : Z; microsecond : Z;
  utcoffset : option Z
}.

(** Python values. A [dict] keeps its insertion order, and JSON objects
    have string keys, so a dictionary is an association list. Characters
    of a [str] are code points below 256. *)
Inductive value :=
| VNone
| VBool (b : bool)
| VInt (n : Z)
| VFloat (f : spec_float)
| VStr (s : string)
| VList (l : list value)
| VDict (d : list (string * value))
| VDatetime (t : datetime).

Inductive exn :=
| KeyError (k : string)
| TypeError
| AttributeError
| ValueError
| OverflowError
| JSONDecodeError
| HTTPError (status : Z)
| APIError (msg : string)
| OtherError (msg : string).

(** A computation that returns or raises. *)
Inductive result (A : Type) :=
| Ok (a : A)
| Raise (e : exn).
Arguments Ok {A} a.
Arguments Raise {A} e.

#[global] Instance result_ret : MRet result := fun A a => Ok a.
#[global] Instance result_bind : MBind result := fun A B f m =>
  match m with Ok a => f a | Raise e => Raise e end.

(** ** Dictionaries *)

Fixpoint dict_lookup (k : string) (d : list (string * value)) : option value :=
  match d with
  | [] => None
  | (k', v) :: d' => if String.eqb k k' then Some v else dict_lookup k d'
  end.

(** [d[k]] *)
Definition getitem (d : value) (k : string) : result value :=
  match d with
  | VDict kv =>
      match dict_lookup k kv with
      | Some v => Ok v
      | None => Raise (KeyError k)
      end
  | _ => Raise TypeError
  end.

(** [d.get(k, default)] *)
Definition get_default (d : value) (k : string) (default : value) : result value :=
  match d with
  | VDict kv =>
      match dict_lookup k kv with
      | Some v => Ok v
      | None => Ok default
      end
  | _ => Raise AttributeError
  end.

(** [d.get(k)] *)
Definition get (d : value) (k : string) : result value :=
  get_default d k VNone.

(** ** Truth value and numbers *)

Definition float_is_zero (f : spec_float) : bool :=
  match f with S754_zero _ => true | _ => false end.

(** [bool(v)] *)
Definition truthy (v : value) : bool :=
  match v with
  | VNone => false
  | VBool b => b
  | VInt n => negb (n =? 0)
  | VFloat f => negb (float_is_zero f)
  | VStr s => negb (String.eqb s "")
  | VList l => match l with [] => false | _ => true end
  | VDict d => match d with [] => false | _ => true end
  | VDatetime _ => true
  end.

(** [v == 0.0] *)
Definition eq_float_zero (v : value) : bool :=
  match v with
  | VBool b => negb b
  | VInt n => n =? 0
  | VFloat f => float_is_zero f
  | _ => false
  end.

(** The integer part of a finite float, rounded towards zero. *)
Definition float_trunc (s : bool) (m : positive) (e : Z) : Z :=
  let a := if 0 <=? e then Z.pos m * 2 ^ e else Z.pos m / 2 ^ (- e) in
  if s then - a else a.

(** ** Strings *)

Definition is_whitespace (c : ascii) : bool :=
  let n := N_of_ascii c in
  ((9 <=? n) && (n <=? 13) || (28 <=? n) && (n <=? 32)
   || (n =? 133) || (n =? 160))%N.

Fixpoint mem_char (c : ascii) (chars : string) : bool :=
  match chars with
  | EmptyString => false
  | String c' rest => if Ascii.eqb c c' then true else mem_char c rest
  end.

(** Drop characters from the left while [p] holds. *)
Fixpoint lstrip_while (p : ascii -> bool) (s : string) : string :=
  match s with
  | EmptyString => EmptyString
  | String c rest => if p c then lstrip_while p rest else s
  end.

Fixpoint string_rev_onto (s acc : string) : string :=
  match s with
  | EmptyString => acc
  | String c rest => string_rev_onto rest (String c acc)
  end.

Definition string_rev (s : string) : string := string_rev_onto s EmptyString.

Definition rstrip_while (p : ascii -> bool) (s : string) : string :=
  string_rev (lstrip_while p (string_rev s)).

(** [s.lstrip(chars)]: the argument is a set of characters, each of
    which is removed from the left end for as long as one is found. *)
Definition lstrip (chars : string) (s : string) : string :=
  lstrip_while (fun c => mem_char c chars) s.

(** [s.strip()] and [s.rstrip()] *)
Definition rstrip_ws (s : string) : string := rstrip_while is_whitespace s.
Definition strip_ws (s : string) : string :=
  rstrip_while is_whitespace (lstrip_while is_whitespace s).

Definition newline : ascii := ascii_of_N 10.
Definition space : ascii := ascii_of_N 32.

(** [s.replace(old, new)] for single characters. *)
Fixpoint replace_char (old new : ascii) (s : string) : string :=
  match s with
  | EmptyString => EmptyString
  | String c rest =>
      String (if Ascii.eqb c old then new else c) (replace_char old new rest)
  end.

Definition is_ascii_alnum (c : ascii) : bool :=
  let n := N_of_ascii c in
  ((48 <=? n) && (n <=? 57) || (65 <=? n) && (n <=? 90)
   || (97 <=? n) && (n <=? 122))%N.

(** [re.sub(r'[^a-zA-Z0-9]', '', s)] *)
Fixpoint re_sub_non_alnum (s : string) : string :=
  match s with
  | EmptyString => EmptyString
  | String c rest =>
      if is_ascii_alnum c then String c (re_sub_non_alnum rest)
      else re_sub_non_alnum rest
  end.

Definition lower_char (c : ascii) : ascii :=
  let n := N_of_ascii c in
  if ((65 <=? n) && (n <=? 90)
      || (192 <=? n) && (n <=? 222) && negb (n =? 215))%N
  then ascii_of_N (n + 32) else c.

(** [s.lower()] *)
Fixpoint lower (s : string) : string :=
  match s with
  | EmptyString => EmptyString
  | String c rest => String (lower_char c) (lower rest)
  end.

(** [needle in s] for two strings. *)
Fixpoint is_prefix (p s : string) : bool :=
  match p, s with
  | EmptyString, _ => true
  | String a p', String b s' => Ascii.eqb a b && is_prefix p' s'
  | String _ _, EmptyString => false
  end.

Fixpoint is_substring (needle s : string) : bool :=
  is_prefix needle s ||
  match s with
  | EmptyString => false
  | String _ rest => is_substring needle rest
  end.

Fixpoint string_drop (n : nat) (s : string) : string :=
  match n, s with
  | O, _ => s
  | S n', String _ rest => string_drop n' rest
  | S _, EmptyString => EmptyString
  end.

Fixpoint chars_of (s : string) : list value :=
  match s with
  | EmptyString => []
  | String c rest => VStr (String c EmptyString) :: chars_of rest
  end.

(** ** Conversions *)

Definition str_of_Z (n : Z) : string := pretty n.

(** What the interpreter does and the embedding leaves open: the digits
    [repr] prints for a finite non-zero float, the text [str] gives for a
    list, a dictionary or a datetime, and [int] applied to a string. *)
Class Runtime := {
  repr_finite : bool -> positive -> Z -> string;
  repr_object : value -> string;
  int_of_str : string -> result Z
}.

(** [str(v)] *)
Definition str `{Runtime} (v : value) : string :=
  match v with
  | VNone => "None"
  | VBool b => if b then "True" else "False"
  | VInt n => str_of_Z n
  | VFloat (S754_zero s) => if s then "-0.0" else "0.0"
  | VFloat (S754_infinity s) => if s then "-inf" else "inf"
  | VFloat S754_nan => "nan"
  | VFloat (S754_finite s m e) => repr_finite s m e
  | VStr s => s
  | VList _ | VDict _ | VDatetime _ => repr_object v
  end.

Definition int_of_float (f : spec_float) : result Z :=
  match f with
  | S754_zero _ => Ok 0
  | S754_infinity _ => Raise OverflowError
  | S754_nan => Raise ValueError
  | S754_finite s m e => Ok (float_trunc s m e)
  end.

(** [int(v)] *)
Definition int `{Runtime} (v : value) : result Z :=
  match v with
  | VBool b => Ok (if b then 1 else 0)
  | VInt n => Ok n
  | VFloat f => int_of_float f
  | VStr s => int_of_str s
  | _ => Raise TypeError
  end.

(** The argument of a [%i] conversion. *)
Definition format_i (v : value) : result string :=
  match v with
  | VBool b => Ok (if b then "1" else "0")
  | VInt n => Ok (str_of_Z n)
  | VFloat f => n ← int_of_float f; Ok (str_of_Z n)
  | _ => Raise TypeError
  end.

(** The items a [for] loop, [list()] or [set.update] draws from [v]. *)
Definition iter (v : value) : result (list value) :=
  match v with
  | VList l => Ok l
  | VDict d => Ok (map (fun kv => VStr (fst kv)) d)
  | VStr s => Ok (chars_of s)
  | _ => Raise TypeError
  end.

Definition is_str (k : string) (v : value) : bool :=
  match v with VStr s => String.eqb s k | _ => false end.

(** [k in v] for a string [k]. *)
Definition contains (k : string) (v : value) : result bool :=
  match v with
  | VDict d => Ok (bool_decide (is_Some (dict_lookup k d)))
  | VList l => Ok (existsb (is_str k) l)
  | VStr s => Ok (is_substring k s)
  | _ => Raise TypeError
  end.

Definition hashable (v : value) : bool :=
  match v with VList _ | VDict _ => false | _ => true end.

(** [table.get(key, default)] on a dictionary with string keys: the key
    is hashed first, and only a string can be found. *)
Definition table_get (table : list (string * value)) (key default : value) : result value :=
  if hashable key then
    match key with
    | VStr s =>
        match dict_lookup s table with
        | Some v => Ok v
        | None => Ok default
        end
    | _ => Ok default
    end
  else Raise TypeError.

(** [a or b] *)
Definition py_or (a b : value) : value := if truthy a then a else b.

(** [v.lstrip(chars)], a method of [str] only. *)
Definition method_lstrip (v : value) (chars : string) : result string :=
  match v with
  | VStr s => Ok (lstrip chars s)
  | _ => Raise AttributeError
  end.

(** ** Generators

    A generator that is run to its end has yielded a list of items and
    has then either returned or raised. *)
Record gen (A : Type) := Gen { yielded : list A; raised : option exn }.
Arguments Gen {A} yielded raised.
Arguments yielded {A} g.
Arguments raised {A} g.

Definition gen_raise {A} (e : exn) : gen A := Gen [] (Some e).
Definition gen_return {A} : gen A := Gen [] None.
Definition gen_yield {A} (a : A) (rest : gen A) : gen A :=
  Gen (a :: yielded rest) (raised rest).

(** [for x in l: body], where the body yields an item, skips the
    element with [continue], or raises. *)
Fixpoint gen_for {A B} (body : A -> result (option B)) (l : list A) : gen B :=
  match l with
  | [] => gen_return
  | x :: rest =>
      match body x with
      | Raise e => gen_raise e
      | Ok None => gen_for body rest
      | Ok (Some b) => gen_yield b (gen_for body rest)
      end
  end.

(** [yield from g1; yield from g2] *)
Definition gen_seq {A} (g1 g2 : gen A) : gen A :=
  match raised g1 with
  | Some e => g1
  | None => Gen (yielded g1 ++ yielded g2) (raised g2)
  end.


(** [s.rstrip(chars)] *)
Definition rstrip (chars : string) (s : string) : string :=
  rstrip_while (fun c => mem_char c chars) s.

(** [s.split(sep)] for a separator of one character: never empty. *)
Fixpoint split (sep : ascii) (s : string) : list string :=
  match s with
  | EmptyString => [EmptyString]
  | String c rest =>
      if Ascii.eqb c sep then EmptyString :: split sep rest
      else
        match split sep rest with
        | segment :: segments => String c segment :: segments
        | [] => [String c EmptyString]
        end
  end.

(** [l[-1]] *)
Definition last_item (l : list string) : result string :=
  match rev l with
  | x :: _ => Ok x
  | [] => Raise (OtherError "IndexError")
  end.

(** [v.split('/')[-1]], [split] being a method of [str] only. *)
Definition method_split_last (v : value) (sep : ascii) : result string :=
  match v with
  | VStr s => last_item (split sep s)
  | _ => Raise AttributeError
  end.

End Py.

(** * The service base classes

    [bugwarrior.services.Issue] and [Service] hold a record with its
    extra data and the service configuration; their helpers are taken as
    given. *)

Module Base.
Import Py.

Record Issue (C : Type) := MkIssue {
  record : value;
  extra : value;
  config : C
}.
Arguments MkIssue {C} record extra config.
Arguments record {C} i.
Arguments extra {C} i.
Arguments config {C} i.

(** Helpers of the base classes: [Issue.parse_date],
    [Service.build_annotations]. *)
Class Helpers := {
  parse_date : value -> result value;
  build_annotations : list (value * string) -> string -> result value
}.

(** [Service.get_issue_for_record(record, extra)] *)
Definition get_issue_for_record {C} (cfg : C) (rec : value) (ext : value) : Issue C :=
  MkIssue rec ext cfg.

End Base.

(** * Gerrit *)

Module Gerrit.
Import Py Base.

Record GerritConfig := {
  base_uri : string;
  username : string;
  password : string;
  ssl_ca_path : option string;
  query : string;
  default_priority : string
}.

Definition SUMMARY := "gerritsummary".
Definition URL := "gerriturl".
Definition FOREIGN_ID := "gerritid".
Definition BRANCH := "gerritbranch".
Definition TOPIC := "gerrittopic".
Definition STATUS := "gerritstatus".
Definition WORK_IN_PROGRESS := "gerritwip".

(** [GerritIssue.to_taskwarrior] *)
Definition to_taskwarrior `{Runtime} (self : Issue GerritConfig) : result value :=
  project ← getitem (record self) "project";
  annotations ← getitem (extra self) "annotations";
  url ← getitem (extra self) "url";
  number ← getitem (record self) "_number";
  subject ← getitem (record self) "subject";
  branch ← getitem (record self) "branch";
  topic ← get_default (record self) "topic" (VStr "notopic");
  status ← get_default (record self) "status" (VStr "");
  wip ← get_default (record self) "work_in_progress" (VInt 0);
  wip ← int wip;
  Ok (VDict [
    ("project", project);
    ("annotations", annotations);
    (URL, url);
    ("priority", VStr (default_priority (config self)));
    ("tags", VList []);
    (FOREIGN_ID, number);
    (SUMMARY, subject);
    (BRANCH, branch);
    (TOPIC, topic);
    (STATUS, status);
    (WORK_IN_PROGRESS, VInt wip)
  ]).

(** The HTTP session: [session.get], [Response.raise_for_status] and
    [json.loads] belong to libraries. *)
Record Response := { status_code : Z; text : string }.

Class Http := {
  session_get : string -> result Response;
  raise_for_status : Response -> result unit;
  json_loads : string -> result value
}.

Record GerritService := {
  config : GerritConfig;
  query_string : string
}.

(** The part of [GerritService.__init__] that [issues] depends on. *)
Definition init (cfg : GerritConfig) : GerritService :=
  {| config := cfg;
     query_string := query cfg +:+ "&o=MESSAGES&o=DETAILED_ACCOUNTS" |}.

(** [GerritService.build_url] *)
Definition build_url (self : GerritService) (change : value) : result string :=
  number ← getitem change "_number";
  n ← format_i number;
  Ok (base_uri (config self) +:+ "/#/c/" +:+ n +:+ "/").

(** The [for key in ['name', 'username', 'email']: ... else: ...] loop
    of [annotations]. *)
Fixpoint annotation_username (item : value) (keys : list string) : result value :=
  match keys with
  | [] =>
      author ← getitem item "author";
      getitem author "_account_id"
  | key :: rest =>
      author ← getitem item "author";
      found ← contains key author;
      if found : bool then
        author ← getitem item "author";
        getitem author key
      else annotation_username item rest
  end.

(** The message text of one annotation. *)
Definition annotation_message `{Runtime} (item : value) : result string :=
  message ← getitem item "message";
  message ← method_lstrip message "Patch Set ";
  revision ← getitem item "_revision_number";
  Ok (replace_char newline space
        (strip_ws (lstrip (str revision +:+ ":") message))).

Fixpoint annotation_entries `{Runtime} (items : list value) : result (list (value * string)) :=
  match items with
  | [] => Ok []
  | item :: rest =>
      username ← annotation_username item ["name"; "username"; "email"];
      message ← annotation_message item;
      entries ← annotation_entries rest;
      Ok ((username, message) :: entries)
  end.

(** [GerritService.annotations] *)
Definition annotations `{Runtime} `{Helpers} (self : GerritService) (change : value) : result value :=
  messages ← getitem change "messages";
  items ← iter messages;
  entries ← annotation_entries items;
  url ← build_url self change;
  build_annotations entries url.

(** [GerritService.issues] *)
Definition issues `{Runtime} `{Helpers} `{Http} (self : GerritService)
  : gen (Issue GerritConfig) :=
  let url := base_uri (config self) +:+ "/a/changes/?q=" +:+ query_string self in
  match session_get url with
  | Raise e => gen_raise e
  | Ok response =>
  match raise_for_status response with
  | Raise e => gen_raise e
  | Ok _ =>
  let body := string_drop 4 (text response) in
  match json_loads body with
  | Raise e => gen_raise e
  | Ok changes =>
  match iter changes with
  | Raise e => gen_raise e
  | Ok changes =>
      gen_for (fun change =>
        url ← build_url self change;
        annotations ← annotations self change;
        let extra := VDict [("url", VStr url); ("annotations", annotations)] in
        Ok (Some (get_issue_for_record (config self) change extra)))
        changes
  end end end end.


(** The credentials object the session is given. *)
Inductive auth :=
| HTTPDigestAuth (user password : string)
| HTTPBasicAuth (user password : string).

(** The choice of [GerritService.__init__] between digest and basic
    authentication, from the [www-authenticate] header of the probe
    response ([None] when the server sent none) and the password that was
    looked up. *)
Definition session_auth (cfg : GerritConfig) (password : string)
  (www_authenticate : option string) : auth :=
  let header := match www_authenticate with Some h => h | None => "" end in
  if is_substring "digest" (lower header)
  then HTTPDigestAuth (username cfg) password
  else HTTPBasicAuth (username cfg) password.

(** [GerritService.get_keyring_service] *)
Definition get_keyring_service (cfg : GerritConfig) : string :=
  "gerrit://" +:+ base_uri cfg.

End Gerrit.

(** * Phabricator *)

Module Phab.
Import Py Base.

Record PhabricatorConfig := {
  user_phids : list string;
  project_phids : list string;
  host : option string;
  ignore_cc : option bool;
  ignore_author : option bool;
  ignore_owner : bool;
  ignore_reviewers : bool;
  only_if_assigned : bool;
  target : string;
  default_priority : string
}.

(** ** PhabricatorIssue *)

Definition PRIORITY_MAP : list (string * value) := [
  ("Needs Triage", VNone);
  ("Unbreak Now!", VStr "H");
  ("High", VStr "H");
  ("Normal", VStr "M");
  ("Low", VStr "L");
  ("Wishlist", VStr "L")
].

(** [PhabricatorIssue.priority] *)
Definition priority (self : Issue PhabricatorConfig) : result value :=
  p ← get (record self) "priority";
  mapped ← table_get PRIORITY_MAP p VNone;
  Ok (py_or mapped (VStr (default_priority (config self)))).

(** ** PhabricatorService *)

Record PhabricatorService := {
  config : PhabricatorConfig;
  self_ignore_cc : bool;
  self_ignore_author : bool
}.

(** [PhabricatorService.__init__]: the two flags default to
    [only_if_assigned]. *)
Definition init (cfg : PhabricatorConfig) : PhabricatorService :=
  {| config := cfg;
     self_ignore_cc :=
       match ignore_cc cfg with Some b => b | None => only_if_assigned cfg end;
     self_ignore_author :=
       match ignore_author cfg with Some b => b | None => only_if_assigned cfg end |}.

(** The keyword argument that accompanies [status='status-open'] in a
    [maniphest.query] call. *)
Inductive constraint :=
| NoConstraint
| OwnerPHIDs (phids : list string)
| CcPHIDs (phids : list string)
| AuthorPHIDs (phids : list string)
| ProjectPHIDs (phids : list string).

Inductive call :=
| ManiphestQuery (c : constraint)
| DifferentialQuery.

(** The Conduit client: a query answers with its records (keyed by PHID
    for Maniphest) or raises. *)
Class Conduit := {
  maniphest_query : constraint -> result (list (string * value));
  differential_query : result (list value)
}.

Inductive level := INFO | WARN.

(** What a run leaves behind: the API calls made and the log lines
    written, oldest first. *)
Record world := World {
  calls : list call;
  logged : list (level * string)
}.

Definition M (A : Type) : Type := world -> world * result A.

#[global] Instance M_ret : MRet M := fun A a w => (w, Ok a).
#[global] Instance M_bind : MBind M := fun A B f m w =>
  match m w with
  | (w', Ok a) => f a w'
  | (w', Raise e) => (w', Raise e)
  end.

Definition api_maniphest_query `{Conduit} (c : constraint) : M (list (string * value)) :=
  fun w => (World (calls w ++ [ManiphestQuery c]) (logged w), maniphest_query c).

Definition api_differential_query `{Conduit} : M (list value) :=
  fun w => (World (calls w ++ [DifferentialQuery]) (logged w), differential_query).

Definition log_write (l : level) (msg : string) : M unit :=
  fun w => (World (calls w) (logged w ++ [(l, msg)]), Ok tt).

Definition raise {A} (e : exn) : M A := fun w => (w, Raise e).

Definition nonempty {A} (l : list A) : bool :=
  match l with [] => false | _ => true end.

(** The comprehension that deletes duplicates: an item stays when the
    text of its record has not been seen before. *)
Fixpoint delete_duplicates `{Runtime} (seen : gset string) (tasks : list (string * value))
  : list (string * value) :=
  match tasks with
  | [] => []
  | item :: rest =>
      let key := str (snd item) in
      if bool_decide (key ∈ seen) then delete_duplicates seen rest
      else item :: delete_duplicates ({[key]} ∪ seen) rest
  end.

(** The body of the [try] block of [tasks]. A local that was never
    assigned is [None]. *)
Definition query_tasks `{Runtime} `{Conduit} (self : PhabricatorService)
  : M (list (string * value)) :=
  let cfg := config self in
  if nonempty (user_phids cfg) || nonempty (project_phids cfg) then
    tasks ← (if nonempty (user_phids cfg) then
               tasks_owner ← api_maniphest_query (OwnerPHIDs (user_phids cfg));
               tasks_cc ← api_maniphest_query (CcPHIDs (user_phids cfg));
               tasks_author ← api_maniphest_query (AuthorPHIDs (user_phids cfg));
               let tasks := tasks_owner ++ tasks_cc ++ tasks_author in
               mret (Some (delete_duplicates ∅ tasks))
             else mret None);
    tasks ← (if nonempty (project_phids cfg) then
               tasks ← api_maniphest_query (ProjectPHIDs (project_phids cfg));
               mret (Some tasks)
             else mret tasks);
    match tasks with
    | Some tasks => mret tasks
    | None => raise (OtherError "UnboundLocalError")
    end
  else
    api_maniphest_query NoConstraint.

(** A Python set is kept as the list of its elements; the filters only
    ask whether an intersection is empty. *)
Definition pyset := list value.

Definition set_add (s : pyset) (v : value) : result pyset :=
  if hashable v then Ok (s ++ [v]) else Raise TypeError.

Definition set_update (s : pyset) (v : value) : result pyset :=
  items ← iter v;
  if forallb hashable items then Ok (s ++ items) else Raise TypeError.

Definition set_of (v : value) : result pyset := set_update [] v.

(** [s.intersection(phids)] *)
Definition intersection (s : pyset) (phids : list string) : pyset :=
  List.filter (fun v => existsb (fun p => is_str p v) phids) s.

Definition intersects (s : pyset) (phids : list string) : bool :=
  (0 <? Z.of_nat (length (intersection s phids))).

(** The relevance set of a task. *)
Definition task_relevant_to (self : PhabricatorService) (task : value) : result pyset :=
  let s : pyset := [] in
  s ← (if negb (self_ignore_cc self) then
         cc ← getitem task "ccPHIDs"; set_update s cc
       else Ok s);
  s ← (if negb (ignore_owner (config self)) then
         owner ← getitem task "ownerPHID"; set_add s owner
       else Ok s);
  s ← (if negb (self_ignore_author self) then
         author ← getitem task "authorPHID"; set_add s author
       else Ok s);
  Ok s.

(** The value of [this_task_matches] at the end of the loop body. *)
Definition this_task_matches (self : PhabricatorService) (task : value) : result bool :=
  let cfg := config self in
  let m := false in
  let m := if negb (nonempty (user_phids cfg)) && negb (nonempty (project_phids cfg))
           then true else m in
  m ← (if nonempty (user_phids cfg) then
         s ← task_relevant_to self task;
         Ok (if intersects s (user_phids cfg) then true else m)
       else Ok m);
  m ← (if nonempty (project_phids cfg) then
         projects ← getitem task "projectPHIDs";
         s ← set_of projects;
         Ok (if intersects s (project_phids cfg) then true else m)
       else Ok m);
  Ok m.

Definition task_body (self : PhabricatorService) (item : string * value)
  : result (option (Issue PhabricatorConfig)) :=
  let task := snd item in
  let project := target (config self) in
  m ← this_task_matches self task;
  if negb m then Ok None
  else
    let extra := VDict [("project", VStr project); ("type", VStr "issue")] in
    Ok (Some (get_issue_for_record (config self) task extra)).

(** [PhabricatorService.tasks] *)
Definition tasks `{Runtime} `{Conduit} (self : PhabricatorService)
  : world -> world * gen (Issue PhabricatorConfig) :=
  fun w =>
    match query_tasks self w with
    | (w, Raise (APIError err)) =>
        let (w, _) := log_write WARN ("Could not read tasks from Maniphest: " +:+ err) w in
        (w, gen_return)
    | (w, Raise e) => (w, gen_raise e)
    | (w, Ok tasks) =>
        let (w, _) := log_write INFO
          ("Found " +:+ str_of_Z (Z.of_nat (length tasks)) +:+ " tasks") w in
        (w, gen_for (task_body self) tasks)
    end.

(** The relevance set of a revision. *)
Definition diff_relevant_to (self : PhabricatorService) (diff : value) : result pyset :=
  let s : pyset := [] in
  s ← (if negb (ignore_reviewers (config self)) then
         reviewers ← getitem diff "reviewers";
         reviewers ← iter reviewers;
         set_update s (VList reviewers)
       else Ok s);
  s ← (if negb (self_ignore_cc self) then
         ccs ← getitem diff "ccs"; set_update s ccs
       else Ok s);
  s ← (if negb (self_ignore_author self) then
         author ← getitem diff "authorPHID"; set_add s author
       else Ok s);
  Ok s.

(** [phabricator_projects + [diff['repositoryPHID']]] *)
Definition list_add (a : value) (b : list value) : result value :=
  match a with
  | VList l => Ok (VList (l ++ b))
  | _ => Raise TypeError
  end.

(** The project set of a revision; a missing tag field counts as empty. *)
Definition diff_projects (diff : value) : result pyset :=
  phabricator_projects ←
    match getitem diff "phabricator:projects" with
    | Ok v => Ok v
    | Raise (KeyError _) => Ok (VList [])
    | Raise e => Raise e
    end;
  repository ← getitem diff "repositoryPHID";
  all ← list_add phabricator_projects [repository];
  set_of all.

Definition this_diff_matches (self : PhabricatorService) (diff : value) : result bool :=
  let cfg := config self in
  let m := false in
  let m := if negb (nonempty (user_phids cfg)) && negb (nonempty (project_phids cfg))
           then true else m in
  m ← (if nonempty (user_phids cfg) then
         s ← diff_relevant_to self diff;
         Ok (if intersects s (user_phids cfg) then true else m)
       else Ok m);
  m ← (if nonempty (project_phids cfg) then
         s ← diff_projects diff;
         Ok (if intersects s (project_phids cfg) then true else m)
       else Ok m);
  Ok m.

Definition diff_body (self : PhabricatorService) (diff : value)
  : result (option (Issue PhabricatorConfig)) :=
  let project := target (config self) in
  m ← this_diff_matches self diff;
  if negb m then Ok None
  else
    let extra := VDict [("project", VStr project); ("type", VStr "pull_request")] in
    Ok (Some (get_issue_for_record (config self) diff extra)).

(** [PhabricatorService.revisions] *)
Definition revisions `{Conduit} (self : PhabricatorService)
  : world -> world * gen (Issue PhabricatorConfig) :=
  fun w =>
    match api_differential_query w with
    | (w, Raise (APIError err)) =>
        let (w, _) := log_write WARN ("Could not read revisions from Differential: " +:+ err) w in
        (w, gen_return)
    | (w, Raise e) => (w, gen_raise e)
    | (w, Ok diffs) =>
        let (w, _) := log_write INFO
          ("Found " +:+ str_of_Z (Z.of_nat (length diffs)) +:+ " differentials") w in
        (w, gen_for (diff_body self) diffs)
    end.

(** [PhabricatorService.issues]: the revisions are only asked for once
    the tasks have run to their end. *)
Definition issues `{Runtime} `{Conduit} (self : PhabricatorService)
  : world -> world * gen (Issue PhabricatorConfig) :=
  fun w =>
    let (w1, g1) := tasks self w in
    match raised g1 with
    | Some _ => (w1, g1)
    | None =>
        let (w2, g2) := revisions self w1 in
        (w2, gen_seq g1 g2)
    end.


Definition TITLE := "phabricatortitle".
Definition URL := "phabricatorurl".
Definition TYPE := "phabricatortype".
Definition OBJECT_NAME := "phabricatorid".

Definition slash : ascii := ascii_of_N 47.

(** [PhabricatorIssue.to_taskwarrior] *)
Definition to_taskwarrior (self : Issue PhabricatorConfig) : result value :=
  project ← getitem (extra self) "project";
  priority ← priority self;
  annotations ← get_default (extra self) "annotations" (VList []);
  uri ← getitem (record self) "uri";
  type ← getitem (extra self) "type";
  title ← getitem (record self) "title";
  uri' ← getitem (record self) "uri";
  name ← method_split_last uri' slash;
  Ok (VDict [
    ("project", project);
    ("priority", priority);
    ("annotations", annotations);
    (URL, uri);
    (TYPE, type);
    (TITLE, title);
    (OBJECT_NAME, VStr name)
  ]).

End Phab.

(** * Redmine *)

Module Redmine.
Import Py Base.

Record RedMineConfig := {
  project_name : string;
  url : string;
  key : string;
  issue_limit : Z;
  query : string;
  login : string;
  password : string;
  verify_ssl : bool;
  only_if_assigned : bool;
  default_priority : string
}.

Definition URL := "redmineurl".
Definition SUBJECT := "redminesubject".
Definition ID := "redmineid".
Definition DESCRIPTION := "redminedescription".
Definition TRACKER := "redminetracker".
Definition STATUS := "redminestatus".
Definition AUTHOR := "redmineauthor".
Definition CATEGORY := "redminecategory".
Definition START_DATE := "redminestartdate".
Definition SPENT_HOURS := "redminespenthours".
Definition ESTIMATED_HOURS := "redmineestimatedhours".
Definition CREATED_ON := "redminecreatedon".
Definition UPDATED_ON := "redmineupdatedon".
Definition DUEDATE := "redmineduedate".
Definition ASSIGNED_TO := "redmineassignedto".
Definition PROJECT_NAME := "redmineprojectname".

Definition PRIORITY_MAP : list (string * value) := [
  ("Low", VStr "L");
  ("Normal", VStr "M");
  ("High", VStr "H");
  ("Urgent", VStr "H");
  ("Immediate", VStr "H")
].

(** [TaskWarriorShellout()._execute('calc', text)]: the standard output
    and standard error of the [task calc] command. *)
Class TaskWarrior := {
  execute_calc : string -> result (string * string)
}.

(** [RedMineIssue.get_priority] *)
Definition get_priority (self : Issue RedMineConfig) : result value :=
  p ← get_default (record self) "priority" (VDict []);
  name ← get p "name";
  table_get PRIORITY_MAP name (VStr (default_priority (config self))).

(** [RedMineIssue.get_issue_url] *)
Definition get_issue_url `{Runtime} (self : Issue RedMineConfig) : result string :=
  id ← getitem (record self) "id";
  Ok (url (config self) +:+ "/issues/" +:+ str id).

(** [RedMineIssue.get_converted_hours] *)
Definition get_converted_hours `{TaskWarrior} (estimated_hours : string) : result value :=
  calc ← execute_calc estimated_hours;
  Ok (VStr (rstrip_ws (fst calc))).

(** [re.sub(r'[^a-zA-Z0-9]', '', v)] accepts a string only. *)
Definition re_sub (v : value) : result string :=
  match v with
  | VStr s => Ok (re_sub_non_alnum s)
  | _ => Raise TypeError
  end.

(** [RedMineIssue.get_project_name] *)
Definition get_project_name (self : Issue RedMineConfig) : result value :=
  if negb (String.eqb (project_name (config self)) "") then
    Ok (VStr (project_name (config self)))
  else
    project ← getitem (record self) "project";
    name ← getitem project "name";
    stripped ← re_sub name;
    Ok (VStr (lower stripped)).

(** [d.replace(microsecond=0)] *)
Definition replace_microsecond_0 (v : value) : result value :=
  match v with
  | VDatetime t =>
      Ok (VDatetime {| year := year t; month := month t; day := day t;
                       hour := hour t; minute := minute t; second := second t;
                       microsecond := 0; utcoffset := utcoffset t |})
  | _ => Raise AttributeError
  end.

(** [if d: d = self.parse_date(d).replace(microsecond=0)] *)
Definition convert_date `{Helpers} (d : value) : result value :=
  if truthy d then
    parsed ← parse_date d;
    replace_microsecond_0 parsed
  else Ok d.

(** [if h or h == 0.0: h = self.get_converted_hours(str(h) + ' hours')] *)
Definition convert_hours `{Runtime} `{TaskWarrior} (h : value) : result value :=
  if truthy h || eq_float_zero h then
    get_converted_hours (str h +:+ " hours")
  else Ok h.

(** [if o: o = o['name']] *)
Definition name_of (o : value) : result value :=
  if truthy o then getitem o "name" else Ok o.

(** [RedMineIssue.to_taskwarrior] *)
Definition to_taskwarrior `{Runtime} `{Helpers} `{TaskWarrior}
  (self : Issue RedMineConfig) : result value :=
  let r := record self in
  due_date ← get r "due_date";
  start_date ← get r "start_date";
  updated_on ← get r "updated_on";
  created_on ← get r "created_on";
  spent_hours ← get r "spent_hours";
  estimated_hours ← get r "estimated_hours";
  category ← get r "category";
  assigned_to ← get r "assigned_to";
  due_date ← convert_date due_date;
  start_date ← convert_date start_date;
  updated_on ← convert_date updated_on;
  created_on ← convert_date created_on;
  spent_hours ← convert_hours spent_hours;
  estimated_hours ← convert_hours estimated_hours;
  category ← name_of category;
  assigned_to ← name_of assigned_to;
  project ← get_project_name self;
  annotations ← get_default (extra self) "annotations" (VList []);
  priority ← get_priority self;
  issue_url ← get_issue_url self;
  subject ← getitem r "subject";
  id ← getitem r "id";
  description ← get_default r "description" (VStr "");
  tracker ← (o ← getitem r "tracker"; getitem o "name");
  status ← (o ← getitem r "status"; getitem o "name");
  author ← (o ← getitem r "author"; getitem o "name");
  project_name ← (o ← getitem r "project"; getitem o "name");
  Ok (VDict [
    ("project", project);
    ("annotations", annotations);
    ("priority", priority);
    (URL, VStr issue_url);
    (SUBJECT, subject);
    (ID, id);
    (DESCRIPTION, description);
    (TRACKER, tracker);
    (STATUS, status);
    (AUTHOR, author);
    (PROJECT_NAME, project_name);
    (ASSIGNED_TO, assigned_to);
    (CATEGORY, category);
    (START_DATE, start_date);
    (CREATED_ON, created_on);
    (UPDATED_ON, updated_on);
    (DUEDATE, due_date);
    (ESTIMATED_HOURS, estimated_hours);
    (SPENT_HOURS, spent_hours)
  ]).


(** ** RedMineClient *)

Record RedMineClient := {
  client_url : string;
  client_key : string;
  client_auth : option (string * string);
  client_issue_limit : Z;
  client_verify_ssl : bool
}.

(** The keyword arguments of a [requests.get] call. *)
Record request := {
  req_url : string;
  req_headers : list (string * string);
  req_params : list (string * value);
  req_auth : option (string * string);
  req_verify : bool
}.

(** [requests.get] followed by [Client.json_response]: the decoded body
    of the answer, or the exception either of them raises. *)
Class Requests := {
  get_json : request -> result value
}.

Definition slash : ascii := ascii_of_N 47.

(** [RedMineClient.call_api] *)
Definition call_api `{Requests} (self : RedMineClient) (uri : string)
  (params : list (string * value)) : result value :=
  let url := rstrip "/" (client_url self) +:+ uri in
  get_json {| req_url := url;
              req_headers := [("X-Redmine-API-Key", client_key self)];
              req_params := params;
              req_auth := client_auth self;
              req_verify := client_verify_ssl self |}.

(** [RedMineClient.find_issues] *)
Definition find_issues `{Requests} (self : RedMineClient) (issue_limit : option Z)
  (query : string) (only_if_assigned : bool) : result value :=
  let args : list (string * value) := [] in
  let url := "/issues.json" +:+ "?" +:+ query in
  let args := match issue_limit with
              | Some limit => args ++ [("limit", VInt limit)]
              | None => args
              end in
  let args := if only_if_assigned then args ++ [("assigned_to_id", VStr "me")]
              else args in
  answer ← call_api self url args;
  getitem answer "issues".

(** ** RedMineService *)

(** [Service.get_password(key, login)], which reads the configuration
    or the keyring, and the extra data [get_issue_for_record] gives an
    issue when the caller passes none. *)
Class ServiceBase := {
  get_password : string -> option string -> result string;
  default_extra : value
}.

Record RedMineService := {
  config : RedMineConfig;
  key_secret : string;
  client : RedMineClient
}.

(** [RedMineService.__init__] *)
Definition init `{ServiceBase} (cfg : RedMineConfig) : result RedMineService :=
  secret ← get_password "key" None;
  password ← (if negb (String.eqb (login cfg) "")
              then p ← get_password "password" (Some (login cfg)); Ok (Some p)
              else Ok None);
  let auth :=
    if negb (String.eqb (login cfg) "") &&
       match password with Some p => negb (String.eqb p "") | None => false end
    then match password with Some p => Some (login cfg, p) | None => None end
    else None in
  Ok {| config := cfg;
        key_secret := secret;
        client := {| client_url := url cfg;
                     client_key := secret;
                     client_auth := auth;
                     client_issue_limit := issue_limit cfg;
                     client_verify_ssl := verify_ssl cfg |} |}.

(** [RedMineService.get_keyring_service] *)
Definition get_keyring_service (cfg : RedMineConfig) : string :=
  "redmine://" +:+ login cfg +:+ "@" +:+ url cfg +:+ "/".

(** [RedMineService.issues] *)
Definition issues `{Requests} `{ServiceBase} (self : RedMineService)
  : gen (Issue RedMineConfig) :=
  match find_issues (client self) (Some (issue_limit (config self)))
          (query (config self)) (only_if_assigned (config self)) with
  | Raise e => gen_raise e
  | Ok issues =>
      match iter issues with
      | Raise e => gen_raise e
      | Ok issues =>
          gen_for (fun issue =>
                     Ok (Some (get_issue_for_record (config self) issue default_extra)))
                  issues
      end
  end.

End Redmine.

(** * Stand-ins for the libraries, used by the worked examples *)

Module Sample.
Import Py Base.

(** Prints containers the way Python does when no string in them needs
    an escape. *)
Fixpoint show (v : value) : string :=
  match v with
  | VNone => "None"
  | VBool b => if b then "True" else "False"
  | VInt n => str_of_Z n
  | VFloat _ => "<float>"
  | VStr s => "'" +:+ s +:+ "'"
  | VList l =>
      "[" +:+ (fix go (l : list value) : string :=
                 match l with
                 | [] => ""
                 | [x] => show x
                 | x :: rest => show x +:+ ", " +:+ go rest
                 end) l +:+ "]"
  | VDict d =>
      "{" +:+ (fix go (d : list (string * value)) : string :=
                 match d with
                 | [] => ""
                 | [(k, x)] => "'" +:+ k +:+ "': " +:+ show x
                 | (k, x) :: rest => "'" +:+ k +:+ "': " +:+ show x +:+ ", " +:+ go rest
                 end) d +:+ "}"
  | VDatetime _ => "<datetime>"
  end.

Definition runtime : Runtime := {|
  repr_finite := fun _ _ _ => "<float>";
  repr_object := show;
  int_of_str := fun _ => Raise ValueError
|}.

Definition epoch : datetime := {|
  year := 1970; month := 1; day := 1;
  hour := 0; minute := 0; second := 0; microsecond := 0;
  utcoffset := Some 0
|}.

Definition helpers : Helpers := {|
  parse_date := fun v =>
    match v with VStr _ => Ok (VDatetime epoch) | _ => Raise TypeError end;
  build_annotations := fun entries url =>
    Ok (VList (map (fun e => VStr ("@" +:+ @str runtime (fst e) +:+ " - " +:+ snd e)) entries))
|}.

(** A server that answers every request with status 503. *)
Definition http_unavailable : Gerrit.Http := {|
  Gerrit.session_get := fun _ => Ok {| Gerrit.status_code := 503; Gerrit.text := "" |};
  Gerrit.raise_for_status := fun r =>
    if (400 <=? Gerrit.status_code r) && (Gerrit.status_code r <? 600)
    then Raise (HTTPError (Gerrit.status_code r)) else Ok tt;
  Gerrit.json_loads := fun _ => Raise JSONDecodeError
|}.

Definition taskwarrior : Redmine.TaskWarrior := {|
  Redmine.execute_calc := fun _ => Ok ("PT0S" +:+ String newline "", "")
|}.

Definition gerrit_config : Gerrit.GerritConfig := {|
  Gerrit.base_uri := "https://review.example.org";
  Gerrit.username := "al";
  Gerrit.password := "secret";
  Gerrit.ssl_ca_path := None;
  Gerrit.query := "is:open+is:reviewer";
  Gerrit.default_priority := "M"
|}.

Definition redmine_config : Redmine.RedMineConfig := {|
  Redmine.project_name := "";
  Redmine.url := "https://redmine.example.org";
  Redmine.key := "k";
  Redmine.issue_limit := 100;
  Redmine.query := "";
  Redmine.login := "";
  Redmine.password := "";
  Redmine.verify_ssl := true;
  Redmine.only_if_assigned := false;
  Redmine.default_priority := "M"
|}.

(** The task of the Phabricator scenario: owned by U1, written by U2,
    nobody in cc. *)
Definition phab_task : value :=
  VDict [("ownerPHID", VStr "U1"); ("ccPHIDs", VList []);
         ("authorPHID", VStr "U2"); ("projectPHIDs", VList []);
         ("uri", VStr "https://phab.example.org/T1"); ("title", VStr "t");
         ("priority", VStr "High")].

(** A task that concerns U1 only through its cc list. *)
Definition phab_task_cc : value :=
  VDict [("ownerPHID", VNone); ("ccPHIDs", VList [VStr "U1"]);
         ("authorPHID", VStr "U2"); ("projectPHIDs", VList [VStr "P9"]);
         ("uri", VStr "https://phab.example.org/T2"); ("title", VStr "u")].

Definition phab_diff : value :=
  VDict [("reviewers", VDict [("U1", VStr "U1")]); ("ccs", VList []);
         ("authorPHID", VStr "U2"); ("repositoryPHID", VStr "R1");
         ("uri", VStr "https://phab.example.org/D1"); ("title", VStr "d")].

Definition phab_config (users projects : list string) : Phab.PhabricatorConfig := {|
  Phab.user_phids := users;
  Phab.project_phids := projects;
  Phab.host := None;
  Phab.ignore_cc := None;
  Phab.ignore_author := None;
  Phab.ignore_owner := false;
  Phab.ignore_reviewers := false;
  Phab.only_if_assigned := false;
  Phab.target := "phab";
  Phab.default_priority := "M"
|}.

(** A Conduit server with two open tasks; the first concerns U1 as
    owner, the second through cc, and the second is in project P9. *)
Definition conduit : Phab.Conduit := {|
  Phab.maniphest_query := fun c =>
    match c with
    | Phab.NoConstraint => Ok [("T1", phab_task); ("T2", phab_task_cc)]
    | Phab.OwnerPHIDs _ => Ok [("T1", phab_task)]
    | Phab.CcPHIDs _ => Ok [("T2", phab_task_cc)]
    | Phab.AuthorPHIDs _ => Ok []
    | Phab.ProjectPHIDs _ => Ok [("T2", phab_task_cc)]
    end;
  Phab.differential_query := Ok [phab_diff]
|}.

(** A Conduit server whose three user queries overlap: the first task
    is found by owner and by cc, the second by cc and by author. *)
Definition conduit_overlap : Phab.Conduit := {|
  Phab.maniphest_query := fun c =>
    match c with
    | Phab.NoConstraint => Ok [("T1", phab_task); ("T2", phab_task_cc)]
    | Phab.OwnerPHIDs _ => Ok [("T1", phab_task)]
    | Phab.CcPHIDs _ => Ok [("T1", phab_task); ("T2", phab_task_cc)]
    | Phab.AuthorPHIDs _ => Ok [("T2", phab_task_cc)]
    | Phab.ProjectPHIDs _ => Ok [("T2", phab_task_cc)]
    end;
  Phab.differential_query := Ok [phab_diff]
|}.

(** A Conduit server that refuses every call. *)
Definition conduit_down : Phab.Conduit := {|
  Phab.maniphest_query := fun _ => Raise (APIError "ERR-CONDUIT-CORE: down");
  Phab.differential_query := Raise (APIError "ERR-CONDUIT-CORE: down")
|}.

Definition fresh : Phab.world := Phab.World [] [].

(** The issue of the Redmine scenario. *)
Definition redmine_issue : value :=
  VDict [("id", VInt 42); ("subject", VStr "Fix");
         ("tracker", VDict [("name", VStr "Bug")]);
         ("status", VDict [("name", VStr "Open")]);
         ("author", VDict [("name", VStr "Al")]);
         ("project", VDict [("name", VStr "My Proj!")]);
         ("priority", VDict [("name", VStr "High")])].

(** The same issue, estimated at zero hours. *)
Definition redmine_issue_zero : value :=
  VDict [("id", VInt 42); ("subject", VStr "Fix");
         ("tracker", VDict [("name", VStr "Bug")]);
         ("status", VDict [("name", VStr "Open")]);
         ("author", VDict [("name", VStr "Al")]);
         ("project", VDict [("name", VStr "My Proj!")]);
         ("priority", VDict [("name", VStr "High")]);
         ("estimated_hours", VFloat (S754_zero false))].

(** A change with one review message, and one without a number. *)
Definition gerrit_change : value :=
  VDict [("project", VStr "tools"); ("_number", VInt 7); ("subject", VStr "S");
         ("branch", VStr "main"); ("work_in_progress", VBool true);
         ("messages",
          VList [VDict [("author", VDict [("_account_id", VInt 1000096);
                                          ("username", VStr "al")]);
                        ("message",
                         VStr ("Patch Set 3: Code-Review+2" +:+ String newline "" +:+
                               String newline "" +:+ "Looks good. "));
                        ("_revision_number", VInt 3)]])].

Definition gerrit_change_broken : value :=
  VDict [("project", VStr "tools"); ("subject", VStr "no number");
         ("branch", VStr "main"); ("messages", VList [])].

(** A Gerrit server that answers with the given changes behind the
    four-character prefix; the body is not parsed but recognised. *)
Definition http_changes (changes : list value) : Gerrit.Http := {|
  Gerrit.session_get := fun _ =>
    Ok {| Gerrit.status_code := 200; Gerrit.text := ")]}'" +:+ "<changes>" |};
  Gerrit.raise_for_status := fun r =>
    if (400 <=? Gerrit.status_code r) && (Gerrit.status_code r <? 600)
    then Raise (HTTPError (Gerrit.status_code r)) else Ok tt;
  Gerrit.json_loads := fun body =>
    if String.eqb body "<changes>" then Ok (VList changes) else Raise JSONDecodeError
|}.

(** [only_if_assigned] set, the role flags left to their defaults. *)
Definition phab_config_assigned (users : list string) : Phab.PhabricatorConfig := {|
  Phab.user_phids := users;
  Phab.project_phids := [];
  Phab.host := None;
  Phab.ignore_cc := None;
  Phab.ignore_author := None;
  Phab.ignore_owner := false;
  Phab.ignore_reviewers := false;
  Phab.only_if_assigned := true;
  Phab.target := "phab";
  Phab.default_priority := "M"
|}.

(** Every role ignored. *)
Definition phab_config_deaf (users : list string) : Phab.PhabricatorConfig := {|
  Phab.user_phids := users;
  Phab.project_phids := [];
  Phab.host := None;
  Phab.ignore_cc := Some true;
  Phab.ignore_author := Some true;
  Phab.ignore_owner := true;
  Phab.ignore_reviewers := true;
  Phab.only_if_assigned := false;
  Phab.target := "phab";
  Phab.default_priority := "M"
|}.

(** A Redmine server with two issues, a keyring, and a configuration
    with a login and a project-name override. *)
Definition requests : Redmine.Requests := {|
  Redmine.get_json := fun _ =>
    Ok (VDict [("issues", VList [redmine_issue; redmine_issue_zero]);
               ("total_count", VInt 2)])
|}.

Definition service_base : Redmine.ServiceBase := {|
  Redmine.get_password := fun key _ =>
    if String.eqb key "key" then Ok "k" else Ok "pw";
  Redmine.default_extra := VDict []
|}.

Definition redmine_config_login : Redmine.RedMineConfig := {|
  Redmine.project_name := "ops";
  Redmine.url := "https://redmine.example.org";
  Redmine.key := "k";
  Redmine.issue_limit := 100;
  Redmine.query := "";
  Redmine.login := "al";
  Redmine.password := "";
  Redmine.verify_ssl := true;
  Redmine.only_if_assigned := true;
  Redmine.default_priority := "M"
|}.

Definition redmine_client (url : string) : Redmine.RedMineClient := {|
  Redmine.client_url := url;
  Redmine.client_key := "k";
  Redmine.client_auth := None;
  Redmine.client_issue_limit := 100;
  Redmine.client_verify_ssl := true
|}.

(** An issue with a due date, hours as an integer zero, and no subject
    missing. *)
Definition redmine_issue_due : value :=
  VDict [("id", VInt 43); ("subject", VStr "Due");
         ("tracker", VDict [("name", VStr "Bug")]);
         ("status", VDict [("name", VStr "Open")]);
         ("author", VDict [("name", VStr "Al")]);
         ("project", VDict [("name", VStr "My Proj!")]);
         ("due_date", VStr "2024-01-02");
         ("estimated_hours", VInt 0)].

End Sample.

(** * The vocabulary of the specification *)

Module Claimed.
Import Py.

(** Removal of a literal prefix: the text after [prefix] when [s]
    starts with it, and [s] itself otherwise. *)
Fixpoint strip_literal (prefix s : string) : string :=
  match prefix with
  | EmptyString => s
  | String a prefix' =>
      match s with
      | String b s' =>
          if Ascii.eqb a b && is_prefix prefix' s' then strip_literal prefix' s'
          else s
      | EmptyString => s
      end
  end.

(** The annotation text as the specification words it: the two literals
    are stripped, then the text is trimmed and its newlines replaced. *)
Definition annotation_text (revision : Z) (message : string) : string :=
  replace_char newline space
    (strip_ws
       (strip_literal (str_of_Z revision +:+ ":")
          (strip_literal "Patch Set " message))).

(** The priority buckets of Phabricator and Redmine; [None] is an
    absent priority. *)
Definition phabricator_bucket (default : string) (name : option string) : string :=
  match name with
  | Some n =>
      if String.eqb n "Unbreak Now!" || String.eqb n "High" then "H"
      else if String.eqb n "Normal" then "M"
      else if String.eqb n "Low" || String.eqb n "Wishlist" then "L"
      else if String.eqb n "Needs Triage" then default
      else default
  | None => default
  end.

Definition redmine_bucket (default : string) (name : option string) : string :=
  match name with
  | Some n =>
      if String.eqb n "Low" then "L"
      else if String.eqb n "Normal" then "M"
      else if String.eqb n "High" || String.eqb n "Urgent" || String.eqb n "Immediate"
      then "H"
      else default
  | None => default
  end.

(** Two identifier collections meet when some configured PHID occurs
    among the record's identifiers. *)
Definition meets (ids : list value) (phids : list string) : Prop :=
  exists p, In p phids /\ In (VStr p) ids.

(** A field that holds a collection of identifiers: something a set can
    be filled from. *)
Definition id_collection (v : value) (ids : list value) : Prop :=
  iter v = Ok ids /\ forallb hashable ids = true.

(** A Maniphest task with its cc list, owner, author and projects. *)
Definition task_shape (task : value) (cc : list value) (owner author : value)
  (projects : list value) : Prop :=
  (exists v, getitem task "ccPHIDs" = Ok v /\ id_collection v cc) /\
  (getitem task "ownerPHID" = Ok owner /\ hashable owner = true) /\
  (getitem task "authorPHID" = Ok author /\ hashable author = true) /\
  (exists v, getitem task "projectPHIDs" = Ok v /\ id_collection v projects).

(** A Differential revision with its reviewers, cc list, author, project
    tags (empty when the field is absent) and repository. *)
Definition diff_shape (diff : value) (reviewers ccs : list value) (author : value)
  (tags : list value) (repository : value) : Prop :=
  (exists v, getitem diff "reviewers" = Ok v /\ id_collection v reviewers) /\
  (exists v, getitem diff "ccs" = Ok v /\ id_collection v ccs) /\
  (getitem diff "authorPHID" = Ok author /\ hashable author = true) /\
  (getitem diff "phabricator:projects" = Ok (VList tags) \/
   (exists d, diff = VDict d /\ dict_lookup "phabricator:projects" d = None) /\ tags = []) /\
  forallb hashable tags = true /\
  (getitem diff "repositoryPHID" = Ok repository /\ hashable repository = true).

(** The relevance set: each role's identifiers, unless the role is
    ignored. *)
Definition task_relevance (ignore_cc ignore_owner ignore_author : bool)
  (cc : list value) (owner author : value) : list value :=
  (if ignore_cc then [] else cc) ++
  (if ignore_owner then [] else [owner]) ++
  (if ignore_author then [] else [author]).

Definition diff_relevance (ignore_reviewers ignore_cc ignore_author : bool)
  (reviewers ccs : list value) (author : value) : list value :=
  (if ignore_reviewers then [] else reviewers) ++
  (if ignore_cc then [] else ccs) ++
  (if ignore_author then [] else [author]).

(** The membership rule: with neither list configured every record
    matches; otherwise a record matches when its relevance set meets
    [user_phids] or its projects meet [project_phids]. *)
Definition membership (user_phids project_phids : list string)
  (relevance projects : list value) : Prop :=
  (user_phids = [] /\ project_phids = []) \/
  meets relevance user_phids \/ meets projects project_phids.

Definition task_should_match (self : Phab.PhabricatorService)
  (cc : list value) (owner author : value) (projects : list value) : Prop :=
  membership (Phab.user_phids (Phab.config self)) (Phab.project_phids (Phab.config self))
    (task_relevance (Phab.self_ignore_cc self) (Phab.ignore_owner (Phab.config self))
       (Phab.self_ignore_author self) cc owner author)
    projects.

Definition diff_should_match (self : Phab.PhabricatorService)
  (reviewers ccs : list value) (author : value) (tags : list value) (repository : value)
  : Prop :=
  membership (Phab.user_phids (Phab.config self)) (Phab.project_phids (Phab.config self))
    (diff_relevance (Phab.ignore_reviewers (Phab.config self)) (Phab.self_ignore_cc self)
       (Phab.self_ignore_author self) reviewers ccs author)
    (tags ++ [repository]).

(** The issue a matching task or revision is emitted as. *)
Definition task_issue (self : Phab.PhabricatorService) (task : value)
  : Base.Issue Phab.PhabricatorConfig :=
  Base.MkIssue task
    (VDict [("project", VStr (Phab.target (Phab.config self))); ("type", VStr "issue")])
    (Phab.config self).

Definition diff_issue (self : Phab.PhabricatorService) (diff : value)
  : Base.Issue Phab.PhabricatorConfig :=
  Base.MkIssue diff
    (VDict [("project", VStr (Phab.target (Phab.config self)));
            ("type", VStr "pull_request")])
    (Phab.config self).

(** The service that [ignore_cc = b] in the configuration gives. *)
Definition set_ignore_cc (b : bool) (cfg : Phab.PhabricatorConfig) : Phab.PhabricatorConfig :=
  {| Phab.user_phids := Phab.user_phids cfg;
     Phab.project_phids := Phab.project_phids cfg;
     Phab.host := Phab.host cfg;
     Phab.ignore_cc := Some b;
     Phab.ignore_author := Phab.ignore_author cfg;
     Phab.ignore_owner := Phab.ignore_owner cfg;
     Phab.ignore_reviewers := Phab.ignore_reviewers cfg;
     Phab.only_if_assigned := Phab.only_if_assigned cfg;
     Phab.target := Phab.target cfg;
     Phab.default_priority := Phab.default_priority cfg |}.

(** The Maniphest queries [tasks] makes, in order, as long as none of
    them fails. *)
Definition planned_queries (cfg : Phab.PhabricatorConfig) : list Phab.constraint :=
  match Phab.user_phids cfg, Phab.project_phids cfg with
  | [], [] => [Phab.NoConstraint]
  | [], p => [Phab.ProjectPHIDs p]
  | u, [] => [Phab.OwnerPHIDs u; Phab.CcPHIDs u; Phab.AuthorPHIDs u]
  | u, p => [Phab.OwnerPHIDs u; Phab.CcPHIDs u; Phab.AuthorPHIDs u; Phab.ProjectPHIDs p]
  end.

(** The state after the given Maniphest queries have been made. *)
Definition after_queries (w : Phab.world) (cs : list Phab.constraint) : Phab.world :=
  Phab.World (Phab.calls w ++ map Phab.ManiphestQuery cs) (Phab.logged w).

(** A field that is absent, or holds the string [name]. *)
Definition field_is (d : list (string * value)) (k : string) (name : option string) : Prop :=
  dict_lookup k d = match name with Some n => Some (VStr n) | None => None end.

(** The project key as the specification words it, over the alphabet
    written out: the characters of the name that are letters or digits,
    each capital letter replaced by its small letter. *)
Definition capital_letters : string := "ABCDEFGHIJKLMNOPQRSTUVWXYZ".
Definition small_letters : string := "abcdefghijklmnopqrstuvwxyz".
Definition decimal_digits : string := "0123456789".

Definition alphanumeric (c : ascii) : bool :=
  existsb (Ascii.eqb c)
    (list_ascii_of_string small_letters ++ list_ascii_of_string capital_letters ++
     list_ascii_of_string decimal_digits).

Definition lower_case (c : ascii) : ascii :=
  match List.find (fun entry => Ascii.eqb c (fst entry))
          (combine (list_ascii_of_string capital_letters)
                   (list_ascii_of_string small_letters)) with
  | Some entry => snd entry
  | None => c
  end.

Definition project_key (name : string) : string :=
  string_of_list_ascii
    (map lower_case (List.filter alphanumeric (list_ascii_of_string name))).

(** Every key of [ks] is present in the dictionary. *)
Definition has_keys (d : list (string * value)) (ks : list string) : bool :=
  forallb (fun k => match dict_lookup k d with Some _ => true | None => false end) ks.

(** A flag field: absent, or a JSON boolean. *)
Definition is_flag (o : option value) : bool :=
  match o with
  | None | Some (VBool _) => true
  | Some _ => false
  end.

End Claimed.

(** * Properties *)

(** ** Reasoning about computations that may raise *)

Lemma bind_Ok {A B} (m : Py.result A) (f : A -> Py.result B) (b : B) :
  (x ← m; f x) = Py.Ok b <-> exists a, m = Py.Ok a /\ f a = Py.Ok b.
Proof.
  destruct m as [a|e]; simpl; split.
  - intros Hf. exists a. auto.
  - intros (a' & Ha & Hf). injection Ha as ->. exact Hf.
  - discriminate.
  - intros (a' & Ha & _). discriminate.
Qed.

Lemma bind_of_Ok {A B} (m : Py.result A) (f : A -> Py.result B) (a : A) :
  m = Py.Ok a -> (x ← m; f x) = f a.
Proof. intros ->. reflexivity. Qed.

(** Splits a hypothesis [x ← m; k = Ok b] into its steps. *)
Ltac inv_bind H :=
  repeat match type of H with
  | mbind _ _ = Py.Ok _ =>
      let x := fresh "x" in
      let E := fresh "E" in
      apply bind_Ok in H; destruct H as (x & E & H)
  end.

Lemma getitem_Ok d k v :
  Py.getitem d k = Py.Ok v <-> exists kv, d = Py.VDict kv /\ Py.dict_lookup k kv = Some v.
Proof.
  split.
  - destruct d; simpl; try discriminate.
    destruct (Py.dict_lookup k d) eqn:E; [|discriminate].
    intros [= ->]. eauto.
  - intros (kv & -> & E). simpl. rewrite E. reflexivity.
Qed.

Lemma getitem_lookup kv k v :
  Py.dict_lookup k kv = Some v -> Py.getitem (Py.VDict kv) k = Py.Ok v.
Proof. intros E. apply getitem_Ok. eauto. Qed.

Lemma getitem_missing kv k :
  Py.dict_lookup k kv = None -> Py.getitem (Py.VDict kv) k = Py.Raise (Py.KeyError k).
Proof. intros E. simpl. rewrite E. reflexivity. Qed.

Lemma get_default_lookup kv k default :
  Py.get_default (Py.VDict kv) k default =
  Py.Ok (match Py.dict_lookup k kv with Some v => v | None => default end).
Proof. simpl. destruct (Py.dict_lookup k kv); reflexivity. Qed.

(** ** Gerrit *)

Section GerritProperties.
Import Py Base Gerrit.
Context `{Runtime}.

(** What [to_taskwarrior] returns, when it returns. *)
Lemma gerrit_to_taskwarrior_Ok (self : Issue GerritConfig) (d : value) :
  to_taskwarrior self = Ok d ->
  exists project annotations url number subject branch topic status wip0 wip,
    getitem (record self) "project" = Ok project /\
    getitem (extra self) "annotations" = Ok annotations /\
    getitem (extra self) "url" = Ok url /\
    getitem (record self) "_number" = Ok number /\
    getitem (record self) "subject" = Ok subject /\
    getitem (record self) "branch" = Ok branch /\
    get_default (record self) "topic" (VStr "notopic") = Ok topic /\
    get_default (record self) "status" (VStr "") = Ok status /\
    get_default (record self) "work_in_progress" (VInt 0) = Ok wip0 /\
    int wip0 = Ok wip /\
    d = VDict [
      ("project", project); ("annotations", annotations); (URL, url);
      ("priority", VStr (default_priority (Base.config self))); ("tags", VList []);
      (FOREIGN_ID, number); (SUMMARY, subject); (BRANCH, branch);
      (TOPIC, topic); (STATUS, status); (WORK_IN_PROGRESS, VInt wip)].
Proof.
  unfold to_taskwarrior. intros Hd. inv_bind Hd.
  injection Hd as <-.
  repeat eexists; eassumption.
Qed.

Lemma has_keys_lookup d ks k :
  Claimed.has_keys d ks = true -> In k ks -> exists v, dict_lookup k d = Some v.
Proof.
  unfold Claimed.has_keys. rewrite forallb_forall. intros Hall Hin.
  specialize (Hall k Hin). destruct (dict_lookup k d); [eauto | discriminate].
Qed.

(** A change that carries the mandatory fields is normalized. *)
Lemma gerrit_to_taskwarrior_returns (self : Issue GerritConfig) r x :
  record self = VDict r -> extra self = VDict x ->
  Claimed.has_keys r ["project"; "_number"; "subject"; "branch"] = true ->
  Claimed.has_keys x ["annotations"; "url"] = true ->
  Claimed.is_flag (dict_lookup "work_in_progress" r) = true ->
  exists d, to_taskwarrior self = Ok d.
Proof.
  intros Hr Hx Kr Kx Hflag.
  destruct (has_keys_lookup _ _ "project" Kr) as [project Hproject]; [simpl; tauto|].
  destruct (has_keys_lookup _ _ "_number" Kr) as [number Hnumber]; [simpl; tauto|].
  destruct (has_keys_lookup _ _ "subject" Kr) as [subject Hsubject]; [simpl; tauto|].
  destruct (has_keys_lookup _ _ "branch" Kr) as [branch Hbranch]; [simpl; tauto|].
  destruct (has_keys_lookup _ _ "annotations" Kx) as [annotations Hannotations]; [simpl; tauto|].
  destruct (has_keys_lookup _ _ "url" Kx) as [url Hurl]; [simpl; tauto|].
  unfold to_taskwarrior. rewrite Hr, Hx.
  rewrite (bind_of_Ok _ _ _ (getitem_lookup _ _ _ Hproject)).
  rewrite (bind_of_Ok _ _ _ (getitem_lookup _ _ _ Hannotations)).
  rewrite (bind_of_Ok _ _ _ (getitem_lookup _ _ _ Hurl)).
  rewrite (bind_of_Ok _ _ _ (getitem_lookup _ _ _ Hnumber)).
  rewrite (bind_of_Ok _ _ _ (getitem_lookup _ _ _ Hsubject)).
  rewrite (bind_of_Ok _ _ _ (getitem_lookup _ _ _ Hbranch)).
  rewrite !get_default_lookup. simpl.
  destruct (dict_lookup "work_in_progress" r) as [[]|]; try discriminate Hflag;
    simpl; eauto.
Qed.

(** C9: a change without a [topic] key is normalized with topic
    ["notopic"], one without a [status] key with the empty status, and
    the work-in-progress flag becomes the number 0 or 1: 1 when the flag
    is true, 0 when it is false or absent. *)
Theorem gerrit_optional_field_defaults (self : Issue GerritConfig) r x :
  record self = VDict r -> extra self = VDict x ->
  Claimed.has_keys r ["project"; "_number"; "subject"; "branch"] = true ->
  Claimed.has_keys x ["annotations"; "url"] = true ->
  Claimed.is_flag (dict_lookup "work_in_progress" r) = true ->
  exists d, to_taskwarrior self = Ok d /\
    (dict_lookup "topic" r = None -> getitem d TOPIC = Ok (VStr "notopic")) /\
    (dict_lookup "status" r = None -> getitem d STATUS = Ok (VStr "")) /\
    (exists n, getitem d WORK_IN_PROGRESS = Ok (VInt n) /\ (n = 0 \/ n = 1) /\
       (dict_lookup "work_in_progress" r = Some (VBool true) -> n = 1) /\
       (dict_lookup "work_in_progress" r = Some (VBool false) -> n = 0) /\
       (dict_lookup "work_in_progress" r = None -> n = 0)).
Proof.
  intros Hr Hx Kr Kx Hflag.
  destruct (gerrit_to_taskwarrior_returns self r x Hr Hx Kr Kx Hflag) as [d Hd].
  exists d. split; [exact Hd|].
  apply gerrit_to_taskwarrior_Ok in Hd.
  destruct Hd as (project & annotations & url & number & subject & branch
                  & topic & status & wip0 & wip & _ & _ & _ & _ & _ & _
                  & Htopic & Hstatus & Hwip0 & Hwip & ->).
  rewrite Hr, get_default_lookup in Htopic, Hstatus, Hwip0.
  injection Htopic as <-. injection Hstatus as <-. injection Hwip0 as <-.
  split; [|split].
  - intros ->. reflexivity.
  - intros ->. reflexivity.
  - exists wip. split; [reflexivity|].
    destruct (dict_lookup "work_in_progress" r) as [[| [] | | | | | |]|];
      try discriminate Hflag; simpl in Hwip; injection Hwip as <-;
      repeat split; auto; discriminate.
Qed.

(** C10: whatever the change holds, the normalized record has the
    configured default priority and an empty tag list; and a change that
    carries the mandatory fields is normalized. *)
Theorem gerrit_priority_and_tags_fixed (self : Issue GerritConfig) :
  (forall r x,
     record self = VDict r -> extra self = VDict x ->
     Claimed.has_keys r ["project"; "_number"; "subject"; "branch"] = true ->
     Claimed.has_keys x ["annotations"; "url"] = true ->
     Claimed.is_flag (dict_lookup "work_in_progress" r) = true ->
     exists d, to_taskwarrior self = Ok d) /\
  (forall d, to_taskwarrior self = Ok d ->
     getitem d "priority" = Ok (VStr (default_priority (Base.config self))) /\
     getitem d "tags" = Ok (VList [])).
Proof.
  split.
  - apply gerrit_to_taskwarrior_returns.
  - intros d Hd. apply gerrit_to_taskwarrior_Ok in Hd.
    destruct Hd as (project & annotations & url & number & subject & branch
                    & topic & status & wip0 & wip & _ & _ & _ & _ & _ & _
                    & _ & _ & _ & _ & ->).
    split; reflexivity.
Qed.





(** C2, evaluated: on the message ["Set Ready For Review"] of revision
    1, which begins with neither literal, the code removes the leading
    ["Set "], because [lstrip] takes its argument as a set of characters;
    the text the specification describes keeps the message whole. *)
Theorem gerrit_annotation_message_strips_characters :
  annotation_message
    (VDict [("message", VStr "Set Ready For Review"); ("_revision_number", VInt 1)])
  = Ok "Ready For Review" /\
  Claimed.annotation_text 1 "Set Ready For Review" = "Set Ready For Review".
Proof. split; vm_compute; reflexivity. Qed.

End GerritProperties.

Section GerritExamples.
Import Py Base Gerrit.

Lemma gerrit_optional_field_defaults_witness :
  exists d,
    @to_taskwarrior Sample.runtime
      (MkIssue
         (VDict [("project", VStr "p"); ("_number", VInt 7); ("subject", VStr "S");
                 ("branch", VStr "main"); ("work_in_progress", VBool true)])
         (VDict [("url", VStr "https://review.example.org/#/c/7/");
                 ("annotations", VList [])])
         Sample.gerrit_config) = Ok d /\
    getitem d TOPIC = Ok (VStr "notopic") /\
    getitem d STATUS = Ok (VStr "") /\
    getitem d WORK_IN_PROGRESS = Ok (VInt 1).
Proof.
  destruct (@gerrit_optional_field_defaults Sample.runtime
    (MkIssue
         (VDict [("project", VStr "p"); ("_number", VInt 7); ("subject", VStr "S");
                 ("branch", VStr "main"); ("work_in_progress", VBool true)])
         (VDict [("url", VStr "https://review.example.org/#/c/7/");
                 ("annotations", VList [])])
         Sample.gerrit_config) _ _ eq_refl eq_refl eq_refl eq_refl eq_refl)
    as (d & Hd & Htopic & Hstatus & n & Hn & _ & Htrue & _).
  exists d. split; [exact Hd|]. split; [apply Htopic; reflexivity|].
  split; [apply Hstatus; reflexivity|].
  rewrite Hn, (Htrue eq_refl). reflexivity.
Defined.

Lemma gerrit_priority_and_tags_fixed_witness :
  exists d,
    @to_taskwarrior Sample.runtime
      (MkIssue
         (VDict [("project", VStr "p"); ("_number", VInt 7); ("subject", VStr "S");
                 ("branch", VStr "main"); ("topic", VStr "urgent");
                 ("priority", VStr "H"); ("hashtags", VList [VStr "x"])])
         (VDict [("url", VStr "u"); ("annotations", VList [])])
         Sample.gerrit_config) = Ok d /\
    getitem d "priority" = Ok (VStr "M") /\
    getitem d "tags" = Ok (VList []).
Proof.
  destruct (@gerrit_priority_and_tags_fixed Sample.runtime
      (MkIssue
         (VDict [("project", VStr "p"); ("_number", VInt 7); ("subject", VStr "S");
                 ("branch", VStr "main"); ("topic", VStr "urgent");
                 ("priority", VStr "H"); ("hashtags", VList [VStr "x"])])
         (VDict [("url", VStr "u"); ("annotations", VList [])])
         Sample.gerrit_config)) as [Hreturns Hfixed].
  destruct (Hreturns _ _ eq_refl eq_refl eq_refl eq_refl eq_refl) as [d Hd].
  exists d. split; [exact Hd|]. exact (Hfixed d Hd).
Defined.


End GerritExamples.

(** ** Phabricator *)

Section PhabProperties.
Import Py Base Phab.
Context `{Runtime} `{Conduit}.

Lemma intersects_meets (s : pyset) (phids : list string) :
  intersects s phids = true <-> Claimed.meets s phids.
Proof.
  unfold intersects, intersection, Claimed.meets.
  rewrite Z.ltb_lt. split.
  - intros Hlen.
    destruct (List.filter (fun v => existsb (fun p => is_str p v) phids) s)
      as [|v rest] eqn:E; [simpl in Hlen; lia|].
    assert (Hv : In v (List.filter (fun v => existsb (fun p => is_str p v) phids) s))
      by (rewrite E; left; reflexivity).
    apply filter_In in Hv. destruct Hv as [Hin Hex].
    apply existsb_exists in Hex. destruct Hex as (p & Hp & Hstr).
    exists p. split; [exact Hp|].
    destruct v; simpl in Hstr; try discriminate.
    apply String.eqb_eq in Hstr. subst. exact Hin.
  - intros (p & Hp & Hin).
    assert (Hv : In (VStr p) (List.filter (fun v => existsb (fun p => is_str p v) phids) s)).
    { apply filter_In. split; [exact Hin|].
      apply existsb_exists. exists p. split; [exact Hp|].
      simpl. apply String.eqb_refl. }
    destruct (List.filter (fun v => existsb (fun p => is_str p v) phids) s);
      [destruct Hv | simpl; lia].
Qed.

Lemma intersects_nil (s : pyset) : intersects s [] = false.
Proof.
  unfold intersects, intersection. induction s; simpl; auto.
Qed.

Lemma meets_nil (s : list value) : ~ Claimed.meets s [].
Proof. intros (p & [] & _). Qed.

Lemma set_update_collection (s : pyset) v ids :
  Claimed.id_collection v ids -> set_update s v = Ok (s ++ ids).
Proof.
  intros [Hiter Hhash]. unfold set_update. rewrite Hiter. simpl.
  rewrite Hhash. reflexivity.
Qed.

Lemma set_add_hashable (s : pyset) v :
  hashable v = true -> set_add s v = Ok (s ++ [v]).
Proof. intros Hv. unfold set_add. rewrite Hv. reflexivity. Qed.

(** The relevance set the loop builds for a task. *)
Lemma task_relevant_to_shape self task cc owner author projects :
  Claimed.task_shape task cc owner author projects ->
  task_relevant_to self task =
  Ok (Claimed.task_relevance (self_ignore_cc self) (ignore_owner (config self))
        (self_ignore_author self) cc owner author).
Proof.
  intros ((vcc & Hcc & Hcoll) & (Howner & Hho) & (Hauthor & Hha) & _).
  unfold task_relevant_to, Claimed.task_relevance.
  destruct (self_ignore_cc self), (ignore_owner (config self)),
    (self_ignore_author self); simpl;
    rewrite ?Hcc, ?Howner, ?Hauthor; simpl;
    rewrite ?(set_update_collection _ _ _ Hcoll); simpl;
    rewrite ?Howner, ?Hauthor; simpl;
    rewrite ?set_add_hashable by assumption; simpl;
    rewrite ?Hauthor; simpl;
    rewrite ?set_add_hashable by assumption; simpl;
    rewrite ?app_nil_r, <- ?app_assoc; reflexivity.
Qed.

(** The value the task filter computes. *)
Lemma this_task_matches_shape self task cc owner author projects :
  Claimed.task_shape task cc owner author projects ->
  this_task_matches self task =
  Ok (if negb (nonempty (user_phids (config self))) &&
         negb (nonempty (project_phids (config self)))
      then true
      else intersects
             (Claimed.task_relevance (self_ignore_cc self) (ignore_owner (config self))
                (self_ignore_author self) cc owner author)
             (user_phids (config self))
           || intersects projects (project_phids (config self))).
Proof.
  intros Hshape.
  pose proof (task_relevant_to_shape self _ _ _ _ _ Hshape) as Hrel.
  destruct Hshape as (_ & _ & _ & (vp & Hp & Hcoll)).
  unfold this_task_matches, set_of.
  destruct (user_phids (config self)) as [|u us], (project_phids (config self)) as [|p ps];
    simpl; rewrite ?Hrel; simpl; rewrite ?Hp; simpl;
    rewrite ?(set_update_collection [] _ _ Hcoll); simpl;
    rewrite ?intersects_nil;
    repeat match goal with
           | |- context [intersects ?s ?l] => destruct (intersects s l)
           end; reflexivity.
Qed.

(** The relevance set the loop builds for a revision. *)
Lemma diff_relevant_to_shape self diff reviewers ccs author tags repository :
  Claimed.diff_shape diff reviewers ccs author tags repository ->
  diff_relevant_to self diff =
  Ok (Claimed.diff_relevance (ignore_reviewers (config self)) (self_ignore_cc self)
        (self_ignore_author self) reviewers ccs author).
Proof.
  intros ((vr & Hr & Hiter & Hhr) & (vc & Hc & Hcoll) & (Hauthor & Hha) & _).
  assert (Hlist : Claimed.id_collection (VList reviewers) reviewers)
    by (split; [reflexivity | exact Hhr]).
  unfold diff_relevant_to, Claimed.diff_relevance.
  destruct (ignore_reviewers (config self)), (self_ignore_cc self),
    (self_ignore_author self); simpl;
    rewrite ?Hr, ?Hc, ?Hauthor; simpl;
    rewrite ?Hiter; simpl;
    rewrite ?(set_update_collection _ _ _ Hlist); simpl;
    rewrite ?Hc, ?Hauthor; simpl;
    rewrite ?(set_update_collection _ _ _ Hcoll); simpl;
    rewrite ?Hauthor; simpl;
    rewrite ?set_add_hashable by assumption; simpl;
    rewrite ?app_nil_r, <- ?app_assoc; reflexivity.
Qed.

(** The project set of a revision: its tags and its repository. *)
Lemma diff_projects_shape diff reviewers ccs author tags repository :
  Claimed.diff_shape diff reviewers ccs author tags repository ->
  diff_projects diff = Ok (tags ++ [repository]).
Proof.
  intros (_ & _ & _ & Htags & Hht & (Hrepo & Hhr)).
  assert (Hhash : forallb hashable (tags ++ [repository]) = true).
  { rewrite forallb_app, Hht. simpl. rewrite Hhr. reflexivity. }
  unfold diff_projects.
  destruct Htags as [Htags | [(d & -> & Hnone) ->]].
  - rewrite Htags. simpl. rewrite Hrepo. simpl.
    unfold set_of, set_update. simpl. rewrite Hhash. reflexivity.
  - rewrite (getitem_missing _ _ Hnone). cbn [mbind result_bind].
    rewrite Hrepo. simpl.
    unfold set_of, set_update. simpl. simpl in Hhash. rewrite Hhash. reflexivity.
Qed.

(** The value the revision filter computes. *)
Lemma this_diff_matches_shape self diff reviewers ccs author tags repository :
  Claimed.diff_shape diff reviewers ccs author tags repository ->
  this_diff_matches self diff =
  Ok (if negb (nonempty (user_phids (config self))) &&
         negb (nonempty (project_phids (config self)))
      then true
      else intersects
             (Claimed.diff_relevance (ignore_reviewers (config self)) (self_ignore_cc self)
                (self_ignore_author self) reviewers ccs author)
             (user_phids (config self))
           || intersects (tags ++ [repository]) (project_phids (config self))).
Proof.
  intros Hshape.
  pose proof (diff_relevant_to_shape self _ _ _ _ _ _ Hshape) as Hrel.
  pose proof (diff_projects_shape _ _ _ _ _ _ Hshape) as Hproj.
  unfold this_diff_matches.
  destruct (user_phids (config self)) as [|u us], (project_phids (config self)) as [|p ps];
    simpl; rewrite ?Hrel; simpl; rewrite ?Hproj; simpl;
    rewrite ?intersects_nil;
    repeat match goal with
           | |- context [intersects ?s ?l] => destruct (intersects s l)
           end; reflexivity.
Qed.

(** A loop whose body never raises ends normally, and yields what the
    body yields, in order. *)
Lemma gen_for_no_raise {A B} (body : A -> result (option B)) (l : list A) :
  Forall (fun x => exists o, body x = Ok o) l ->
  raised (gen_for body l) = None /\
  forall b, In b (yielded (gen_for body l)) <-> exists x, In x l /\ body x = Ok (Some b).
Proof.
  induction 1 as [|x l [o Hx] _ [IHr IHy]]; simpl.
  - split; [reflexivity|]. intros b. split; [intros [] | intros (x & [] & _)].
  - rewrite Hx. destruct o as [b0|]; simpl.
    + split; [exact IHr|]. intros b. rewrite IHy. split.
      * intros [<- | (x' & Hin & Hb)]; [exists x; auto | exists x'; auto].
      * intros (x' & [<- | Hin] & Hb).
        -- rewrite Hx in Hb. injection Hb as ->. left. reflexivity.
        -- right. exists x'. auto.
    + split; [exact IHr|]. intros b. rewrite IHy. split.
      * intros (x' & Hin & Hb). exists x'. auto.
      * intros (x' & [<- | Hin] & Hb); [rewrite Hx in Hb; discriminate|].
        exists x'. auto.
Qed.

Lemma membership_bool u p relevance projects :
  (if negb (nonempty u) && negb (nonempty p) then true
   else intersects relevance u || intersects projects p) = true <->
  Claimed.membership u p relevance projects.
Proof.
  unfold Claimed.membership.
  destruct u as [|u0 us], p as [|p0 ps]; simpl;
    rewrite ?intersects_nil, ?orb_true_iff, ?intersects_meets.
  - tauto.
  - split.
    + intros [Hf | Hm]; [discriminate | tauto].
    + intros [[_ Hf] | [Hm | Hm]]; [discriminate | | tauto].
      exfalso. exact (meets_nil _ Hm).
  - split.
    + intros [Hm | Hf]; [tauto | discriminate].
    + intros [[Hf _] | [Hm | Hm]]; [discriminate | tauto |].
      exfalso. exact (meets_nil _ Hm).
  - split; [tauto|]. intros [[Hf _] | Hm]; [discriminate | tauto].
Qed.

(** The loop body of [tasks] emits a task exactly when the membership
    rule holds for it. *)
Lemma task_body_membership self phid task cc owner author projects :
  Claimed.task_shape task cc owner author projects ->
  (Claimed.task_should_match self cc owner author projects ->
     task_body self (phid, task) = Ok (Some (Claimed.task_issue self task))) /\
  (~ Claimed.task_should_match self cc owner author projects ->
     task_body self (phid, task) = Ok None).
Proof.
  intros Hshape. unfold task_body, Claimed.task_should_match. simpl snd.
  rewrite (this_task_matches_shape self _ _ _ _ _ Hshape). cbn [mbind result_bind].
  pose proof (membership_bool (user_phids (config self)) (project_phids (config self))
    (Claimed.task_relevance (self_ignore_cc self) (ignore_owner (config self))
       (self_ignore_author self) cc owner author) projects) as Hiff.
  destruct (if negb (nonempty (user_phids (config self))) &&
               negb (nonempty (project_phids (config self)))
            then true else _) eqn:E.
  - split; [reflexivity|]. intros Hn. exfalso. apply Hn. apply Hiff. reflexivity.
  - split; [|reflexivity]. intros Hm. apply Hiff in Hm. discriminate.
Qed.

Lemma diff_body_membership self diff reviewers ccs author tags repository :
  Claimed.diff_shape diff reviewers ccs author tags repository ->
  (Claimed.diff_should_match self reviewers ccs author tags repository ->
     diff_body self diff = Ok (Some (Claimed.diff_issue self diff))) /\
  (~ Claimed.diff_should_match self reviewers ccs author tags repository ->
     diff_body self diff = Ok None).
Proof.
  intros Hshape. unfold diff_body, Claimed.diff_should_match.
  rewrite (this_diff_matches_shape self _ _ _ _ _ _ Hshape). cbn [mbind result_bind].
  pose proof (membership_bool (user_phids (config self)) (project_phids (config self))
    (Claimed.diff_relevance (ignore_reviewers (config self)) (self_ignore_cc self)
       (self_ignore_author self) reviewers ccs author) (tags ++ [repository])) as Hiff.
  destruct (if negb (nonempty (user_phids (config self))) &&
               negb (nonempty (project_phids (config self)))
            then true else _) eqn:E.
  - split; [reflexivity|]. intros Hn. exfalso. apply Hn. apply Hiff. reflexivity.
  - split; [|reflexivity]. intros Hm. apply Hiff in Hm. discriminate.
Qed.

Lemma meets_dec (ids : list value) (phids : list string) :
  Claimed.meets ids phids \/ ~ Claimed.meets ids phids.
Proof.
  destruct (intersects ids phids) eqn:E.
  - left. apply intersects_meets. exact E.
  - right. intros Hm. apply intersects_meets in Hm. congruence.
Qed.

Lemma membership_dec u p relevance projects :
  Claimed.membership u p relevance projects \/ ~ Claimed.membership u p relevance projects.
Proof.
  destruct (if negb (nonempty u) && negb (nonempty p) then true
            else intersects relevance u || intersects projects p) eqn:E.
  - left. apply membership_bool. exact E.
  - right. intros Hm. apply membership_bool in Hm. congruence.
Qed.

Lemma classic_membership self cc owner author projects :
  Claimed.task_should_match self cc owner author projects \/
  ~ Claimed.task_should_match self cc owner author projects.
Proof. apply membership_dec. Qed.

Lemma classic_diff_membership self reviewers ccs author tags repository :
  Claimed.diff_should_match self reviewers ccs author tags repository \/
  ~ Claimed.diff_should_match self reviewers ccs author tags repository.
Proof. apply membership_dec. Qed.
Lemma tasks_of_query self w w' items :
  query_tasks self w = (w', Ok items) ->
  snd (tasks self w) = gen_for (task_body self) items.
Proof. intros E. unfold tasks. rewrite E. reflexivity. Qed.

Lemma revisions_of_query self w diffs :
  differential_query = Ok diffs ->
  snd (revisions self w) = gen_for (diff_body self) diffs.
Proof.
  intros E. unfold revisions, api_differential_query. rewrite E. reflexivity.
Qed.

(** With neither list configured no field of the record is read. *)
Lemma task_body_unconfigured self item :
  user_phids (config self) = [] -> project_phids (config self) = [] ->
  task_body self item = Ok (Some (Claimed.task_issue self (snd item))).
Proof.
  intros Hu Hp. unfold task_body, this_task_matches. rewrite Hu, Hp. reflexivity.
Qed.

Lemma diff_body_unconfigured self diff :
  user_phids (config self) = [] -> project_phids (config self) = [] ->
  diff_body self diff = Ok (Some (Claimed.diff_issue self diff)).
Proof.
  intros Hu Hp. unfold diff_body, this_diff_matches. rewrite Hu, Hp. reflexivity.
Qed.

(** C1: a task (a revision) is emitted exactly when the membership rule
    holds for it: always when neither [user_phids] nor [project_phids]
    is configured, otherwise when its relevance set (the roles not
    ignored) meets [user_phids] or its project set meets
    [project_phids]. A run over well-formed records ends normally and
    yields exactly the issues of the records that match. With
    [ignore_cc] set, a record that matched only through its cc list is
    no longer emitted. *)
Theorem phabricator_membership_filter (self : PhabricatorService) :
  (user_phids (config self) = [] -> project_phids (config self) = [] ->
   (forall item, task_body self item = Ok (Some (Claimed.task_issue self (snd item)))) /\
   (forall diff, diff_body self diff = Ok (Some (Claimed.diff_issue self diff)))) /\
  (forall phid task cc owner author projects,
     Claimed.task_shape task cc owner author projects ->
     (Claimed.task_should_match self cc owner author projects ->
        task_body self (phid, task) = Ok (Some (Claimed.task_issue self task))) /\
     (~ Claimed.task_should_match self cc owner author projects ->
        task_body self (phid, task) = Ok None)) /\
  (forall diff reviewers ccs author tags repository,
     Claimed.diff_shape diff reviewers ccs author tags repository ->
     (Claimed.diff_should_match self reviewers ccs author tags repository ->
        diff_body self diff = Ok (Some (Claimed.diff_issue self diff))) /\
     (~ Claimed.diff_should_match self reviewers ccs author tags repository ->
        diff_body self diff = Ok None)) /\
  (forall w w' items,
     query_tasks self w = (w', Ok items) ->
     Forall (fun item => exists cc owner author projects,
               Claimed.task_shape (snd item) cc owner author projects) items ->
     raised (snd (tasks self w)) = None /\
     forall issue, In issue (yielded (snd (tasks self w))) <->
       exists item, In item items /\ task_body self item = Ok (Some issue)) /\
  (forall w diffs,
     differential_query = Ok diffs ->
     Forall (fun diff => exists reviewers ccs author tags repository,
               Claimed.diff_shape diff reviewers ccs author tags repository) diffs ->
     raised (snd (revisions self w)) = None /\
     forall issue, In issue (yielded (snd (revisions self w))) <->
       exists diff, In diff diffs /\ diff_body self diff = Ok (Some issue)) /\
  (forall cfg phid task cc owner author projects,
     Claimed.task_shape task cc owner author projects ->
     user_phids cfg <> [] \/ project_phids cfg <> [] ->
     Claimed.meets cc (user_phids cfg) ->
     ~ Claimed.meets
         (Claimed.task_relevance true (ignore_owner cfg)
            (self_ignore_author (init cfg)) cc owner author)
         (user_phids cfg) ->
     ~ Claimed.meets projects (project_phids cfg) ->
     task_body (init (Claimed.set_ignore_cc false cfg)) (phid, task) =
       Ok (Some (Claimed.task_issue (init (Claimed.set_ignore_cc false cfg)) task)) /\
     task_body (init (Claimed.set_ignore_cc true cfg)) (phid, task) = Ok None).
Proof.
  split; [|split; [|split; [|split; [|split]]]].
  - intros Hu Hp. split.
    + intros item. apply task_body_unconfigured; assumption.
    + intros diff. apply diff_body_unconfigured; assumption.
  - intros phid task cc owner author projects. apply task_body_membership.
  - intros diff reviewers ccs author tags repository. apply diff_body_membership.
  - intros w w' items Hq Hall. rewrite (tasks_of_query _ _ _ _ Hq).
    apply gen_for_no_raise. eapply Forall_impl; [exact Hall|].
    intros [phid task] (cc & owner & author & projects & Hshape). simpl in Hshape.
    destruct (task_body_membership self phid task _ _ _ _ Hshape) as [Hyes Hno].
    destruct (classic_membership self cc owner author projects) as [Hm | Hm];
      eauto.
  - intros w diffs Hq Hall. rewrite (revisions_of_query _ _ _ Hq).
    apply gen_for_no_raise. eapply Forall_impl; [exact Hall|].
    intros diff (reviewers & ccs & author & tags & repository & Hshape).
    destruct (diff_body_membership self diff _ _ _ _ _ Hshape) as [Hyes Hno].
    destruct (classic_diff_membership self reviewers ccs author tags repository)
      as [Hm | Hm]; eauto.
  - intros cfg phid task cc owner author projects Hshape Hconf Hcc Hroles Hproj.
    assert (Hrule : forall b,
      Claimed.task_should_match (init (Claimed.set_ignore_cc b cfg))
        cc owner author projects =
      Claimed.membership (user_phids cfg) (project_phids cfg)
        (Claimed.task_relevance b (ignore_owner cfg)
           (self_ignore_author (init cfg)) cc owner author) projects)
      by reflexivity.
    split.
    + apply (task_body_membership _ phid task _ _ _ _ Hshape).
      rewrite Hrule. right. left.
      destruct Hcc as (p & Hp & Hin). exists p. split; [exact Hp|].
      unfold Claimed.task_relevance. apply in_or_app. left. exact Hin.
    + apply (task_body_membership _ phid task _ _ _ _ Hshape).
      rewrite Hrule. intros [[Hu Hp] | [Hm | Hm]].
      * destruct Hconf; contradiction.
      * apply Hroles. exact Hm.
      * apply Hproj. exact Hm.
Qed.

(** What deleting duplicates keeps: items of the input, no two with the
    same text, and one for every text not seen before. *)
Lemma delete_duplicates_spec (tasks : list (string * value)) (seen : gset string) :
  (forall item, In item (delete_duplicates seen tasks) ->
     In item tasks /\ str (snd item) ∉ seen) /\
  NoDup (map (fun item => str (snd item)) (delete_duplicates seen tasks)) /\
  (forall item, In item tasks -> str (snd item) ∉ seen ->
     exists kept, In kept (delete_duplicates seen tasks) /\
                  str (snd kept) = str (snd item)).
Proof.
  revert seen. induction tasks as [|item0 tasks IH]; intros seen; simpl.
  - split; [intros item []|]. split; [constructor|]. intros item [].
  - case_bool_decide as Hseen.
    + destruct (IH seen) as (Hsub & Hnodup & Hkeep).
      split; [|split].
      * intros item Hin. destruct (Hsub item Hin). auto.
      * exact Hnodup.
      * intros item [<- | Hin] Hfresh; [contradiction | auto].
    + destruct (IH ({[str (snd item0)]} ∪ seen)) as (Hsub & Hnodup & Hkeep).
      split; [|split].
      * intros item [<- | Hin]; [auto|].
        destruct (Hsub item Hin) as [Hin' Hfresh]. split; [auto | set_solver].
      * simpl. apply NoDup_cons. split; [|exact Hnodup].
        rewrite list_elem_of_In, in_map_iff. intros (item & Heq & Hin).
        destruct (Hsub item Hin) as [_ Hfresh]. set_solver.
      * intros item [<- | Hin] Hfresh.
        -- exists item0. split; [left; reflexivity | reflexivity].
        -- destruct (decide (str (snd item) = str (snd item0))) as [Heq | Hne].
           ++ exists item0. split; [left; reflexivity | symmetry; exact Heq].
           ++ destruct (Hkeep item Hin) as (kept & Hk & Hkeq); [set_solver|].
              exists kept. split; [right; exact Hk | exact Hkeq].
Qed.

(** A loop only yields what its body yields for some element. *)
Lemma gen_for_yielded {A B} (body : A -> result (option B)) (l : list A) (b : B) :
  In b (yielded (gen_for body l)) -> exists x, In x l /\ body x = Ok (Some b).
Proof.
  induction l as [|x l IH]; simpl; [intros []|].
  destruct (body x) as [[b0|]|e] eqn:E; simpl.
  - intros [<- | Hin]; [exists x; auto|].
    destruct (IH Hin) as (x' & Hx' & Hb). exists x'. auto.
  - intros Hin. destruct (IH Hin) as (x' & Hx' & Hb). exists x'. auto.
  - intros [].
Qed.

Lemma task_body_record self item issue :
  task_body self item = Ok (Some issue) -> record issue = snd item.
Proof.
  unfold task_body. intros Hb. inv_bind Hb.
  destruct x; simpl in Hb; [|discriminate].
  injection Hb as <-. reflexivity.
Qed.

(** The queries of [tasks] with only [user_phids] configured. *)
Lemma query_tasks_users self w owner cc author :
  user_phids (config self) <> [] -> project_phids (config self) = [] ->
  maniphest_query (OwnerPHIDs (user_phids (config self))) = Ok owner ->
  maniphest_query (CcPHIDs (user_phids (config self))) = Ok cc ->
  maniphest_query (AuthorPHIDs (user_phids (config self))) = Ok author ->
  query_tasks self w =
    (Claimed.after_queries w (Claimed.planned_queries (config self)),
     Ok (delete_duplicates ∅ (owner ++ cc ++ author))).
Proof.
  intros Hu Hp Ho Hc Ha.
  unfold query_tasks, Claimed.after_queries, Claimed.planned_queries.
  rewrite Hp. destruct (user_phids (config self)) as [|u us]; [contradiction|].
  unfold mbind, M_bind, api_maniphest_query, mret, M_ret. simpl.
  rewrite Ho, Hc, Ha. simpl. rewrite <- !app_assoc. reflexivity.
Qed.

(** The queries of [tasks] with only [project_phids] configured. *)
Lemma query_tasks_projects self w tasks :
  user_phids (config self) = [] -> project_phids (config self) <> [] ->
  maniphest_query (ProjectPHIDs (project_phids (config self))) = Ok tasks ->
  query_tasks self w =
    (Claimed.after_queries w (Claimed.planned_queries (config self)), Ok tasks).
Proof.
  intros Hu Hp Ht.
  unfold query_tasks, Claimed.after_queries, Claimed.planned_queries.
  rewrite Hu. destruct (project_phids (config self)) as [|p ps]; [contradiction|].
  unfold mbind, M_bind, api_maniphest_query, mret, M_ret. simpl.
  rewrite Ht. reflexivity.
Qed.

(** The queries of [tasks] with both lists configured: the three user
    queries are made, and their answers dropped for the project
    query's. *)
Lemma query_tasks_both self w owner cc author tasks :
  user_phids (config self) <> [] -> project_phids (config self) <> [] ->
  maniphest_query (OwnerPHIDs (user_phids (config self))) = Ok owner ->
  maniphest_query (CcPHIDs (user_phids (config self))) = Ok cc ->
  maniphest_query (AuthorPHIDs (user_phids (config self))) = Ok author ->
  maniphest_query (ProjectPHIDs (project_phids (config self))) = Ok tasks ->
  query_tasks self w =
    (Claimed.after_queries w (Claimed.planned_queries (config self)), Ok tasks).
Proof.
  intros Hu Hp Ho Hc Ha Ht.
  unfold query_tasks, Claimed.after_queries, Claimed.planned_queries.
  destruct (user_phids (config self)) as [|u us]; [contradiction|].
  destruct (project_phids (config self)) as [|p ps]; [contradiction|].
  unfold mbind, M_bind, api_maniphest_query, mret, M_ret. simpl.
  rewrite Ho, Hc, Ha. simpl. rewrite Ht. simpl. rewrite <- !app_assoc. reflexivity.
Qed.

Lemma delete_duplicates_sublist (tasks : list (string * value)) (seen : gset string) :
  sublist (delete_duplicates seen tasks) tasks.
Proof.
  revert seen. induction tasks as [|item tasks IH]; intros seen; simpl.
  - constructor.
  - case_bool_decide.
    + apply sublist_cons, IH.
    + apply sublist_skip, IH.
Qed.

(** Deleting duplicates in a concatenation: the second part is treated
    with the texts of the first part seen. *)
Lemma delete_duplicates_app (a b : list (string * value)) (seen : gset string) :
  delete_duplicates seen (a ++ b) =
  delete_duplicates seen a ++
  delete_duplicates (seen ∪ list_to_set (map (fun item => str (snd item)) a)) b.
Proof.
  revert seen. induction a as [|item a IH]; intros seen; simpl.
  - f_equal. set_solver.
  - case_bool_decide as Hseen.
    + rewrite IH. do 2 f_equal. set_solver.
    + simpl. rewrite IH. do 3 f_equal. set_solver.
Qed.

(** The item at a given place is kept exactly when no item before it
    has its text; what is kept of the items before it does not depend on
    it, and what follows is kept from the items after it. *)
Lemma delete_duplicates_first (pre post : list (string * value)) (item : string * value) :
  (~ In (str (snd item)) (map (fun item => str (snd item)) pre) ->
     exists later,
       delete_duplicates ∅ (pre ++ item :: post) =
       delete_duplicates ∅ pre ++ item :: later /\ sublist later post) /\
  (In (str (snd item)) (map (fun item => str (snd item)) pre) ->
     exists later,
       delete_duplicates ∅ (pre ++ item :: post) =
       delete_duplicates ∅ pre ++ later /\ sublist later post).
Proof.
  rewrite delete_duplicates_app. cbn [delete_duplicates].
  assert (Hseen : str (snd item) ∈
                    (∅ ∪ list_to_set (map (fun item => str (snd item)) pre) : gset string)
                  <-> In (str (snd item)) (map (fun item => str (snd item)) pre)).
  { rewrite elem_of_union, elem_of_list_to_set, list_elem_of_In. set_solver. }
  split; intros Hin; case_bool_decide as Hdec.
  - exfalso. apply Hin, Hseen, Hdec.
  - eexists. split; [reflexivity | apply delete_duplicates_sublist].
  - eexists. split; [reflexivity | apply delete_duplicates_sublist].
  - exfalso. apply Hdec, Hseen, Hin.
Qed.

(** C3, as the code has it: with only [user_phids] configured the three
    queries by owner, cc and author are made and the concatenation of
    their answers is stripped of duplicates before it is filtered. The
    code takes the text of a record, [str(item[1])], for its identity:
    the order of the answers is kept, no record and no text stays
    twice, the text of every answered record stays, of several items
    with the same text the first one stays and the later ones go, and
    where the text tells the answered records apart every answered
    record itself stays, in one copy. With only [project_phids] configured the
    project query is the single query made; with both configured the
    three user queries are made first and the project query last, and
    the tasks filtered and emitted are those of the project query
    alone. *)
Theorem phabricator_task_queries (self : PhabricatorService) (w : world) :
  (forall owner cc author,
     user_phids (config self) <> [] -> project_phids (config self) = [] ->
     maniphest_query (OwnerPHIDs (user_phids (config self))) = Ok owner ->
     maniphest_query (CcPHIDs (user_phids (config self))) = Ok cc ->
     maniphest_query (AuthorPHIDs (user_phids (config self))) = Ok author ->
     let all := owner ++ cc ++ author in
     let kept := delete_duplicates ∅ all in
     calls (fst (tasks self w)) =
       calls w ++ [ManiphestQuery (OwnerPHIDs (user_phids (config self)));
                   ManiphestQuery (CcPHIDs (user_phids (config self)));
                   ManiphestQuery (AuthorPHIDs (user_phids (config self)))] /\
     snd (tasks self w) = gen_for (task_body self) kept /\
     (forall item, In item kept -> In item all) /\
     NoDup (map (fun item => str (snd item)) kept) /\
     (forall item, In item all ->
        exists item', In item' kept /\ str (snd item') = str (snd item)) /\
     sublist kept all /\
     NoDup (map snd kept) /\
     (forall pre item post, all = pre ++ item :: post ->
        (~ In (str (snd item)) (map (fun item => str (snd item)) pre) ->
           exists later,
             kept = delete_duplicates ∅ pre ++ item :: later /\ sublist later post) /\
        (In (str (snd item)) (map (fun item => str (snd item)) pre) ->
           exists later,
             kept = delete_duplicates ∅ pre ++ later /\ sublist later post)) /\
     ((forall a b, In a all -> In b all ->
         str (snd a) = str (snd b) -> snd a = snd b) ->
      forall item, In item all -> In (snd item) (map snd kept))) /\
  (forall tasks_project,
     user_phids (config self) = [] -> project_phids (config self) <> [] ->
     maniphest_query (ProjectPHIDs (project_phids (config self))) = Ok tasks_project ->
     calls (fst (tasks self w)) =
       calls w ++ [ManiphestQuery (ProjectPHIDs (project_phids (config self)))] /\
     snd (tasks self w) = gen_for (task_body self) tasks_project) /\
  (forall owner cc author tasks_project,
     user_phids (config self) <> [] -> project_phids (config self) <> [] ->
     maniphest_query (OwnerPHIDs (user_phids (config self))) = Ok owner ->
     maniphest_query (CcPHIDs (user_phids (config self))) = Ok cc ->
     maniphest_query (AuthorPHIDs (user_phids (config self))) = Ok author ->
     maniphest_query (ProjectPHIDs (project_phids (config self))) = Ok tasks_project ->
     calls (fst (tasks self w)) =
       calls w ++ [ManiphestQuery (OwnerPHIDs (user_phids (config self)));
                   ManiphestQuery (CcPHIDs (user_phids (config self)));
                   ManiphestQuery (AuthorPHIDs (user_phids (config self)));
                   ManiphestQuery (ProjectPHIDs (project_phids (config self)))] /\
     snd (tasks self w) = gen_for (task_body self) tasks_project /\
     (forall issue, In issue (yielded (snd (tasks self w))) ->
        exists item, In item tasks_project /\ record issue = snd item)).
Proof.
  split; [|split].
  - intros owner cc author Hu Hp Ho Hc Ha all kept.
    pose proof (query_tasks_users self w _ _ _ Hu Hp Ho Hc Ha) as Hq.
    split; [|split].
    + unfold tasks. rewrite Hq. simpl. unfold Claimed.planned_queries.
      rewrite Hp. destruct (user_phids (config self)); [contradiction | reflexivity].
    + exact (tasks_of_query _ _ _ _ Hq).
    + destruct (delete_duplicates_spec all ∅) as (Hsub & Hnodup & Hkeep).
      split; [|split; [|split; [|split; [|split; [|split]]]]].
      * intros item Hin. apply (Hsub item Hin).
      * exact Hnodup.
      * intros item Hin. apply (Hkeep item Hin). set_solver.
      * apply delete_duplicates_sublist.
      * apply NoDup_ListNoDup, (List.NoDup_map_inv str). rewrite List.map_map.
        apply NoDup_ListNoDup. exact Hnodup.
      * intros pre item post Hall. subst kept. rewrite Hall.
        apply delete_duplicates_first.
      * intros Htext item Hin.
        destruct (Hkeep item Hin) as (item' & Hin' & Hsame); [set_solver|].
        rewrite <- (Htext item' item (proj1 (Hsub item' Hin')) Hin Hsame).
        apply in_map, Hin'.
  - intros tasks_project Hu Hp Ht.
    pose proof (query_tasks_projects self w _ Hu Hp Ht) as Hq.
    split.
    + unfold tasks. rewrite Hq. simpl. unfold Claimed.planned_queries.
      rewrite Hu. destruct (project_phids (config self)); [contradiction | reflexivity].
    + exact (tasks_of_query _ _ _ _ Hq).
  - intros owner cc author tasks_project Hu Hp Ho Hc Ha Ht.
    pose proof (query_tasks_both self w _ _ _ _ Hu Hp Ho Hc Ha Ht) as Hq.
    split; [|split].
    + unfold tasks. rewrite Hq. simpl. unfold Claimed.planned_queries.
      destruct (user_phids (config self)); [contradiction|].
      destruct (project_phids (config self)); [contradiction | reflexivity].
    + exact (tasks_of_query _ _ _ _ Hq).
    + rewrite (tasks_of_query _ _ _ _ Hq). intros issue Hin.
      apply gen_for_yielded in Hin. destruct Hin as (item & Hitem & Hbody).
      exists item. split; [exact Hitem | exact (task_body_record _ _ _ Hbody)].
Qed.

(** An API error in any of the Maniphest queries ends [tasks] quietly:
    the queries up to the failing one were made, a warning is logged,
    nothing is yielded and nothing is raised. *)
Lemma tasks_api_error self w pre c post err :
  Claimed.planned_queries (config self) = pre ++ c :: post ->
  Forall (fun c' => exists answer, maniphest_query c' = Ok answer) pre ->
  maniphest_query c = Raise (APIError err) ->
  tasks self w =
    (World (calls w ++ map ManiphestQuery (pre ++ [c]))
           (logged w ++ [(WARN, "Could not read tasks from Maniphest: " +:+ err)]),
     gen_return).
Proof.
  intros Hplan Hpre Hc.
  unfold Claimed.planned_queries in Hplan.
  unfold tasks, query_tasks.
  destruct (user_phids (config self)) as [|u us], (project_phids (config self)) as [|p ps];
    repeat (destruct pre as [|? pre];
            [simpl in Hplan; injection Hplan as ? ?; subst
            |simpl in Hplan; try discriminate Hplan;
             injection Hplan as ? Hplan; subst;
             apply Forall_cons in Hpre; destruct Hpre as [[? ?] Hpre]]);
    try discriminate Hplan;
    try (destruct pre; discriminate Hplan);
    unfold mbind, M_bind, api_maniphest_query, mret, M_ret; simpl;
    repeat match goal with
           | E : maniphest_query _ = _ |- _ => rewrite E; clear E; simpl
           end;
    unfold log_write; simpl; rewrite <- ?app_assoc; reflexivity.
Qed.

Lemma revisions_api_error self w err :
  differential_query = Raise (APIError err) ->
  revisions self w =
    (World (calls w ++ [DifferentialQuery])
           (logged w ++ [(WARN, "Could not read revisions from Differential: " +:+ err)]),
     gen_return).
Proof.
  intros E. unfold revisions, api_differential_query. rewrite E. reflexivity.
Qed.

End PhabProperties.

Section PhabExamples.
Import Py Base Phab.

Lemma phab_task_shape :
  Claimed.task_shape Sample.phab_task [] (VStr "U1") (VStr "U2") [].
Proof.
  repeat split; try reflexivity; eexists; repeat split; reflexivity.
Qed.

Lemma phab_task_cc_shape :
  Claimed.task_shape Sample.phab_task_cc [VStr "U1"] VNone (VStr "U2") [VStr "P9"].
Proof.
  repeat split; try reflexivity; eexists; repeat split; reflexivity.
Qed.

(** The Phabricator scenario: the task owned by U1 is emitted for
    [user_phids = U1]; and the task that has U1 only in cc is dropped
    once [ignore_cc] is set. *)
Lemma phabricator_membership_filter_witness :
  task_body (init (Sample.phab_config ["U1"] [])) ("T1", Sample.phab_task) =
    Ok (Some (Claimed.task_issue (init (Sample.phab_config ["U1"] [])) Sample.phab_task)) /\
  task_body (init (Claimed.set_ignore_cc true (Sample.phab_config ["U1"] [])))
    ("T2", Sample.phab_task_cc) = Ok None.
Proof.
  split.
  - destruct (@phabricator_membership_filter Sample.runtime Sample.conduit
                (init (Sample.phab_config ["U1"] []))) as (_ & Htask & _).
    apply (proj1 (Htask "T1" _ _ _ _ _ phab_task_shape)).
    right. left. exists "U1". split; left; reflexivity.
  - destruct (@phabricator_membership_filter Sample.runtime Sample.conduit
                (init (Sample.phab_config ["U1"] []))) as (_ & _ & _ & _ & _ & Hcc).
    apply (Hcc (Sample.phab_config ["U1"] []) "T2" _ _ _ _ _ phab_task_cc_shape).
    + left. discriminate.
    + exists "U1". split; left; reflexivity.
    + intros (p & [<- | []] & Hin). simpl in Hin.
      destruct Hin as [Hin | [Hin | []]]; discriminate Hin.
    + intros (p & [] & _).
Defined.

Lemma phabricator_task_queries_witness :
  (calls (fst (@tasks Sample.runtime Sample.conduit
                 (init (Sample.phab_config ["U1"] ["P9"])) Sample.fresh)) =
     [ManiphestQuery (OwnerPHIDs ["U1"]); ManiphestQuery (CcPHIDs ["U1"]);
      ManiphestQuery (AuthorPHIDs ["U1"]); ManiphestQuery (ProjectPHIDs ["P9"])] /\
   snd (@tasks Sample.runtime Sample.conduit
          (init (Sample.phab_config ["U1"] ["P9"])) Sample.fresh) =
     gen_for (task_body (init (Sample.phab_config ["U1"] ["P9"])))
       [("T2", Sample.phab_task_cc)]) /\
  snd (@tasks Sample.runtime Sample.conduit_overlap
         (init (Sample.phab_config ["U1"] [])) Sample.fresh) =
    gen_for (task_body (init (Sample.phab_config ["U1"] [])))
      [("T1", Sample.phab_task); ("T2", Sample.phab_task_cc)].
Proof.
  split.
  - destruct (@phabricator_task_queries Sample.runtime Sample.conduit
                (init (Sample.phab_config ["U1"] ["P9"])) Sample.fresh)
      as (_ & _ & Hboth).
    destruct (Hboth [("T1", Sample.phab_task)] [("T2", Sample.phab_task_cc)] []
                [("T2", Sample.phab_task_cc)])
      as (Hcalls & Htasks & _);
      try reflexivity; try discriminate.
    split; [exact Hcalls | exact Htasks].
  - destruct (@phabricator_task_queries Sample.runtime Sample.conduit_overlap
                (init (Sample.phab_config ["U1"] [])) Sample.fresh)
      as (Husers & _).
    assert (Hcfg : user_phids (config (init (Sample.phab_config ["U1"] []))) <> [])
      by discriminate.
    pose proof (Husers [("T1", Sample.phab_task)]
                  [("T1", Sample.phab_task); ("T2", Sample.phab_task_cc)]
                  [("T2", Sample.phab_task_cc)]
                  Hcfg eq_refl eq_refl eq_refl eq_refl) as Hkept.
    cbv zeta in Hkept. destruct Hkept as (_ & Htasks & _).
    rewrite Htasks. reflexivity.
Defined.

(** C3 as stated fails when both lists are configured: the project
    query is then the fourth query made, not the only one. *)
Lemma phabricator_project_query_not_alone :
  project_phids (config (init (Sample.phab_config ["U1"] ["P9"]))) <> [] /\
  calls (fst (@tasks Sample.runtime Sample.conduit
                (init (Sample.phab_config ["U1"] ["P9"])) Sample.fresh)) =
    [ManiphestQuery (OwnerPHIDs ["U1"]); ManiphestQuery (CcPHIDs ["U1"]);
     ManiphestQuery (AuthorPHIDs ["U1"]); ManiphestQuery (ProjectPHIDs ["P9"])] /\
  calls (fst (@tasks Sample.runtime Sample.conduit
                (init (Sample.phab_config ["U1"] ["P9"])) Sample.fresh)) <>
    [ManiphestQuery (ProjectPHIDs ["P9"])].
Proof.
  split; [discriminate|]. split; [reflexivity | discriminate].
Qed.

End PhabExamples.

(** ** Redmine *)

Section RedmineProperties.
Import Py Base Redmine.
Context `{Runtime} `{Helpers} `{TaskWarrior}.

(** The hours, project, priority and id of the normalized record, when
    [to_taskwarrior] returns. *)
Lemma redmine_to_taskwarrior_Ok (self : Issue RedMineConfig) (d : value) :
  to_taskwarrior self = Ok d ->
  exists spent_raw estimated_raw spent estimated project priority id,
    get (record self) "spent_hours" = Ok spent_raw /\
    get (record self) "estimated_hours" = Ok estimated_raw /\
    convert_hours spent_raw = Ok spent /\
    convert_hours estimated_raw = Ok estimated /\
    get_project_name self = Ok project /\
    get_priority self = Ok priority /\
    getitem (record self) "id" = Ok id /\
    getitem d SPENT_HOURS = Ok spent /\
    getitem d ESTIMATED_HOURS = Ok estimated /\
    getitem d "project" = Ok project /\
    getitem d "priority" = Ok priority /\
    getitem d ID = Ok id.
Proof.
  unfold to_taskwarrior. intros Hd. inv_bind Hd. injection Hd as <-.
  repeat eexists; try eassumption; reflexivity.
Qed.

Lemma convert_hours_zero :
  convert_hours (VFloat (S754_zero false)) = get_converted_hours "0.0 hours".
Proof. reflexivity. Qed.

Lemma convert_hours_absent : convert_hours VNone = Ok VNone.
Proof. reflexivity. Qed.

Lemma get_converted_hours_str text v :
  get_converted_hours text = Ok v ->
  exists calc, execute_calc text = Ok calc /\ v = VStr (rstrip_ws (fst calc)).
Proof.
  unfold get_converted_hours. intros Hv. inv_bind Hv. injection Hv as <-. eauto.
Qed.

(** C6: in the normalized record of an issue whose [estimated_hours] is
    the float 0.0 the estimated hours are the string that the duration
    conversion returns for ["0.0 hours"], and likewise for
    [spent_hours]; a field that is absent from the issue stays [None]. *)
Theorem redmine_zero_hours_are_converted (self : Issue RedMineConfig) r d :
  record self = VDict r ->
  to_taskwarrior self = Ok d ->
  (dict_lookup "estimated_hours" r = Some (VFloat (S754_zero false)) ->
     exists calc, execute_calc "0.0 hours" = Ok calc /\
       get_converted_hours "0.0 hours" = Ok (VStr (rstrip_ws (fst calc))) /\
       getitem d ESTIMATED_HOURS = Ok (VStr (rstrip_ws (fst calc)))) /\
  (dict_lookup "spent_hours" r = Some (VFloat (S754_zero false)) ->
     exists calc, execute_calc "0.0 hours" = Ok calc /\
       get_converted_hours "0.0 hours" = Ok (VStr (rstrip_ws (fst calc))) /\
       getitem d SPENT_HOURS = Ok (VStr (rstrip_ws (fst calc)))) /\
  (dict_lookup "estimated_hours" r = None -> getitem d ESTIMATED_HOURS = Ok VNone) /\
  (dict_lookup "spent_hours" r = None -> getitem d SPENT_HOURS = Ok VNone).
Proof.
  intros Hr Hd. apply redmine_to_taskwarrior_Ok in Hd.
  destruct Hd as (spent_raw & estimated_raw & spent & estimated & project & priority & id
                  & Hsr & Her & Hs & He & _ & _ & _ & Hds & Hde & _).
  rewrite Hr in Hsr, Her. unfold get in Hsr, Her.
  rewrite get_default_lookup in Hsr, Her.
  injection Hsr as <-. injection Her as <-.
  split; [|split; [|split]].
  - intros Hz. rewrite Hz, convert_hours_zero in He.
    destruct (get_converted_hours_str _ _ He) as (calc & Hcalc & ->).
    exists calc. auto.
  - intros Hz. rewrite Hz, convert_hours_zero in Hs.
    destruct (get_converted_hours_str _ _ Hs) as (calc & Hcalc & ->).
    exists calc. auto.
  - intros Hz. rewrite Hz, convert_hours_absent in He. injection He as <-. exact Hde.
  - intros Hz. rewrite Hz, convert_hours_absent in Hs. injection Hs as <-. exact Hds.
Qed.

Lemma get_project_name_derived self v :
  project_name (Base.config self) = "" ->
  get_project_name self = Ok v ->
  exists project name,
    getitem (record self) "project" = Ok project /\
    getitem project "name" = Ok (VStr name) /\
    v = VStr (lower (re_sub_non_alnum name)).
Proof.
  intros Hpn. unfold get_project_name. rewrite Hpn. simpl negb. cbn iota.
  intros Hv. inv_bind Hv. injection Hv as <-.
  destruct x0; simpl in E1; try discriminate. injection E1 as <-.
  eauto.
Qed.

Lemma get_priority_named self r p name :
  record self = VDict r ->
  dict_lookup "priority" r = Some (VDict p) ->
  Claimed.field_is p "name" name ->
  get_priority self =
  Ok (VStr (Claimed.redmine_bucket (default_priority (Base.config self)) name)).
Proof.
  intros Hr Hp Hname. unfold get_priority. rewrite Hr, get_default_lookup, Hp.
  cbn [mbind result_bind]. unfold get. rewrite get_default_lookup.
  unfold Claimed.field_is in Hname. rewrite Hname.
  destruct name as [n|]; cbn [mbind result_bind]; [|reflexivity].
  unfold table_get, Claimed.redmine_bucket. cbn [hashable PRIORITY_MAP dict_lookup].
  destruct (String.eqb n "Low"), (String.eqb n "Normal"), (String.eqb n "High"),
    (String.eqb n "Urgent"), (String.eqb n "Immediate"); reflexivity.
Qed.

Lemma get_priority_absent self r :
  record self = VDict r ->
  dict_lookup "priority" r = None ->
  get_priority self = Ok (VStr (default_priority (Base.config self))).
Proof.
  intros Hr Hp. unfold get_priority. rewrite Hr, get_default_lookup, Hp. reflexivity.
Qed.

Lemma alphanumeric_char (c : ascii) :
  is_ascii_alnum c = Claimed.alphanumeric c /\
  (is_ascii_alnum c = true -> lower_char c = Claimed.lower_case c).
Proof.
  destruct c as [[] [] [] [] [] [] [] []]; vm_compute; split;
    (reflexivity || (intros Hc; (discriminate Hc || reflexivity))).
Qed.

(** The derivation in [get_project_name] computes the project key of
    the specification. *)
Lemma project_key_refines (name : string) :
  lower (re_sub_non_alnum name) = Claimed.project_key name.
Proof.
  unfold Claimed.project_key. induction name as [|c name IH]; [reflexivity|].
  destruct (alphanumeric_char c) as [Halnum Hlower].
  cbn [re_sub_non_alnum list_ascii_of_string List.filter].
  rewrite <- Halnum. destruct (is_ascii_alnum c) eqn:E.
  - cbn [lower map string_of_list_ascii]. rewrite IH, (Hlower eq_refl). reflexivity.
  - exact IH.
Qed.

(** C8: without a project-name override the project of the normalized
    record is the remote project name with every character outside
    a-z, A-Z and 0-9 removed, put in lower case. An issue with id 42,
    priority High and project ["My Proj!"] is normalized to project
    ["myproj"], priority ["H"] and id 42, and the issue of the scenario
    is normalized. *)
Theorem redmine_project_key (self : Issue RedMineConfig) :
  project_name (Base.config self) = "" ->
  (forall d, to_taskwarrior self = Ok d ->
     exists project name,
       getitem (record self) "project" = Ok project /\
       getitem project "name" = Ok (VStr name) /\
       getitem d "project" = Ok (VStr (Claimed.project_key name))) /\
  (forall r p pr d,
     record self = VDict r ->
     dict_lookup "id" r = Some (VInt 42) ->
     dict_lookup "priority" r = Some (VDict p) ->
     dict_lookup "name" p = Some (VStr "High") ->
     dict_lookup "project" r = Some (VDict pr) ->
     dict_lookup "name" pr = Some (VStr "My Proj!") ->
     to_taskwarrior self = Ok d ->
     getitem d "project" = Ok (VStr "myproj") /\
     getitem d "priority" = Ok (VStr "H") /\
     getitem d ID = Ok (VInt 42)) /\
  (forall x,
     record self = Sample.redmine_issue -> extra self = VDict x ->
     exists d, to_taskwarrior self = Ok d).
Proof.
  intros Hpn. split; [|split].
  - intros d Hd. apply redmine_to_taskwarrior_Ok in Hd.
    destruct Hd as (spent_raw & estimated_raw & spent & estimated & project & priority & id
                    & _ & _ & _ & _ & Hproject & _ & _ & _ & _ & Hdp & _).
    destruct (get_project_name_derived self project Hpn Hproject)
      as (pr & name & Hp & Hname & ->).
    exists pr, name. rewrite <- project_key_refines. auto.
  - intros r p pr d Hr Hid Hprio Hhigh Hproj Hname Hd.
    apply redmine_to_taskwarrior_Ok in Hd.
    destruct Hd as (spent_raw & estimated_raw & spent & estimated & project & priority & id
                    & _ & _ & _ & _ & Hproject & Hpriority & Hgid & _ & _ & Hdp & Hdprio & Hdid).
    destruct (get_project_name_derived self project Hpn Hproject)
      as (pr' & name & Hp & Hn & ->).
    rewrite Hr in Hp, Hgid. rewrite (getitem_lookup _ _ _ Hproj) in Hp.
    injection Hp as <-. rewrite (getitem_lookup _ _ _ Hname) in Hn.
    injection Hn as <-. rewrite (getitem_lookup _ _ _ Hid) in Hgid.
    injection Hgid as <-.
    rewrite (get_priority_named self r p (Some "High") Hr Hprio Hhigh) in Hpriority.
    injection Hpriority as <-.
    split; [exact Hdp | split; [exact Hdprio | exact Hdid]].
  - intros x Hr Hx. unfold to_taskwarrior, get_project_name, get_issue_url.
    rewrite (get_priority_named self _ _ (Some "High") Hr eq_refl eq_refl).
    rewrite Hr, Hx, Hpn, get_default_lookup. simpl. eauto.
Qed.

End RedmineProperties.

(** ** Across the connectors *)

Section ConnectorProperties.
Import Py Base.
Context `{Runtime} `{Helpers} `{Phab.Conduit} `{Gerrit.Http}.

Lemma phab_priority_named (self : Issue Phab.PhabricatorConfig) r name :
  record self = VDict r ->
  Claimed.field_is r "priority" name ->
  Phab.priority self =
  Ok (VStr (Claimed.phabricator_bucket (Phab.default_priority (Base.config self)) name)).
Proof.
  intros Hr Hname. unfold Phab.priority, get. rewrite Hr, get_default_lookup.
  unfold Claimed.field_is in Hname. rewrite Hname.
  destruct name as [n|]; cbn [mbind result_bind]; [|reflexivity].
  unfold table_get, Claimed.phabricator_bucket.
  cbn [hashable Phab.PRIORITY_MAP dict_lookup].
  repeat match goal with
         | |- context [String.eqb n ?l] =>
             destruct (String.eqb_spec n l); [subst; reflexivity|]
         end.
  reflexivity.
Qed.

Lemma gerrit_issues_http_error (self : Gerrit.GerritService) response e :
  Gerrit.session_get
    (Gerrit.base_uri (Gerrit.config self) +:+ "/a/changes/?q=" +:+ Gerrit.query_string self)
    = Ok response ->
  Gerrit.raise_for_status response = Raise e ->
  Gerrit.issues self = gen_raise e.
Proof.
  intros Hget Hstatus. unfold Gerrit.issues. rewrite Hget, Hstatus. reflexivity.
Qed.

(** C4: an API error in a query of [tasks] or in the query of
    [revisions] is caught: a warning is logged, the generator ends
    without an item and without an exception. In [GerritService.issues]
    the exception that [raise_for_status] raises for the response leaves
    the generator at once, before any item. *)
Theorem remote_failures_are_handled_asymmetrically :
  (forall (self : Phab.PhabricatorService) w pre c post err,
     Claimed.planned_queries (Phab.config self) = pre ++ c :: post ->
     Forall (fun c' => exists answer, Phab.maniphest_query c' = Ok answer) pre ->
     Phab.maniphest_query c = Raise (APIError err) ->
     snd (Phab.tasks self w) = Gen [] None /\
     Phab.logged (fst (Phab.tasks self w)) =
       Phab.logged w ++ [(Phab.WARN, "Could not read tasks from Maniphest: " +:+ err)]) /\
  (forall (self : Phab.PhabricatorService) w err,
     Phab.differential_query = Raise (APIError err) ->
     snd (Phab.revisions self w) = Gen [] None /\
     Phab.logged (fst (Phab.revisions self w)) =
       Phab.logged w ++
       [(Phab.WARN, "Could not read revisions from Differential: " +:+ err)]) /\
  (forall (self : Gerrit.GerritService) response e,
     Gerrit.session_get
       (Gerrit.base_uri (Gerrit.config self) +:+ "/a/changes/?q=" +:+
        Gerrit.query_string self) = Ok response ->
     Gerrit.raise_for_status response = Raise e ->
     Gerrit.issues self = Gen [] (Some e)).
Proof.
  split; [|split].
  - intros self w pre c post err Hplan Hpre Hc.
    rewrite (tasks_api_error self w pre c post err Hplan Hpre Hc). split; reflexivity.
  - intros self w err Hq. rewrite (revisions_api_error self w err Hq). split; reflexivity.
  - intros self response e Hget Hstatus.
    exact (gerrit_issues_http_error self response e Hget Hstatus).
Qed.

(** C5: the priority of a Phabricator record is H for 'Unbreak Now!'
    and 'High', M for 'Normal', L for 'Low' and 'Wishlist', and the
    configured default for 'Needs Triage', for any other name and for an
    absent priority; the priority of a Redmine record is L for 'Low', M
    for 'Normal', H for 'High', 'Urgent' and 'Immediate', and the
    configured default for any other name, an absent name and an absent
    priority. Either way a priority is returned. *)
Theorem priority_mappings_are_total :
  (forall (self : Issue Phab.PhabricatorConfig) r name,
     record self = VDict r ->
     Claimed.field_is r "priority" name ->
     Phab.priority self =
     Ok (VStr (Claimed.phabricator_bucket
                 (Phab.default_priority (Base.config self)) name))) /\
  (forall default,
     Claimed.phabricator_bucket default (Some "Unbreak Now!") = "H" /\
     Claimed.phabricator_bucket default (Some "High") = "H" /\
     Claimed.phabricator_bucket default (Some "Normal") = "M" /\
     Claimed.phabricator_bucket default (Some "Low") = "L" /\
     Claimed.phabricator_bucket default (Some "Wishlist") = "L" /\
     Claimed.phabricator_bucket default (Some "Needs Triage") = default /\
     Claimed.phabricator_bucket default None = default /\
     (forall name,
        ~ In name ["Unbreak Now!"; "High"; "Normal"; "Low"; "Wishlist"] ->
        Claimed.phabricator_bucket default (Some name) = default)) /\
  (forall (self : Issue Redmine.RedMineConfig) r,
     record self = VDict r ->
     (dict_lookup "priority" r = None ->
        Redmine.get_priority self =
        Ok (VStr (Redmine.default_priority (Base.config self)))) /\
     (forall p name,
        dict_lookup "priority" r = Some (VDict p) ->
        Claimed.field_is p "name" name ->
        Redmine.get_priority self =
        Ok (VStr (Claimed.redmine_bucket
                    (Redmine.default_priority (Base.config self)) name)))) /\
  (forall default,
     Claimed.redmine_bucket default (Some "Low") = "L" /\
     Claimed.redmine_bucket default (Some "Normal") = "M" /\
     Claimed.redmine_bucket default (Some "High") = "H" /\
     Claimed.redmine_bucket default (Some "Urgent") = "H" /\
     Claimed.redmine_bucket default (Some "Immediate") = "H" /\
     Claimed.redmine_bucket default None = default /\
     (forall name,
        ~ In name ["Low"; "Normal"; "High"; "Urgent"; "Immediate"] ->
        Claimed.redmine_bucket default (Some name) = default)).
Proof.
  split; [|split; [|split]].
  - apply phab_priority_named.
  - intros default. repeat split; try reflexivity.
    intros name Hout. unfold Claimed.phabricator_bucket.
    repeat match goal with
           | |- context [String.eqb name ?l] =>
               destruct (String.eqb_spec name l);
               [subst; try reflexivity; exfalso; apply Hout; simpl; tauto|]
           end.
    reflexivity.
  - intros self r Hr. split.
    + apply get_priority_absent. exact Hr.
    + intros p name. apply get_priority_named. exact Hr.
  - intros default. repeat split; try reflexivity.
    intros name Hout. unfold Claimed.redmine_bucket.
    repeat match goal with
           | |- context [String.eqb name ?l] =>
               destruct (String.eqb_spec name l);
               [subst; exfalso; apply Hout; simpl; tauto|]
           end.
    reflexivity.
Qed.

End ConnectorProperties.

Section ConnectorExamples.
Import Py Base.

Lemma remote_failures_are_handled_asymmetrically_witness :
  snd (@Phab.tasks Sample.runtime Sample.conduit_down
         (Phab.init (Sample.phab_config ["U1"] [])) Sample.fresh) = Gen [] None /\
  snd (@Phab.revisions Sample.conduit_down
         (Phab.init (Sample.phab_config ["U1"] [])) Sample.fresh) = Gen [] None /\
  @Gerrit.issues Sample.runtime Sample.helpers Sample.http_unavailable
    (Gerrit.init Sample.gerrit_config) = Gen [] (Some (HTTPError 503)).
Proof.
  destruct (@remote_failures_are_handled_asymmetrically
              Sample.runtime Sample.helpers Sample.conduit_down Sample.http_unavailable)
    as (Htasks & Hrevisions & Hgerrit).
  split; [|split].
  - apply (Htasks (Phab.init (Sample.phab_config ["U1"] [])) Sample.fresh
             [] (Phab.OwnerPHIDs ["U1"])
             [Phab.CcPHIDs ["U1"]; Phab.AuthorPHIDs ["U1"]]
             "ERR-CONDUIT-CORE: down"); [reflexivity | constructor | reflexivity].
  - apply (Hrevisions (Phab.init (Sample.phab_config ["U1"] [])) Sample.fresh
             "ERR-CONDUIT-CORE: down"). reflexivity.
  - apply (Hgerrit (Gerrit.init Sample.gerrit_config)
             {| Gerrit.status_code := 503; Gerrit.text := "" |} (HTTPError 503));
      reflexivity.
Defined.

Lemma priority_mappings_are_total_witness :
  Phab.priority (MkIssue Sample.phab_task (VDict []) (Sample.phab_config [] [])) =
    Ok (VStr "H") /\
  Redmine.get_priority (MkIssue Sample.redmine_issue (VDict []) Sample.redmine_config) =
    Ok (VStr "H").
Proof.
  destruct priority_mappings_are_total as (Hphab & _ & Hredmine & _).
  split.
  - exact (Hphab (MkIssue Sample.phab_task (VDict []) (Sample.phab_config [] []))
             _ (Some "High") eq_refl eq_refl).
  - destruct (Hredmine (MkIssue Sample.redmine_issue (VDict []) Sample.redmine_config)
               _ eq_refl) as [_ Hnamed].
    exact (Hnamed _ (Some "High") eq_refl eq_refl).
Defined.

Lemma redmine_zero_hours_are_converted_witness :
  exists d,
    @Redmine.to_taskwarrior Sample.runtime Sample.helpers Sample.taskwarrior
      (MkIssue Sample.redmine_issue_zero (VDict []) Sample.redmine_config) = Ok d /\
    getitem d Redmine.ESTIMATED_HOURS = Ok (VStr "PT0S") /\
    getitem d Redmine.SPENT_HOURS = Ok VNone.
Proof.
  eexists. split; [vm_compute; reflexivity|].
  destruct (@redmine_zero_hours_are_converted
              Sample.runtime Sample.helpers Sample.taskwarrior
              (MkIssue Sample.redmine_issue_zero (VDict []) Sample.redmine_config)
              _ _ eq_refl eq_refl) as (Hestimated & _ & _ & Hspent).
  split.
  - destruct (Hestimated eq_refl) as (calc & Hcalc & _ & Hd).
    injection Hcalc as <-. exact Hd.
  - exact (Hspent eq_refl).
Defined.

Lemma redmine_project_key_witness :
  exists d,
    @Redmine.to_taskwarrior Sample.runtime Sample.helpers Sample.taskwarrior
      (MkIssue Sample.redmine_issue (VDict []) Sample.redmine_config) = Ok d /\
    getitem d "project" = Ok (VStr "myproj") /\
    getitem d "priority" = Ok (VStr "H") /\
    getitem d Redmine.ID = Ok (VInt 42).
Proof.
  destruct (@redmine_project_key Sample.runtime Sample.helpers Sample.taskwarrior
              (MkIssue Sample.redmine_issue (VDict []) Sample.redmine_config) eq_refl)
    as (_ & Hscenario & Hreturns).
  destruct (Hreturns [] eq_refl eq_refl) as [d Hd].
  exists d. split; [exact Hd|].
  exact (Hscenario _ _ _ d eq_refl eq_refl eq_refl eq_refl eq_refl eq_refl Hd).
Defined.

End ConnectorExamples.

(** * Further properties of the connectors *)

(** ** Generators and strings *)

(** A loop stops at the first element whose body raises: what the
    elements before it yielded has been yielded, and the exception
    leaves the generator. *)
Lemma gen_for_stops {A B} (body : A -> Py.result (option B)) good bad rest e :
  Forall (fun x => exists o, body x = Py.Ok o) good ->
  body bad = Py.Raise e ->
  Py.gen_for body (good ++ bad :: rest) =
  Py.Gen (Py.yielded (Py.gen_for body good)) (Some e).
Proof.
  intros Hgood Hbad. induction Hgood as [|x good [o Hx] _ IH]; simpl.
  - rewrite Hbad. reflexivity.
  - rewrite Hx. destruct o as [b|]; [|exact IH].
    rewrite IH. reflexivity.
Qed.

(** A loop whose body yields at every element yields one item per
    element, in order. *)
Lemma gen_for_all_yield {A B} (body : A -> Py.result (option B)) (f : A -> B) l :
  Forall (fun x => body x = Py.Ok (Some (f x))) l ->
  Py.gen_for body l = Py.Gen (map f l) None.
Proof.
  induction 1 as [|x l Hx _ IH]; simpl; [reflexivity|].
  rewrite Hx, IH. reflexivity.
Qed.

Lemma append_cancel_last (x y : string) (c : ascii) :
  x +:+ String c "" = y +:+ String c "" -> x = y.
Proof.
  revert y. induction x as [|a x IH]; intros [|b y]; simpl; intros Heq.
  - reflexivity.
  - injection Heq as _ Heq. destruct y; discriminate.
  - injection Heq as _ Heq. destruct x; discriminate.
  - injection Heq as -> Heq. f_equal. apply IH. exact Heq.
Qed.

Lemma append_cancel_l (p x y : string) : p +:+ x = p +:+ y -> x = y.
Proof. induction p; simpl; intros Heq; [exact Heq | injection Heq as Heq; auto]. Qed.

(** ** Stripping, reversing and replacing *)

Section StringFacts.
Import Py.

Lemma append_cons c s t : String c s +:+ t = String c (s +:+ t).
Proof. reflexivity. Qed.

Lemma append_nil_l t : "" +:+ t = t.
Proof. reflexivity. Qed.

Lemma append_nil_r s : s +:+ "" = s.
Proof.
  induction s as [|c s IH]; [reflexivity|]. rewrite append_cons, IH. reflexivity.
Qed.

Lemma append_assoc (a b c : string) : (a +:+ b) +:+ c = a +:+ (b +:+ c).
Proof.
  induction a as [|d a IH]; [reflexivity|]. rewrite !append_cons, IH. reflexivity.
Qed.

Lemma list_ascii_of_string_app a b :
  list_ascii_of_string (a +:+ b) = list_ascii_of_string a ++ list_ascii_of_string b.
Proof.
  induction a as [|c a IH]; [reflexivity|].
  rewrite append_cons. simpl. rewrite IH. reflexivity.
Qed.

Lemma length_append a b :
  String.length (a +:+ b) = (String.length a + String.length b)%nat.
Proof.
  induction a as [|c a IH]; [reflexivity|].
  rewrite append_cons. simpl. rewrite IH. reflexivity.
Qed.

Lemma string_rev_onto_app s acc : string_rev_onto s acc = string_rev s +:+ acc.
Proof.
  unfold string_rev. revert acc. induction s as [|c s IH]; intros acc; simpl.
  - reflexivity.
  - rewrite (IH (String c acc)), (IH (String c "")), append_assoc. reflexivity.
Qed.

Lemma string_rev_cons c s : string_rev (String c s) = string_rev s +:+ String c "".
Proof. unfold string_rev at 1. simpl. apply string_rev_onto_app. Qed.

Lemma string_rev_app a b : string_rev (a +:+ b) = string_rev b +:+ string_rev a.
Proof.
  induction a as [|c a IH].
  - rewrite append_nil_l, append_nil_r. reflexivity.
  - rewrite append_cons, !string_rev_cons, IH, append_assoc. reflexivity.
Qed.

Lemma string_rev_involutive s : string_rev (string_rev s) = s.
Proof.
  induction s as [|c s IH]; [reflexivity|].
  rewrite string_rev_cons, string_rev_app, IH. reflexivity.
Qed.

(** What is stripped from the left is a prefix, and what stays does not
    begin with a character to strip. *)
Lemma lstrip_while_split p s :
  exists stripped, s = stripped +:+ lstrip_while p s /\
    Forall (fun c => p c = true) (list_ascii_of_string stripped).
Proof.
  induction s as [|c s (t & Hs & Ht)]; simpl.
  - exists "". split; [reflexivity | constructor].
  - destruct (p c) eqn:E.
    + exists (String c t). split; [rewrite append_cons; f_equal; exact Hs|].
      simpl. constructor; assumption.
    + exists "". split; [reflexivity | constructor].
Qed.

Lemma lstrip_while_head p s :
  match lstrip_while p s with
  | EmptyString => True
  | String c _ => p c = false
  end.
Proof.
  induction s as [|c s IH]; simpl; [exact I|].
  destruct (p c) eqn:E; [exact IH | exact E].
Qed.

Lemma lstrip_while_fixed p s :
  lstrip_while p s = s <->
  match s with EmptyString => True | String c _ => p c = false end.
Proof.
  destruct s as [|c s]; simpl; [tauto|].
  destruct (p c) eqn:E; split; try tauto; try discriminate.
  intros Heq. pose proof (lstrip_while_split p s) as (t & Hs & _).
  rewrite Heq in Hs.
  assert (Hlen : String.length s = String.length (t +:+ String c s)) by (rewrite <- Hs; reflexivity).
  rewrite length_append in Hlen. simpl in Hlen. lia.
Qed.

Lemma lstrip_while_idempotent p s :
  lstrip_while p (lstrip_while p s) = lstrip_while p s.
Proof.
  apply lstrip_while_fixed. apply lstrip_while_head.
Qed.

Lemma lstrip_while_app p a b :
  Forall (fun c => p c = true) (list_ascii_of_string a) ->
  lstrip_while p (a +:+ b) = lstrip_while p b.
Proof.
  induction a as [|c a IH]; intros Hall; [reflexivity|].
  simpl in Hall. apply Forall_cons in Hall. destruct Hall as [Hc Hall].
  rewrite append_cons. simpl. rewrite Hc. auto.
Qed.

Lemma rstrip_while_idempotent p s :
  rstrip_while p (rstrip_while p s) = rstrip_while p s.
Proof.
  unfold rstrip_while. rewrite string_rev_involutive, lstrip_while_idempotent.
  reflexivity.
Qed.

(** What stays after stripping from the right is a prefix. *)
Lemma rstrip_while_split p s :
  exists stripped, s = rstrip_while p s +:+ stripped /\
    Forall (fun c => p c = true) (list_ascii_of_string stripped).
Proof.
  unfold rstrip_while.
  destruct (lstrip_while_split p (string_rev s)) as (t & Hs & Ht).
  exists (string_rev t). split.
  - rewrite <- string_rev_app, <- Hs, string_rev_involutive. reflexivity.
  - clear Hs. induction t as [|c t IH]; [constructor|].
    simpl in Ht. apply Forall_cons in Ht. destruct Ht as [Hc Ht].
    rewrite string_rev_cons, list_ascii_of_string_app.
    apply Forall_app. split; [auto|].
    simpl. constructor; [exact Hc | constructor].
Qed.

Lemma rstrip_while_keeps_head p s :
  lstrip_while p s = s -> lstrip_while p (rstrip_while p s) = rstrip_while p s.
Proof.
  intros Hs. apply lstrip_while_fixed. apply lstrip_while_fixed in Hs.
  destruct (rstrip_while_split p s) as (t & Hsplit & _).
  destruct (rstrip_while p s) as [|c r]; [exact I|].
  rewrite Hsplit, append_cons in Hs. exact Hs.
Qed.

Lemma strip_ws_idempotent s : strip_ws (strip_ws s) = strip_ws s.
Proof.
  unfold strip_ws.
  rewrite (rstrip_while_keeps_head _ _ (lstrip_while_idempotent _ s)).
  apply rstrip_while_idempotent.
Qed.

Lemma replace_char_rev old new s :
  string_rev (replace_char old new s) = replace_char old new (string_rev s).
Proof.
  assert (Happ : forall a b, replace_char old new (a +:+ b) =
                             replace_char old new a +:+ replace_char old new b).
  { intros a b. induction a as [|d a IHa]; [reflexivity|].
    rewrite append_cons. simpl. rewrite IHa, append_cons. reflexivity. }
  induction s as [|c s IH]; [reflexivity|].
  simpl replace_char at 1. rewrite !string_rev_cons, IH, Happ. reflexivity.
Qed.

Lemma replace_newline_idempotent s :
  replace_char newline space (replace_char newline space s) =
  replace_char newline space s.
Proof.
  induction s as [|c s IH]; simpl; [reflexivity|]. rewrite IH. f_equal.
  destruct (Ascii.eqb c newline) eqn:E; [reflexivity | rewrite E; reflexivity].
Qed.

(** Replacing newlines does not touch a text's ends when they are not
    white space. *)
Lemma lstrip_ws_replace s :
  lstrip_while is_whitespace s = s ->
  lstrip_while is_whitespace (replace_char newline space s) =
  replace_char newline space s.
Proof.
  intros Hs. apply lstrip_while_fixed. apply lstrip_while_fixed in Hs.
  destruct s as [|c s]; simpl; [exact I|].
  destruct (Ascii.eqb c newline) eqn:E; [|exact Hs].
  apply Ascii.eqb_eq in E. subst. discriminate Hs.
Qed.

Lemma strip_ws_replace s :
  strip_ws s = s ->
  strip_ws (replace_char newline space s) = replace_char newline space s.
Proof.
  unfold strip_ws. intros Hs.
  assert (Hl : lstrip_while is_whitespace s = s).
  { pose proof (rstrip_while_keeps_head is_whitespace _
                  (lstrip_while_idempotent is_whitespace s)) as Hk.
    rewrite Hs in Hk. exact Hk. }
  rewrite Hl in Hs.
  rewrite (lstrip_ws_replace s Hl).
  unfold rstrip_while in *.
  rewrite replace_char_rev.
  assert (Hr : lstrip_while is_whitespace (string_rev s) = string_rev s).
  { rewrite <- Hs at 2. rewrite string_rev_involutive. reflexivity. }
  rewrite (lstrip_ws_replace _ Hr), <- replace_char_rev, string_rev_involutive.
  reflexivity.
Qed.

Lemma replace_newline_none s :
  ~ In newline (list_ascii_of_string (replace_char newline space s)).
Proof.
  induction s as [|c s IH]; simpl; [tauto|].
  intros [Hc | Hin]; [|exact (IH Hin)].
  destruct (Ascii.eqb c newline) eqn:E; [discriminate Hc|].
  apply Ascii.eqb_neq in E. congruence.
Qed.

Lemma mem_char_app c a b : mem_char c (a +:+ b) = mem_char c a || mem_char c b.
Proof.
  induction a as [|d a IH]; [reflexivity|].
  rewrite append_cons. simpl. destruct (Ascii.eqb c d); [reflexivity | exact IH].
Qed.

Lemma mem_char_In c s : mem_char c s = true <-> In c (list_ascii_of_string s).
Proof.
  induction s as [|d s IH]; simpl; [split; [discriminate | tauto]|].
  destruct (Ascii.eqb_spec c d) as [-> | Hne].
  - split; auto.
  - rewrite IH. split; [auto|]. intros [Heq | Hin]; [congruence | exact Hin].
Qed.

Lemma mem_char_self s :
  Forall (fun c => mem_char c s = true) (list_ascii_of_string s).
Proof. apply List.Forall_forall. intros c Hc. apply mem_char_In. exact Hc. Qed.

Lemma is_prefix_app p s : is_prefix p (p +:+ s) = true.
Proof.
  induction p as [|c p IH]; [reflexivity|].
  rewrite append_cons. simpl. rewrite Ascii.eqb_refl. exact IH.
Qed.

Lemma strip_literal_app p s : Claimed.strip_literal p (p +:+ s) = s.
Proof.
  induction p as [|c p IH]; [reflexivity|].
  rewrite append_cons. simpl. rewrite Ascii.eqb_refl, is_prefix_app. exact IH.
Qed.

(** ** Decimal numerals *)

Lemma pretty_N_char_decimal x : mem_char (pretty_N_char x) "0123456789" = true.
Proof. unfold pretty_N_char. repeat case_match; reflexivity. Qed.

Lemma pretty_N_go_decimal x s :
  Forall (fun c => mem_char c "0123456789" = true) (list_ascii_of_string s) ->
  Forall (fun c => mem_char c "0123456789" = true)
         (list_ascii_of_string (pretty_N_go x s)).
Proof.
  revert s. induction (N.lt_wf_0 x) as [x _ IH]; intros s Hs.
  assert (x = 0 \/ 0 < x)%N as [-> | Hpos] by lia.
  - rewrite pretty_N_go_0. exact Hs.
  - rewrite pretty_N_go_step by exact Hpos. apply IH.
    + apply N.div_lt; [exact Hpos | reflexivity].
    + simpl. constructor; [apply pretty_N_char_decimal | exact Hs].
Qed.

Lemma pretty_N_go_nonempty x s : s <> "" -> pretty_N_go x s <> "".
Proof.
  revert s. induction (N.lt_wf_0 x) as [x _ IH]; intros s Hs.
  assert (x = 0 \/ 0 < x)%N as [-> | Hpos] by lia.
  - rewrite pretty_N_go_0. exact Hs.
  - rewrite pretty_N_go_step by exact Hpos. apply IH; [|discriminate].
    apply N.div_lt; [exact Hpos | reflexivity].
Qed.

(** The decimal text of an integer is not empty and holds digits and
    possibly a minus sign. *)
Lemma str_of_Z_decimal n :
  str_of_Z n <> "" /\
  Forall (fun c => mem_char c "0123456789-" = true) (list_ascii_of_string (str_of_Z n)).
Proof.
  assert (Hweak : forall s,
    Forall (fun c => mem_char c "0123456789" = true) (list_ascii_of_string s) ->
    Forall (fun c => mem_char c "0123456789-" = true) (list_ascii_of_string s)).
  { intros s Hs. eapply Forall_impl; [exact Hs|]. intros c Hc.
    change "0123456789-" with ("0123456789" +:+ "-").
    rewrite mem_char_app, Hc. reflexivity. }
  assert (Hpos : forall p, pretty (N.pos p) <> "" /\
    Forall (fun c => mem_char c "0123456789" = true)
           (list_ascii_of_string (pretty (N.pos p)))).
  { intros p. unfold pretty, pretty_N. case_decide; [discriminate|].
    assert (Hstep : (0 < N.pos p)%N) by lia.
    split.
    - rewrite pretty_N_go_step by exact Hstep. apply pretty_N_go_nonempty. discriminate.
    - apply pretty_N_go_decimal. constructor. }
  unfold str_of_Z, pretty, pretty_Z. destruct n as [|p|p].
  - split; [discriminate | repeat constructor].
  - destruct (Hpos p) as [Hne Hall]. split; [exact Hne | exact (Hweak _ Hall)].
  - destruct (Hpos p) as [Hne Hall]. split; [discriminate|].
    change ("-" +:+ pretty p) with (String "-" (pretty (N.pos p))).
    simpl. constructor; [reflexivity | exact (Hweak _ Hall)].
Qed.

Lemma decimal_not_in_patch_set c :
  mem_char c "0123456789-" = true ->
  mem_char c "Patch Set " = false /\ Ascii.eqb c space = false.
Proof.
  destruct c as [[] [] [] [] [] [] [] []]; vm_compute; intros Hc;
    (discriminate Hc || (split; reflexivity)).
Qed.

End StringFacts.

(** ** Gerrit: annotations, URLs and the run over the changes *)

Section GerritFurther.
Import Py Base Gerrit.
Context `{Runtime} `{Helpers} `{Http}.

(** X1: [annotation_entries] returns exactly when every message has a
    resolvable author and a text; it then holds one entry per message,
    in the order received, each with that author and that text. *)
Theorem gerrit_annotation_entries_in_order (items : list value)
  (entries : list (value * string)) :
  annotation_entries items = Ok entries <->
  Forall2 (fun item entry =>
             annotation_username item ["name"; "username"; "email"] = Ok (fst entry) /\
             annotation_message item = Ok (snd entry))
          items entries.
Proof.
  split.
  - revert entries. induction items as [|item items IH]; intros entries Hentries.
    + injection Hentries as <-. constructor.
    + cbn [annotation_entries] in Hentries. inv_bind Hentries.
      injection Hentries as <-. constructor; [split; assumption | auto].
  - induction 1 as [|item [username message] items entries [Hu Hm] _ IH].
    + reflexivity.
    + cbn [annotation_entries]. cbn [fst snd] in Hu, Hm. rewrite Hu, Hm, IH. reflexivity.
Qed.

(** X2: two changes with different integer numbers never get the same
    URL, the attribute that identifies a Gerrit record. *)
Theorem gerrit_build_url_injective (self : GerritService) (c1 c2 : value) (n1 n2 : Z) u :
  getitem c1 "_number" = Ok (VInt n1) ->
  getitem c2 "_number" = Ok (VInt n2) ->
  build_url self c1 = Ok u ->
  build_url self c2 = Ok u ->
  n1 = n2.
Proof.
  intros Hn1 Hn2. unfold build_url. rewrite Hn1, Hn2. simpl.
  intros [= <-] [= Heq].
  apply append_cancel_l in Heq. injection Heq as Heq.
  apply append_cancel_last in Heq.
  symmetry. exact (pretty_Z_inj _ _ Heq).
Qed.

(** X3: when the request succeeds, the text after the four-character
    prefix decodes to a list, and every change has a URL and
    annotations, [issues] ends normally having yielded one issue per
    change, in order: the change as record, its URL and annotations as
    extra data. *)
Theorem gerrit_issues_one_per_change (self : GerritService) response changes :
  session_get (base_uri (config self) +:+ "/a/changes/?q=" +:+ query_string self)
    = Ok response ->
  raise_for_status response = Ok tt ->
  json_loads (string_drop 4 (text response)) = Ok (VList changes) ->
  Forall (fun change => exists url annotations,
            build_url self change = Ok url /\
            Gerrit.annotations self change = Ok annotations) changes ->
  raised (issues self) = None /\
  Forall2 (fun change issue =>
             record issue = change /\ Base.config issue = config self /\
             exists url annotations,
               build_url self change = Ok url /\
               Gerrit.annotations self change = Ok annotations /\
               extra issue = VDict [("url", VStr url); ("annotations", annotations)])
          changes (yielded (issues self)).
Proof.
  intros Hget Hstatus Hjson Hall. unfold issues.
  rewrite Hget, Hstatus, Hjson. cbn [iter]. clear Hjson.
  induction Hall as [|change changes (url & annotations & Hurl & Hann) _ [IHr IHy]].
  - split; [reflexivity | constructor].
  - cbn [gen_for]. rewrite Hurl. cbn [mbind result_bind]. rewrite Hann.
    cbn [mbind result_bind gen_yield yielded raised].
    split; [exact IHr|]. constructor; [|exact IHy].
    split; [reflexivity|]. split; [reflexivity|].
    exists url, annotations. auto.
Qed.

(** X4: a change that has no URL or no annotations ends the run with its
    exception; the changes before it have been yielded, those after it
    are never looked at. *)
Theorem gerrit_issues_stop_at_malformed_change (self : GerritService)
  response good bad rest e :
  session_get (base_uri (config self) +:+ "/a/changes/?q=" +:+ query_string self)
    = Ok response ->
  raise_for_status response = Ok tt ->
  json_loads (string_drop 4 (text response)) = Ok (VList (good ++ bad :: rest)) ->
  Forall (fun change => exists url annotations,
            build_url self change = Ok url /\
            Gerrit.annotations self change = Ok annotations) good ->
  (build_url self bad = Raise e \/
   exists url, build_url self bad = Ok url /\ Gerrit.annotations self bad = Raise e) ->
  raised (issues self) = Some e /\
  map record (yielded (issues self)) = good.
Proof.
  intros Hget Hstatus Hjson Hgood Hbad. unfold issues.
  rewrite Hget, Hstatus, Hjson. cbn [iter]. clear Hjson.
  rewrite (gen_for_stops _ good bad rest e).
  - split; [reflexivity|]. cbn [yielded].
    induction Hgood as [|change good (url & annotations & Hurl & Hann) _ IH];
      [reflexivity|].
    cbn [gen_for]. rewrite Hurl. cbn [mbind result_bind]. rewrite Hann.
    cbn [mbind result_bind gen_yield yielded map]. f_equal. exact IH.
  - eapply Forall_impl; [exact Hgood|].
    intros change (url & annotations & Hurl & Hann). rewrite Hurl.
    cbn [mbind result_bind]. rewrite Hann. eauto.
  - destruct Hbad as [Hurl | (url & Hurl & Hann)]; rewrite Hurl;
      cbn [mbind result_bind]; [reflexivity|]. rewrite Hann. reflexivity.
Qed.

(** X5: a change held as a dictionary, with a flag for
    [work_in_progress] if any, is normalized exactly when it has the
    fields [project], [_number], [subject] and [branch] and its extra data
    has [annotations] and [url]; the normalized record always has the
    same eleven keys. *)
Theorem gerrit_to_taskwarrior_mandatory_fields (self : Issue GerritConfig) r x :
  record self = VDict r -> extra self = VDict x ->
  Claimed.is_flag (dict_lookup "work_in_progress" r) = true ->
  ((exists d, to_taskwarrior self = Ok d) <->
   Claimed.has_keys r ["project"; "_number"; "subject"; "branch"] = true /\
   Claimed.has_keys x ["annotations"; "url"] = true) /\
  (forall d, to_taskwarrior self = Ok d ->
     exists fields, d = VDict fields /\
       map fst fields =
       ["project"; "annotations"; "gerriturl"; "priority"; "tags"; "gerritid";
        "gerritsummary"; "gerritbranch"; "gerrittopic"; "gerritstatus"; "gerritwip"]).
Proof.
  intros Hr Hx Hflag. split; [split|].
  - intros [d Hd]. apply gerrit_to_taskwarrior_Ok in Hd.
    destruct Hd as (project & annotations & url & number & subject & branch
                    & topic & status & wip0 & wip & Hp & Ha & Hu & Hn & Hs & Hb & _).
    rewrite Hr in Hp, Hn, Hs, Hb. rewrite Hx in Ha, Hu.
    apply getitem_Ok in Hp, Ha, Hu, Hn, Hs, Hb.
    destruct Hp as (? & [= <-] & Hp), Ha as (? & [= <-] & Ha), Hu as (? & [= <-] & Hu),
      Hn as (? & [= <-] & Hn), Hs as (? & [= <-] & Hs), Hb as (? & [= <-] & Hb).
    unfold Claimed.has_keys. simpl. rewrite Hp, Ha, Hu, Hn, Hs, Hb. auto.
  - intros [Kr Kx]. exact (gerrit_to_taskwarrior_returns self r x Hr Hx Kr Kx Hflag).
  - intros d Hd. apply gerrit_to_taskwarrior_Ok in Hd.
    destruct Hd as (project & annotations & url & number & subject & branch
                    & topic & status & wip0 & wip & _ & _ & _ & ? & _ & _
                    & _ & ? & _ & _ & ->).
    eexists. split; reflexivity.
Qed.

(** X6: the text of an annotation is a single line without white space
    at either end: it holds no newline, and trimming it or replacing
    newlines in it again changes nothing. *)
Theorem gerrit_annotation_message_single_line (item : value) (m : string) :
  annotation_message item = Ok m ->
  ~ In newline (list_ascii_of_string m) /\
  strip_ws m = m /\
  replace_char newline space m = m.
Proof.
  unfold annotation_message. intros Hm. inv_bind Hm. injection Hm as <-.
  split; [apply replace_newline_none|]. split.
  - apply strip_ws_replace, strip_ws_idempotent.
  - apply replace_newline_idempotent.
Qed.

(** X7: on a message of the usual form, ["Patch Set N: text"] with [N]
    the revision number of the message, the annotation text is [text],
    trimmed and with its newlines replaced, which is also the text the
    specification describes. *)
Theorem gerrit_annotation_message_standard_form (item : value) (n : Z) (body : string) :
  getitem item "message" =
    Ok (VStr ("Patch Set " +:+ str_of_Z n +:+ ": " +:+ body)) ->
  getitem item "_revision_number" = Ok (VInt n) ->
  annotation_message item = Ok (replace_char newline space (strip_ws body)) /\
  Claimed.annotation_text n ("Patch Set " +:+ str_of_Z n +:+ ": " +:+ body) =
    replace_char newline space (strip_ws body).
Proof.
  intros Hmessage Hrevision.
  destruct (str_of_Z_decimal n) as [Hne Hdec].
  assert (Hspace : strip_ws (String space body) = strip_ws body) by reflexivity.
  assert (Hrest : ": " +:+ body = String ":" (String space body)) by reflexivity.
  split.
  - unfold annotation_message. rewrite Hmessage. cbn [mbind result_bind method_lstrip].
    rewrite Hrevision. cbn [mbind result_bind str].
    do 2 f_equal. rewrite <- Hspace. f_equal.
    unfold lstrip.
    rewrite (lstrip_while_app _ "Patch Set ") by (repeat constructor).
    assert (Hfirst : lstrip_while (fun c => mem_char c "Patch Set ")
                       (str_of_Z n +:+ ": " +:+ body) = str_of_Z n +:+ ": " +:+ body).
    { apply lstrip_while_fixed. destruct (str_of_Z n) as [|c num] eqn:E; [congruence|].
      rewrite append_cons. simpl in Hdec. apply Forall_cons in Hdec.
      destruct Hdec as [Hc _]. apply (decimal_not_in_patch_set c Hc). }
    rewrite Hfirst, Hrest.
    change (str_of_Z n +:+ String ":" (String space body))
      with (str_of_Z n +:+ (":" +:+ String space body)).
    rewrite <- append_assoc.
    rewrite (lstrip_while_app _ (str_of_Z n +:+ ":")) by apply mem_char_self.
    apply lstrip_while_fixed. rewrite mem_char_app. apply orb_false_iff. split; [|reflexivity].
    destruct (mem_char space (str_of_Z n)) eqn:E; [|reflexivity].
    apply mem_char_In in E. rewrite List.Forall_forall in Hdec.
    destruct (decimal_not_in_patch_set space (Hdec space E)) as [_ Hs].
    discriminate Hs.
  - unfold Claimed.annotation_text. rewrite strip_literal_app, Hrest.
    change (str_of_Z n +:+ String ":" (String space body))
      with (str_of_Z n +:+ (":" +:+ String space body)).
    rewrite <- append_assoc, strip_literal_app, Hspace. reflexivity.
Qed.

Lemma lower_app a b : lower (a +:+ b) = lower a +:+ lower b.
Proof.
  induction a as [|c a IH]; [reflexivity|].
  rewrite append_cons. simpl. rewrite IH, append_cons. reflexivity.
Qed.

Lemma is_substring_prefix x s : is_prefix x s = true -> is_substring x s = true.
Proof. intros Hp. destruct s; simpl; rewrite Hp; reflexivity. Qed.

Lemma is_substring_app x a b : is_substring x (a +:+ x +:+ b) = true.
Proof.
  induction a as [|c a IH].
  - rewrite append_nil_l. apply is_substring_prefix, is_prefix_app.
  - rewrite append_cons. simpl. rewrite IH. apply orb_true_r.
Qed.

(** X8: the session uses digest authentication whenever the
    [www-authenticate] header of the probe names the digest scheme, in
    any letter case and anywhere in the header, and basic authentication
    when the server sends no such header; the credentials are the
    configured user name and the password either way. *)
Theorem gerrit_session_auth_scheme (cfg : GerritConfig) (password : string) :
  (forall before scheme after,
     lower scheme = "digest" ->
     session_auth cfg password (Some (before +:+ scheme +:+ after)) =
     HTTPDigestAuth (username cfg) password) /\
  session_auth cfg password None = HTTPBasicAuth (username cfg) password /\
  (forall header,
     session_auth cfg password header = HTTPDigestAuth (username cfg) password \/
     session_auth cfg password header = HTTPBasicAuth (username cfg) password).
Proof.
  split; [|split].
  - intros before scheme after Hscheme. unfold session_auth.
    rewrite !lower_app, Hscheme, is_substring_app. reflexivity.
  - reflexivity.
  - intros header. unfold session_auth.
    destruct (is_substring _ _); [left | right]; reflexivity.
Qed.

End GerritFurther.

Section GerritFurtherExamples.
Import Py Base Gerrit.

Lemma gerrit_annotation_entries_in_order_witness :
  Forall2 (fun item entry =>
             annotation_username item ["name"; "username"; "email"] = Ok (fst entry) /\
             @annotation_message Sample.runtime item = Ok (snd entry))
    [VDict [("author", VDict [("_account_id", VInt 1000096); ("username", VStr "al")]);
            ("message", VStr "Patch Set 3: Code-Review+2");
            ("_revision_number", VInt 3)]]
    [(VStr "al", "Code-Review+2")].
Proof.
  apply (proj1 (@gerrit_annotation_entries_in_order Sample.runtime _ _)).
  reflexivity.
Defined.

Lemma gerrit_build_url_injective_witness : 7 = 7.
Proof.
  apply (gerrit_build_url_injective (init Sample.gerrit_config)
           Sample.gerrit_change Sample.gerrit_change 7 7
           "https://review.example.org/#/c/7/"); reflexivity.
Defined.

Lemma gerrit_issues_one_per_change_witness :
  raised (@issues Sample.runtime Sample.helpers
            (Sample.http_changes [Sample.gerrit_change]) (init Sample.gerrit_config))
    = None.
Proof.
  apply (@gerrit_issues_one_per_change Sample.runtime Sample.helpers
           (Sample.http_changes [Sample.gerrit_change]) (init Sample.gerrit_config)
           {| status_code := 200; text := ")]}'" +:+ "<changes>" |}
           [Sample.gerrit_change] eq_refl eq_refl eq_refl).
  constructor; [|constructor]. eexists. eexists. split; vm_compute; reflexivity.
Defined.

Lemma gerrit_issues_stop_at_malformed_change_witness :
  raised (@issues Sample.runtime Sample.helpers
            (Sample.http_changes
               [Sample.gerrit_change; Sample.gerrit_change_broken; Sample.gerrit_change])
            (init Sample.gerrit_config))
    = Some (KeyError "_number") /\
  map record (yielded (@issues Sample.runtime Sample.helpers
            (Sample.http_changes
               [Sample.gerrit_change; Sample.gerrit_change_broken; Sample.gerrit_change])
            (init Sample.gerrit_config)))
    = [Sample.gerrit_change].
Proof.
  apply (@gerrit_issues_stop_at_malformed_change Sample.runtime Sample.helpers
           (Sample.http_changes
              [Sample.gerrit_change; Sample.gerrit_change_broken; Sample.gerrit_change])
           (init Sample.gerrit_config)
           {| status_code := 200; text := ")]}'" +:+ "<changes>" |}
           [Sample.gerrit_change] Sample.gerrit_change_broken [Sample.gerrit_change]
           (KeyError "_number") eq_refl eq_refl eq_refl).
  - constructor; [|constructor]. eexists. eexists. split; vm_compute; reflexivity.
  - left. reflexivity.
Defined.

(** The change of the Gerrit scenario has no [project] field and is not
    normalized as it stands. *)
Lemma gerrit_to_taskwarrior_mandatory_fields_witness :
  ~ exists d,
      @to_taskwarrior Sample.runtime
        (MkIssue
           (VDict [("_number", VInt 7); ("subject", VStr "S"); ("branch", VStr "main");
                   ("work_in_progress", VBool true)])
           (VDict [("url", VStr "u"); ("annotations", VList [])])
           Sample.gerrit_config) = Ok d.
Proof.
  intros Hd.
  destruct (@gerrit_to_taskwarrior_mandatory_fields Sample.runtime
              (MkIssue
                 (VDict [("_number", VInt 7); ("subject", VStr "S"); ("branch", VStr "main");
                         ("work_in_progress", VBool true)])
                 (VDict [("url", VStr "u"); ("annotations", VList [])])
                 Sample.gerrit_config) _ _ eq_refl eq_refl eq_refl) as [Hiff _].
  destruct (proj1 Hiff Hd) as [Hkeys _]. discriminate Hkeys.
Defined.

Lemma gerrit_annotation_message_single_line_witness :
  strip_ws ("Code-Review+2  Looks good.") = "Code-Review+2  Looks good.".
Proof.
  apply (@gerrit_annotation_message_single_line Sample.runtime
           (VDict [("message",
                    VStr ("Patch Set 3: Code-Review+2" +:+ String newline "" +:+
                          String newline "" +:+ "Looks good. "));
                   ("_revision_number", VInt 3)])).
  reflexivity.
Defined.

Lemma gerrit_annotation_message_standard_form_witness :
  @annotation_message Sample.runtime
    (VDict [("message", VStr ("Patch Set " +:+ str_of_Z 12 +:+ ": " +:+ "2 comments"));
            ("_revision_number", VInt 12)]) = Ok "2 comments".
Proof.
  apply (@gerrit_annotation_message_standard_form Sample.runtime
           (VDict [("message", VStr ("Patch Set " +:+ str_of_Z 12 +:+ ": " +:+ "2 comments"));
                   ("_revision_number", VInt 12)]) 12 "2 comments");
    reflexivity.
Defined.

Lemma gerrit_session_auth_scheme_witness :
  session_auth Sample.gerrit_config "secret" (Some "WWW DIGEST realm=gerrit") =
  HTTPDigestAuth "al" "secret".
Proof.
  destruct (gerrit_session_auth_scheme Sample.gerrit_config "secret") as [Hdigest _].
  exact (Hdigest "WWW " "DIGEST" " realm=gerrit" eq_refl).
Defined.

End GerritFurtherExamples.

(** ** Phabricator: roles, runs and normalized records *)

Section PhabFurther.
Import Py Base Phab.
Context `{Runtime} `{Conduit}.

Lemma meets_singleton (v : value) (phids : list string) :
  Claimed.meets [v] phids <-> exists p, In p phids /\ v = VStr p.
Proof.
  unfold Claimed.meets. split.
  - intros (p & Hp & [Hv | []]). exists p. auto.
  - intros (p & Hp & ->). exists p. split; [exact Hp | left; reflexivity].
Qed.

(** X9: with [only_if_assigned] set and [ignore_cc], [ignore_author],
    [ignore_owner] left alone, only the owner counts: a task is emitted
    exactly when its owner is one of [user_phids], whatever its cc list
    and author are, and even when the task has no such fields. *)
Theorem phabricator_only_if_assigned_owner_only (cfg : PhabricatorConfig)
  (phid : string) (task owner : value) :
  ignore_cc cfg = None -> ignore_author cfg = None -> only_if_assigned cfg = true ->
  ignore_owner cfg = false ->
  user_phids cfg <> [] -> project_phids cfg = [] ->
  getitem task "ownerPHID" = Ok owner -> hashable owner = true ->
  ((exists p, In p (user_phids cfg) /\ owner = VStr p) ->
     task_body (init cfg) (phid, task) =
     Ok (Some (Claimed.task_issue (init cfg) task))) /\
  (~ (exists p, In p (user_phids cfg) /\ owner = VStr p) ->
     task_body (init cfg) (phid, task) = Ok None).
Proof.
  intros Hcc Hauthor Hassigned Howner Husers Hprojects Hget Hhash.
  assert (Hbody : task_body (init cfg) (phid, task) =
    if intersects [owner] (user_phids cfg)
    then Ok (Some (Claimed.task_issue (init cfg) task)) else Ok None).
  { unfold task_body, this_task_matches, task_relevant_to, init. simpl.
    rewrite Hcc, Hauthor, Hassigned, Howner, Hprojects. simpl.
    destruct (user_phids cfg) as [|u us]; [contradiction|]. simpl.
    rewrite Hget. simpl. unfold set_add. rewrite Hhash. simpl.
    destruct (intersects [owner] (u :: us)); reflexivity. }
  rewrite Hbody. split.
  - intros Hm. apply meets_singleton, intersects_meets in Hm. rewrite Hm. reflexivity.
  - intros Hm. destruct (intersects [owner] (user_phids cfg)) eqn:E; [|reflexivity].
    apply intersects_meets, meets_singleton in E. contradiction.
Qed.

(** X10: with every role ignored and no [project_phids], a configured
    [user_phids] matches nothing: neither [tasks] nor [revisions] ever
    yields an issue, whatever the server answers. *)
Theorem phabricator_all_roles_ignored_emits_nothing (self : PhabricatorService) (w : world) :
  self_ignore_cc self = true -> self_ignore_author self = true ->
  ignore_owner (config self) = true -> ignore_reviewers (config self) = true ->
  user_phids (config self) <> [] -> project_phids (config self) = [] ->
  yielded (snd (tasks self w)) = [] /\ yielded (snd (revisions self w)) = [].
Proof.
  intros Hcc Hauthor Howner Hreviewers Husers Hprojects.
  assert (Htask : forall item, task_body self item = Ok None).
  { intros item. unfold task_body, this_task_matches, task_relevant_to.
    rewrite Hcc, Hauthor, Howner, Hprojects.
    destruct (user_phids (config self)); [contradiction | reflexivity]. }
  assert (Hdiff : forall diff, diff_body self diff = Ok None).
  { intros diff. unfold diff_body, this_diff_matches, diff_relevant_to.
    rewrite Hcc, Hauthor, Hreviewers, Hprojects.
    destruct (user_phids (config self)); [contradiction | reflexivity]. }
  assert (Hnone : forall A (body : A -> result (option (Issue PhabricatorConfig))) l,
            (forall x, body x = Ok None) -> yielded (gen_for body l) = []).
  { intros A body l Hbody. induction l as [|x l IH]; [reflexivity|].
    simpl. rewrite Hbody. exact IH. }
  split.
  - unfold tasks. destruct (query_tasks self w) as [w' [items | []]];
      try reflexivity. simpl. apply Hnone, Htask.
  - unfold revisions. destruct (api_differential_query w) as [w' [diffs | []]];
      try reflexivity. simpl. apply Hnone, Hdiff.
Qed.

Lemma task_relevance_monotone (cc_off owner_off author_off cc_on owner_on author_on : bool)
  (cc : list value) (owner author x : value) :
  (cc_off = true -> cc_on = true) -> (owner_off = true -> owner_on = true) ->
  (author_off = true -> author_on = true) ->
  In x (Claimed.task_relevance cc_on owner_on author_on cc owner author) ->
  In x (Claimed.task_relevance cc_off owner_off author_off cc owner author).
Proof.
  unfold Claimed.task_relevance. intros Hcc Howner Hauthor Hin.
  rewrite !in_app_iff in *.
  destruct cc_on, owner_on, author_on, cc_off, owner_off, author_off;
    simpl in *; try tauto;
    try (specialize (Hcc eq_refl)); try (specialize (Howner eq_refl));
    try (specialize (Hauthor eq_refl)); try discriminate; tauto.
Qed.

(** X11: ignoring fewer roles never loses a task: a task that is emitted
    under one setting of [ignore_cc], [ignore_owner] and [ignore_author]
    is emitted under any setting that ignores no role the first one did
    not, the two PHID lists being the same. *)
Theorem phabricator_unignoring_keeps_matches (self self' : PhabricatorService)
  (phid : string) (task : value) cc owner author projects :
  Claimed.task_shape task cc owner author projects ->
  user_phids (config self') = user_phids (config self) ->
  project_phids (config self') = project_phids (config self) ->
  (self_ignore_cc self' = true -> self_ignore_cc self = true) ->
  (ignore_owner (config self') = true -> ignore_owner (config self) = true) ->
  (self_ignore_author self' = true -> self_ignore_author self = true) ->
  task_body self (phid, task) = Ok (Some (Claimed.task_issue self task)) ->
  task_body self' (phid, task) = Ok (Some (Claimed.task_issue self' task)).
Proof.
  intros Hshape Husers Hprojects Hcc Howner Hauthor Hemitted.
  destruct (task_body_membership self phid task _ _ _ _ Hshape) as [_ Hno].
  destruct (task_body_membership self' phid task _ _ _ _ Hshape) as [Hyes' _].
  apply Hyes'. clear Hyes'.
  destruct (classic_membership self cc owner author projects) as [Hm | Hm];
    [|rewrite (Hno Hm) in Hemitted; discriminate].
  unfold Claimed.task_should_match, Claimed.membership in *.
  rewrite Husers, Hprojects.
  destruct Hm as [Hnone | [(p & Hp & Hin) | Hproj]]; [tauto | | tauto].
  right. left. exists p. split; [exact Hp|].
  exact (task_relevance_monotone _ _ _ _ _ _ _ _ _ _ Hcc Howner Hauthor Hin).
Qed.

(** [tasks] talks to Maniphest only, and leaves the earlier calls alone. *)
Lemma query_tasks_calls self w :
  exists cs, calls (fst (query_tasks self w)) = calls w ++ map ManiphestQuery cs.
Proof.
  unfold query_tasks.
  destruct (user_phids (config self)) as [|u us], (project_phids (config self)) as [|p ps];
    unfold mbind, M_bind, api_maniphest_query, mret, M_ret, raise; simpl;
    repeat match goal with
           | |- context [maniphest_query ?c] => destruct (maniphest_query c); simpl
           end;
    rewrite <- ?app_assoc; simpl;
    first [ exists [] ; rewrite app_nil_r; reflexivity
          | eexists [_]; reflexivity
          | eexists [_; _]; reflexivity
          | eexists [_; _; _]; reflexivity
          | eexists [_; _; _; _]; reflexivity ].
Qed.

Lemma tasks_calls self w :
  exists cs, calls (fst (tasks self w)) = calls w ++ map ManiphestQuery cs.
Proof.
  destruct (query_tasks_calls self w) as [cs Hcs]. exists cs.
  unfold tasks. destruct (query_tasks self w) as [w' [items | []]]; exact Hcs.
Qed.

(** X12: [issues] yields the tasks first and the revisions after them;
    Differential is queried only once [tasks] has ended, and not at all
    when [tasks] raised, in which case the exception is the outcome of
    [issues]. *)
Theorem phabricator_issues_tasks_then_revisions (self : PhabricatorService) (w : world) :
  (raised (snd (tasks self w)) = None ->
     fst (issues self w) = fst (revisions self (fst (tasks self w))) /\
     yielded (snd (issues self w)) =
       yielded (snd (tasks self w)) ++ yielded (snd (revisions self (fst (tasks self w)))) /\
     raised (snd (issues self w)) = raised (snd (revisions self (fst (tasks self w))))) /\
  (forall e, raised (snd (tasks self w)) = Some e ->
     issues self w = tasks self w /\
     exists cs, calls (fst (issues self w)) = calls w ++ map ManiphestQuery cs).
Proof.
  unfold issues. destruct (tasks self w) as [w1 g1] eqn:Htasks. simpl. split.
  - intros Hnone. rewrite Hnone.
    destruct (revisions self w1) as [w2 g2]. unfold gen_seq. rewrite Hnone.
    simpl. auto.
  - intros e Hsome. rewrite Hsome. split; [reflexivity|].
    destruct (tasks_calls self w) as [cs Hcs]. rewrite Htasks in Hcs. eauto.
Qed.

(** X13: when the Conduit server refuses every call, [issues] still ends
    normally with nothing yielded: the first Maniphest query and the
    Differential query have both been tried, and a warning is logged for
    each. *)
Theorem phabricator_issues_survive_outage (self : PhabricatorService) (w : world)
  (err err' : string) :
  (forall c, maniphest_query c = Raise (APIError err)) ->
  differential_query = Raise (APIError err') ->
  exists c,
    hd_error (Claimed.planned_queries (config self)) = Some c /\
    issues self w =
      (World (calls w ++ [ManiphestQuery c; DifferentialQuery])
             (logged w ++
              [(WARN, "Could not read tasks from Maniphest: " +:+ err);
               (WARN, "Could not read revisions from Differential: " +:+ err')]),
       Gen [] None).
Proof.
  intros Hdown Hdown'.
  assert (Hplan : exists c post, Claimed.planned_queries (config self) = c :: post).
  { unfold Claimed.planned_queries.
    destruct (user_phids (config self)), (project_phids (config self)); eauto. }
  destruct Hplan as (c & post & Hplan). exists c. split; [rewrite Hplan; reflexivity|].
  unfold issues.
  rewrite (tasks_api_error self w [] c post err Hplan (List.Forall_nil _) (Hdown c)).
  cbn [raised gen_return].
  rewrite (revisions_api_error self _ err' Hdown'). cbn [calls logged].
  unfold gen_seq. cbn [raised gen_return yielded app map].
  rewrite <- !app_assoc. reflexivity.
Qed.

(** A list whose record texts are all different and unseen is left as
    it is. *)
Lemma delete_duplicates_fixed (tasks : list (string * value)) (seen : gset string) :
  NoDup (map (fun item => str (snd item)) tasks) ->
  (forall item, In item tasks -> str (snd item) ∉ seen) ->
  delete_duplicates seen tasks = tasks.
Proof.
  revert seen. induction tasks as [|item tasks IH]; intros seen Hnodup Hfresh;
    [reflexivity|].
  simpl in Hnodup. apply NoDup_cons in Hnodup. destruct Hnodup as [Hnotin Hnodup].
  simpl. case_bool_decide as Hseen.
  - exfalso. apply (Hfresh item); [left; reflexivity | exact Hseen].
  - f_equal. apply IH; [exact Hnodup|].
    intros item' Hin. apply not_elem_of_union. split.
    + apply not_elem_of_singleton. intros Heq. apply Hnotin.
      rewrite list_elem_of_In, in_map_iff. exists item'. auto.
    + apply Hfresh. right. exact Hin.
Qed.

(** X14: deleting duplicates keeps the order of the tasks, leaves a list
    without duplicate records as it is, and changes nothing when it is
    done a second time. *)
Theorem phabricator_delete_duplicates_idempotent (tasks : list (string * value)) :
  sublist (delete_duplicates ∅ tasks) tasks /\
  (NoDup (map (fun item => str (snd item)) tasks) -> delete_duplicates ∅ tasks = tasks) /\
  delete_duplicates ∅ (delete_duplicates ∅ tasks) = delete_duplicates ∅ tasks.
Proof.
  split; [apply delete_duplicates_sublist|]. split.
  - intros Hnodup. apply delete_duplicates_fixed; [exact Hnodup|]. intros; set_solver.
  - destruct (delete_duplicates_spec tasks ∅) as (_ & Hnodup & _).
    apply delete_duplicates_fixed; [exact Hnodup|]. intros; set_solver.
Qed.

(** The last piece of a split text holds no separator, and the text is
    that piece on its own or the piece after a separator. *)
Lemma split_last_piece (sep : ascii) (s : string) :
  exists pieces name stem,
    split sep s = pieces ++ [name] /\
    mem_char sep name = false /\
    s = stem +:+ name /\
    (pieces = [] -> stem = "") /\
    (pieces <> [] -> exists stem', stem = stem' +:+ String sep "").
Proof.
  induction s as [|c s (pieces & name & stem & Hsplit & Hname & Hs & Hnil & Hcons)].
  - exists [], "", "". repeat split; auto. intros Hne. contradiction.
  - simpl. destruct (Ascii.eqb_spec c sep) as [-> | Hne].
    + exists ("" :: pieces), name, (String sep stem).
      rewrite Hsplit. repeat split; auto.
      * rewrite append_cons, <- Hs. reflexivity.
      * discriminate.
      * intros _. destruct pieces as [|piece pieces'].
        -- rewrite (Hnil eq_refl). exists "". reflexivity.
        -- destruct Hcons as [stem' ->]; [discriminate|].
           exists (String sep stem'). reflexivity.
    + rewrite Hsplit. destruct pieces as [|piece pieces']; simpl.
      * exists [], (String c name), "". repeat split; auto.
        -- simpl. destruct (Ascii.eqb_spec sep c); [congruence | exact Hname].
        -- rewrite Hs, (Hnil eq_refl). reflexivity.
        -- intros Hcontra. contradiction.
      * exists (String c piece :: pieces'), name, (String c stem).
        repeat split; auto.
        -- rewrite append_cons, <- Hs. reflexivity.
        -- discriminate.
        -- intros _. destruct Hcons as [stem' ->]; [discriminate|].
           exists (String c stem'). reflexivity.
Qed.

Lemma method_split_last_piece (sep : ascii) (s : string) :
  exists name stem,
    method_split_last (VStr s) sep = Ok name /\
    mem_char sep name = false /\
    s = stem +:+ name /\
    (stem = "" \/ exists stem', stem = stem' +:+ String sep "").
Proof.
  destruct (split_last_piece sep s) as (pieces & name & stem & Hsplit & Hname & Hs & Hnil & Hcons).
  exists name, stem. split; [|split; [exact Hname | split; [exact Hs|]]].
  - simpl. unfold last_item. rewrite Hsplit, rev_app_distr. reflexivity.
  - destruct pieces; [left; auto | right; apply Hcons; discriminate].
Qed.

Lemma task_body_emits self item issue :
  task_body self item = Ok (Some issue) -> issue = Claimed.task_issue self (snd item).
Proof.
  unfold task_body. intros Hb. inv_bind Hb.
  destruct x; simpl in Hb; [|discriminate]. injection Hb as <-. reflexivity.
Qed.

Lemma diff_body_emits self diff issue :
  diff_body self diff = Ok (Some issue) -> issue = Claimed.diff_issue self diff.
Proof.
  unfold diff_body. intros Hb. inv_bind Hb.
  destruct x; simpl in Hb; [|discriminate]. injection Hb as <-. reflexivity.
Qed.

(** X15: an emitted task that has a URI, a title and a priority name (or
    none) is normalized: its project is the configured target, its type
    ["issue"] (["pull_request"] for a revision), its annotations are
    empty, and its object name is the part of the URI after the last
    slash: a text without a slash that the URI ends with. *)
Theorem phabricator_emitted_record_normalized (self : PhabricatorService)
  (r : list (string * value)) (u : string) (title : value) (name : option string) :
  dict_lookup "uri" r = Some (VStr u) ->
  dict_lookup "title" r = Some title ->
  Claimed.field_is r "priority" name ->
  exists object_name stem,
    mem_char slash object_name = false /\
    u = stem +:+ object_name /\
    (stem = "" \/ exists stem', stem = stem' +:+ "/") /\
    (forall phid issue,
       task_body self (phid, VDict r) = Ok (Some issue) ->
       to_taskwarrior issue =
       Ok (VDict [("project", VStr (target (config self)));
                  ("priority",
                   VStr (Claimed.phabricator_bucket
                           (default_priority (config self)) name));
                  ("annotations", VList []);
                  (URL, VStr u); (TYPE, VStr "issue"); (TITLE, title);
                  (OBJECT_NAME, VStr object_name)])) /\
    (forall issue,
       diff_body self (VDict r) = Ok (Some issue) ->
       to_taskwarrior issue =
       Ok (VDict [("project", VStr (target (config self)));
                  ("priority",
                   VStr (Claimed.phabricator_bucket
                           (default_priority (config self)) name));
                  ("annotations", VList []);
                  (URL, VStr u); (TYPE, VStr "pull_request"); (TITLE, title);
                  (OBJECT_NAME, VStr object_name)])).
Proof.
  intros Huri Htitle Hpriority.
  destruct (method_split_last_piece slash u) as (object_name & stem & Hsplit & Hname & Hu & Hstem).
  exists object_name, stem. split; [exact Hname|]. split; [exact Hu|]. split; [exact Hstem|].
  split.
  - intros phid issue Hissue. apply task_body_emits in Hissue. subst issue.
    cbn [snd]. unfold to_taskwarrior.
    rewrite (phab_priority_named (Claimed.task_issue self (VDict r)) r name
               eq_refl Hpriority).
    unfold Claimed.task_issue. cbn [record extra].
    rewrite !(getitem_lookup _ _ _ Huri), (getitem_lookup _ _ _ Htitle).
    cbn [mbind result_bind]. rewrite Hsplit. reflexivity.
  - intros issue Hissue. apply diff_body_emits in Hissue. subst issue.
    unfold to_taskwarrior.
    rewrite (phab_priority_named (Claimed.diff_issue self (VDict r)) r name
               eq_refl Hpriority).
    unfold Claimed.diff_issue. cbn [record extra].
    rewrite !(getitem_lookup _ _ _ Huri), (getitem_lookup _ _ _ Htitle).
    cbn [mbind result_bind]. rewrite Hsplit. reflexivity.
Qed.

(** X25: a task without a [ccPHIDs] field stops [tasks] with a
    [KeyError] when [user_phids] is configured and cc is not ignored: the
    tasks before it have been emitted or skipped, those after it are not
    looked at. With only [project_phids] configured the role fields are
    not read, and the same task is filtered by its projects. *)
Theorem phabricator_tasks_missing_cc (self : PhabricatorService)
  (phid : string) (r : list (string * value)) :
  dict_lookup "ccPHIDs" r = None ->
  (user_phids (config self) <> [] -> self_ignore_cc self = false ->
     task_body self (phid, VDict r) = Raise (KeyError "ccPHIDs") /\
     forall w w' good rest,
       query_tasks self w = (w', Ok (good ++ (phid, VDict r) :: rest)) ->
       Forall (fun item => exists o, task_body self item = Ok o) good ->
       raised (snd (tasks self w)) = Some (KeyError "ccPHIDs") /\
       yielded (snd (tasks self w)) = yielded (gen_for (task_body self) good)) /\
  (user_phids (config self) = [] ->
     forall v projects,
       dict_lookup "projectPHIDs" r = Some v ->
       Claimed.id_collection v projects ->
       exists o, task_body self (phid, VDict r) = Ok o).
Proof.
  intros Hmissing. split.
  - intros Husers Hcc.
    assert (Hbody : task_body self (phid, VDict r) = Raise (KeyError "ccPHIDs")).
    { unfold task_body, this_task_matches, task_relevant_to. cbn [snd].
      rewrite Hcc. destruct (user_phids (config self)); [contradiction|].
      cbn [nonempty negb andb]. rewrite (getitem_missing _ _ Hmissing). reflexivity. }
    split; [exact Hbody|].
    intros w w' good rest Hquery Hgood.
    rewrite (tasks_of_query _ _ _ _ Hquery).
    rewrite (gen_for_stops _ good _ rest _ Hgood Hbody). split; reflexivity.
  - intros Husers v projects Hv Hcollection.
    unfold task_body, this_task_matches. cbn [snd]. rewrite Husers.
    destruct (project_phids (config self)) as [|p ps];
      cbn [nonempty negb andb mbind result_bind]; [eauto|].
    rewrite (getitem_lookup _ _ _ Hv). cbn [mbind result_bind].
    unfold set_of. rewrite (set_update_collection [] _ _ Hcollection).
    cbn [mbind result_bind].
    destruct (intersects _ _); cbn [negb]; eauto.
Qed.

End PhabFurther.

Section PhabFurtherExamples.
Import Py Base Phab.

Lemma phabricator_only_if_assigned_owner_only_witness :
  task_body (init (Sample.phab_config_assigned ["U1"])) ("T1", Sample.phab_task) =
    Ok (Some (Claimed.task_issue (init (Sample.phab_config_assigned ["U1"]))
                Sample.phab_task)) /\
  task_body (init (Sample.phab_config_assigned ["U1"])) ("T2", Sample.phab_task_cc) =
    Ok None.
Proof.
  split.
  - apply (proj1 (phabricator_only_if_assigned_owner_only
                    (Sample.phab_config_assigned ["U1"]) "T1" Sample.phab_task (VStr "U1")
                    eq_refl eq_refl eq_refl eq_refl ltac:(discriminate) eq_refl
                    eq_refl eq_refl)).
    exists "U1". split; [left; reflexivity | reflexivity].
  - apply (proj2 (phabricator_only_if_assigned_owner_only
                    (Sample.phab_config_assigned ["U1"]) "T2" Sample.phab_task_cc VNone
                    eq_refl eq_refl eq_refl eq_refl ltac:(discriminate) eq_refl
                    eq_refl eq_refl)).
    intros (p & _ & Hp). discriminate Hp.
Defined.

Lemma phabricator_all_roles_ignored_emits_nothing_witness :
  yielded (snd (@tasks Sample.runtime Sample.conduit
                  (init (Sample.phab_config_deaf ["U1"])) Sample.fresh)) = [] /\
  yielded (snd (@revisions Sample.conduit
                  (init (Sample.phab_config_deaf ["U1"])) Sample.fresh)) = [].
Proof.
  apply (@phabricator_all_roles_ignored_emits_nothing Sample.runtime Sample.conduit
           (init (Sample.phab_config_deaf ["U1"])) Sample.fresh);
    try reflexivity. discriminate.
Defined.

Lemma phabricator_unignoring_keeps_matches_witness :
  task_body (init (Claimed.set_ignore_cc false (Sample.phab_config ["U2"] [])))
    ("T2", Sample.phab_task_cc) =
  Ok (Some (Claimed.task_issue
              (init (Claimed.set_ignore_cc false (Sample.phab_config ["U2"] [])))
              Sample.phab_task_cc)).
Proof.
  apply (phabricator_unignoring_keeps_matches
           (init (Claimed.set_ignore_cc true (Sample.phab_config ["U2"] [])))
           (init (Claimed.set_ignore_cc false (Sample.phab_config ["U2"] [])))
           "T2" Sample.phab_task_cc _ _ _ _ phab_task_cc_shape);
    try reflexivity; try discriminate.
Defined.

Lemma phabricator_issues_tasks_then_revisions_witness :
  map record (yielded (snd (@issues Sample.runtime Sample.conduit
                              (init (Sample.phab_config ["U1"] [])) Sample.fresh))) =
  [Sample.phab_task; Sample.phab_task_cc; Sample.phab_diff].
Proof.
  destruct (@phabricator_issues_tasks_then_revisions Sample.runtime Sample.conduit
              (init (Sample.phab_config ["U1"] [])) Sample.fresh) as [Hseq _].
  destruct (Hseq eq_refl) as (_ & Hyielded & _).
  rewrite Hyielded. reflexivity.
Defined.

Lemma phabricator_issues_survive_outage_witness :
  snd (@issues Sample.runtime Sample.conduit_down
         (init (Sample.phab_config ["U1"] ["P9"])) Sample.fresh) = Gen [] None.
Proof.
  destruct (@phabricator_issues_survive_outage Sample.runtime Sample.conduit_down
              (init (Sample.phab_config ["U1"] ["P9"])) Sample.fresh
              "ERR-CONDUIT-CORE: down" "ERR-CONDUIT-CORE: down"
              (fun _ => eq_refl) eq_refl) as (c & _ & Hissues).
  rewrite Hissues. reflexivity.
Defined.

Lemma phabricator_delete_duplicates_idempotent_witness :
  @delete_duplicates Sample.runtime ∅
    [("T1", Sample.phab_task); ("T2", Sample.phab_task_cc)] =
  [("T1", Sample.phab_task); ("T2", Sample.phab_task_cc)].
Proof.
  apply (@phabricator_delete_duplicates_idempotent Sample.runtime).
  apply (bool_decide_unpack _). vm_compute. exact I.
Defined.

Lemma phabricator_emitted_record_normalized_witness :
  exists d name,
    to_taskwarrior (Claimed.task_issue (init (Sample.phab_config ["U1"] []))
                      Sample.phab_task) = Ok d /\
    getitem d TYPE = Ok (VStr "issue") /\
    getitem d OBJECT_NAME = Ok (VStr name) /\
    mem_char slash name = false.
Proof.
  destruct (phabricator_emitted_record_normalized
              (init (Sample.phab_config ["U1"] []))
              [("ownerPHID", VStr "U1"); ("ccPHIDs", VList []);
               ("authorPHID", VStr "U2"); ("projectPHIDs", VList []);
               ("uri", VStr "https://phab.example.org/T1"); ("title", VStr "t");
               ("priority", VStr "High")]
              "https://phab.example.org/T1" (VStr "t") (Some "High")
              eq_refl eq_refl eq_refl)
    as (object_name & stem & Hname & _ & _ & Htask & _).
  eexists. exists object_name.
  split; [exact (Htask "T1" _ eq_refl)|].
  split; [reflexivity|]. split; [reflexivity | exact Hname].
Defined.

Lemma phabricator_tasks_missing_cc_witness :
  task_body (init (Sample.phab_config ["U1"] []))
    ("T3", VDict [("ownerPHID", VStr "U1"); ("authorPHID", VStr "U2")]) =
  Raise (KeyError "ccPHIDs").
Proof.
  apply (@phabricator_tasks_missing_cc Sample.runtime Sample.conduit
           (init (Sample.phab_config ["U1"] [])) "T3"
           [("ownerPHID", VStr "U1"); ("authorPHID", VStr "U2")] eq_refl);
    [discriminate | reflexivity].
Defined.

End PhabFurtherExamples.

(** ** Redmine: normalized records, requests and the run over the issues *)

Section RedmineFurther.
Import Py Base Redmine.
Context `{Runtime} `{Helpers} `{TaskWarrior} `{Requests} `{ServiceBase}.

(** Keeps the last part of a conjunction. *)
Ltac last_conjunct H :=
  repeat match type of H with
         | _ /\ _ => destruct H as [_ H]
         end.

(** Every step of [to_taskwarrior], when it returns. *)
Lemma redmine_to_taskwarrior_steps (self : Issue RedMineConfig) (d : value) :
  to_taskwarrior self = Ok d ->
  exists due_raw start_raw updated_raw created_raw spent_raw estimated_raw
         category_raw assigned_raw due start updated created spent estimated
         category assigned project annotations priority issue_url subject id
         description tracker status author remote_name,
    get (record self) "due_date" = Ok due_raw /\
    get (record self) "start_date" = Ok start_raw /\
    get (record self) "updated_on" = Ok updated_raw /\
    get (record self) "created_on" = Ok created_raw /\
    get (record self) "spent_hours" = Ok spent_raw /\
    get (record self) "estimated_hours" = Ok estimated_raw /\
    get (record self) "category" = Ok category_raw /\
    get (record self) "assigned_to" = Ok assigned_raw /\
    convert_date due_raw = Ok due /\
    convert_date start_raw = Ok start /\
    convert_date updated_raw = Ok updated /\
    convert_date created_raw = Ok created /\
    convert_hours spent_raw = Ok spent /\
    convert_hours estimated_raw = Ok estimated /\
    name_of category_raw = Ok category /\
    name_of assigned_raw = Ok assigned /\
    get_project_name self = Ok project /\
    get_default (extra self) "annotations" (VList []) = Ok annotations /\
    get_priority self = Ok priority /\
    get_issue_url self = Ok issue_url /\
    getitem (record self) "subject" = Ok subject /\
    getitem (record self) "id" = Ok id /\
    get_default (record self) "description" (VStr "") = Ok description /\
    (o ← getitem (record self) "tracker"; getitem o "name") = Ok tracker /\
    (o ← getitem (record self) "status"; getitem o "name") = Ok status /\
    (o ← getitem (record self) "author"; getitem o "name") = Ok author /\
    (o ← getitem (record self) "project"; getitem o "name") = Ok remote_name /\
    d = VDict [
      ("project", project); ("annotations", annotations); ("priority", priority);
      (URL, VStr issue_url); (SUBJECT, subject); (ID, id);
      (DESCRIPTION, description); (TRACKER, tracker); (STATUS, status);
      (AUTHOR, author); (PROJECT_NAME, remote_name); (ASSIGNED_TO, assigned);
      (CATEGORY, category); (START_DATE, start); (CREATED_ON, created);
      (UPDATED_ON, updated); (DUEDATE, due); (ESTIMATED_HOURS, estimated);
      (SPENT_HOURS, spent)].
Proof.
  unfold to_taskwarrior. intros Hd.
  repeat match type of Hd with
  | mbind _ _ = Ok _ =>
      let x := fresh "x" in
      let E := fresh "E" in
      apply bind_Ok in Hd; destruct Hd as (x & E & Hd)
  end.
  injection Hd as <-.
  do 27 eexists.
  repeat (split; [eassumption|]). reflexivity.
Qed.

Lemma nested_name_Ok (r : value) (k : string) (v : value) :
  (o ← getitem r k; getitem o "name") = Ok v ->
  exists kv o, r = VDict kv /\ dict_lookup k kv = Some o /\ getitem o "name" = Ok v.
Proof.
  intros Hv. apply bind_Ok in Hv. destruct Hv as (o & Ho & Hname).
  apply getitem_Ok in Ho. destruct Ho as (kv & -> & Ho). eauto.
Qed.

(** X16: an issue that lacks one of [subject], [id], [tracker],
    [status], [author] and [project] is not normalized: [to_taskwarrior]
    raises, also when a project-name override is configured. When it
    returns, the normalized record has the same nineteen keys whatever
    the issue holds. *)
Theorem redmine_to_taskwarrior_mandatory_fields (self : Issue RedMineConfig)
  (r : list (string * value)) :
  record self = VDict r ->
  (forall k, In k ["subject"; "id"; "tracker"; "status"; "author"; "project"] ->
     dict_lookup k r = None -> forall d, to_taskwarrior self <> Ok d) /\
  (forall d, to_taskwarrior self = Ok d ->
     exists fields, d = VDict fields /\
       map fst fields =
       ["project"; "annotations"; "priority"; "redmineurl"; "redminesubject";
        "redmineid"; "redminedescription"; "redminetracker"; "redminestatus";
        "redmineauthor"; "redmineprojectname"; "redmineassignedto";
        "redminecategory"; "redminestartdate"; "redminecreatedon";
        "redmineupdatedon"; "redmineduedate"; "redmineestimatedhours";
        "redminespenthours"]).
Proof.
  intros Hr. split.
  - intros k Hk Hmissing d Hd. apply redmine_to_taskwarrior_steps in Hd.
    destruct Hd as (due_raw & start_raw & updated_raw & created_raw & spent_raw
      & estimated_raw & category_raw & assigned_raw & due & start & updated & created
      & spent & estimated & category & assigned & project & annotations & priority
      & issue_url & subject & id & description & tracker & status & author
      & remote_name & _ & _ & _ & ? & _ & _ & _ & ? & _ & _ & _ & ? & _ & _ & _ & ?
      & _ & _ & _ & ? & Hsubject & Hid & _ & Htracker & Hstatus & Hauthor & Hremote & _).
    rewrite Hr in Hsubject, Hid, Htracker, Hstatus, Hauthor, Hremote.
    apply getitem_Ok in Hsubject, Hid.
    destruct Hsubject as (? & [= <-] & Hsubject), Hid as (? & [= <-] & Hid).
    apply nested_name_Ok in Htracker, Hstatus, Hauthor, Hremote.
    destruct Htracker as (? & ? & [= <-] & Htracker & _),
             Hstatus as (? & ? & [= <-] & Hstatus & _),
             Hauthor as (? & ? & [= <-] & Hauthor & _),
             Hremote as (? & ? & [= <-] & Hremote & _).
    simpl in Hk.
    destruct Hk as [<- | [<- | [<- | [<- | [<- | [<- | []]]]]]]; congruence.
  - intros d Hd. apply redmine_to_taskwarrior_steps in Hd.
    destruct Hd as (due_raw & start_raw & updated_raw & created_raw & spent_raw
      & estimated_raw & category_raw & assigned_raw & due & start & updated & created
      & spent & estimated & category & assigned & project & annotations & priority
      & issue_url & subject & id & description & tracker & status & author
      & remote_name & Hsteps).
    last_conjunct Hsteps. subst d.
    eexists. split; reflexivity.
Qed.

Lemma convert_date_cases (raw v : value) :
  convert_date raw = Ok v ->
  (truthy raw = false /\ v = raw) \/
  (truthy raw = true /\ exists t, v = VDatetime t /\ microsecond t = 0).
Proof.
  unfold convert_date. destruct (truthy raw).
  - intros Hv. right. split; [reflexivity|]. inv_bind Hv.
    destruct x; simpl in Hv; try discriminate. injection Hv as <-.
    eexists. split; reflexivity.
  - intros [= <-]. left. auto.
Qed.

(** X17: each date of the normalized record ([redmineduedate],
    [redminestartdate], [redmineupdatedon], [redminecreatedon]) is either
    the absent or empty value of the issue, passed on as it is, or a
    datetime with its microseconds set to zero. *)
Theorem redmine_dates_whole_seconds (self : Issue RedMineConfig) (d : value) :
  to_taskwarrior self = Ok d ->
  Forall (fun field =>
            exists raw v,
              get (record self) (fst field) = Ok raw /\
              getitem d (snd field) = Ok v /\
              ((truthy raw = false /\ v = raw) \/
               (truthy raw = true /\ exists t, v = VDatetime t /\ microsecond t = 0)))
         [("due_date", DUEDATE); ("start_date", START_DATE);
          ("updated_on", UPDATED_ON); ("created_on", CREATED_ON)].
Proof.
  intros Hd. apply redmine_to_taskwarrior_steps in Hd.
  destruct Hd as (due_raw & start_raw & updated_raw & created_raw & spent_raw
    & estimated_raw & category_raw & assigned_raw & due & start & updated & created
    & spent & estimated & category & assigned & project & annotations & priority
    & issue_url & subject & id & description & tracker & status & author
    & remote_name & Hdue & Hstart & Hupdated & Hcreated & _ & _ & _ & _
    & Cdue & Cstart & Cupdated & Ccreated & Hrest).
  last_conjunct Hrest. subst d.
  repeat constructor; cbn [fst snd]; eexists; eexists;
    (split; [eassumption|]); (split; [reflexivity|]);
    apply convert_date_cases; assumption.
Qed.

(** X18: hours given as an integer, zero included, are converted like
    any other number: the record holds what the calculator printed for
    ["N hours"], without trailing white space; hours given as [null] or
    as an empty string are passed on unconverted. *)
Theorem redmine_hours_conversion (self : Issue RedMineConfig)
  (r : list (string * value)) (d : value) :
  record self = VDict r ->
  to_taskwarrior self = Ok d ->
  (forall n, dict_lookup "estimated_hours" r = Some (VInt n) ->
     exists calc text,
       execute_calc (str_of_Z n +:+ " hours") = Ok calc /\
       getitem d ESTIMATED_HOURS = Ok (VStr text) /\
       text = rstrip_ws (fst calc) /\ rstrip_ws text = text) /\
  (forall v, dict_lookup "estimated_hours" r = Some v ->
     v = VNone \/ v = VStr "" -> getitem d ESTIMATED_HOURS = Ok v).
Proof.
  intros Hr Hd. apply redmine_to_taskwarrior_steps in Hd.
  destruct Hd as (due_raw & start_raw & updated_raw & created_raw & spent_raw
    & estimated_raw & category_raw & assigned_raw & due & start & updated & created
    & spent & estimated & category & assigned & project & annotations & priority
    & issue_url & subject & id & description & tracker & status & author
    & remote_name & _ & _ & _ & _ & _ & Hraw & _ & _ & _ & _ & _ & _ & _ & Hest & Hrest).
  last_conjunct Hrest. subst d.
  rewrite Hr in Hraw. unfold get in Hraw. rewrite get_default_lookup in Hraw.
  injection Hraw as <-. split.
  - intros n Hn. rewrite Hn in Hest.
    assert (Hconv : convert_hours (VInt n) = get_converted_hours (str_of_Z n +:+ " hours")).
    { unfold convert_hours. cbn [truthy eq_float_zero str].
      destruct (n =? 0); reflexivity. }
    rewrite Hconv in Hest.
    destruct (get_converted_hours_str _ _ Hest) as (calc & Hcalc & ->).
    exists calc, (rstrip_ws (fst calc)). split; [exact Hcalc|].
    split; [reflexivity|]. split; [reflexivity | apply rstrip_while_idempotent].
  - intros v Hv Hcases. rewrite Hv in Hest.
    destruct Hcases as [-> | ->]; injection Hest as <-; reflexivity.
Qed.

(** X19: a priority that is present but is not an object, as a JSON
    [null] is, is not treated as absent: [get_priority] raises
    [AttributeError] and the issue is not normalized. *)
Theorem redmine_priority_must_be_object (self : Issue RedMineConfig)
  (r : list (string * value)) (v : value) :
  record self = VDict r ->
  dict_lookup "priority" r = Some v ->
  (forall p, v <> VDict p) ->
  get_priority self = Raise AttributeError /\
  forall d, to_taskwarrior self <> Ok d.
Proof.
  intros Hr Hv Hobject.
  assert (Hraise : get_priority self = Raise AttributeError).
  { unfold get_priority. rewrite Hr, get_default_lookup, Hv. cbn [mbind result_bind].
    destruct v; try reflexivity. exfalso. exact (Hobject _ eq_refl). }
  split; [exact Hraise|].
  intros d Hd. apply redmine_to_taskwarrior_steps in Hd.
  destruct Hd as (due_raw & start_raw & updated_raw & created_raw & spent_raw
    & estimated_raw & category_raw & assigned_raw & due & start & updated & created
    & spent & estimated & category & assigned & project & annotations & priority
    & issue_url & subject & id & description & tracker & status & author
    & remote_name & _ & _ & _ & ? & _ & _ & _ & ? & _ & _ & _ & ? & _ & _ & _ & ?
    & _ & _ & Hpriority & _).
  congruence.
Qed.

(** X20: a configured project name is used as it is, without reading the
    issue; the normalized record then has the override as [project] and
    still the remote project's name as [redmineprojectname]. *)
Theorem redmine_project_override (self : Issue RedMineConfig) :
  project_name (Base.config self) <> "" ->
  get_project_name self = Ok (VStr (project_name (Base.config self))) /\
  (forall d, to_taskwarrior self = Ok d ->
     getitem d "project" = Ok (VStr (project_name (Base.config self))) /\
     exists project,
       getitem (record self) "project" = Ok project /\
       getitem d PROJECT_NAME = getitem project "name").
Proof.
  intros Hoverride.
  assert (Hname : get_project_name self = Ok (VStr (project_name (Base.config self)))).
  { unfold get_project_name.
    destruct (String.eqb_spec (project_name (Base.config self)) ""); [contradiction|].
    reflexivity. }
  split; [exact Hname|].
  intros d Hd. apply redmine_to_taskwarrior_steps in Hd.
  destruct Hd as (due_raw & start_raw & updated_raw & created_raw & spent_raw
    & estimated_raw & category_raw & assigned_raw & due & start & updated & created
    & spent & estimated & category & assigned & project & annotations & priority
    & issue_url & subject & id & description & tracker & status & author
    & remote_name & _ & _ & _ & ? & _ & _ & _ & ? & _ & _ & _ & ? & _ & _ & _ & ?
    & Hproject & _ & _ & _ & ? & _ & _ & _ & ? & _ & Hremote & ->).
  rewrite Hname in Hproject. injection Hproject as <-.
  split; [reflexivity|].
  apply bind_Ok in Hremote. destruct Hremote as (o & Ho & Hremote).
  exists o. split; [exact Ho|]. rewrite Hremote. reflexivity.
Qed.

Lemma lower_alnum_char (c : ascii) :
  is_ascii_alnum c = true ->
  mem_char (lower_char c) "abcdefghijklmnopqrstuvwxyz0123456789" = true /\
  is_ascii_alnum (lower_char c) = true /\
  lower_char (lower_char c) = lower_char c.
Proof.
  destruct c as [[] [] [] [] [] [] [] []]; vm_compute; intros Hc;
    (discriminate Hc || (repeat split; reflexivity)).
Qed.

Lemma project_key_normal_form (name : string) :
  Forall (fun c => mem_char c "abcdefghijklmnopqrstuvwxyz0123456789" = true)
         (list_ascii_of_string (lower (re_sub_non_alnum name))) /\
  lower (re_sub_non_alnum (lower (re_sub_non_alnum name))) =
  lower (re_sub_non_alnum name).
Proof.
  induction name as [|c name [IHchars IHfixed]]; [split; [constructor | reflexivity]|].
  simpl. destruct (is_ascii_alnum c) eqn:E; [|split; assumption].
  destruct (lower_alnum_char c E) as (Hin & Halnum & Hlower).
  simpl. rewrite Halnum. simpl. rewrite Hlower, IHfixed.
  split; [constructor; assumption | reflexivity].
Qed.

(** X21: a project key derived from the remote name holds only the
    letters a-z and the digits, and is a fixed point of the derivation:
    names that differ only in letter case or in other characters get the
    same key, and deriving a key from a key gives it back. *)
Theorem redmine_project_key_normal_form (self : Issue RedMineConfig) (v : value) :
  project_name (Base.config self) = "" ->
  get_project_name self = Ok v ->
  exists key,
    v = VStr key /\
    Forall (fun c => mem_char c "abcdefghijklmnopqrstuvwxyz0123456789" = true)
           (list_ascii_of_string key) /\
    lower (re_sub_non_alnum key) = key.
Proof.
  intros Hpn Hv.
  destruct (get_project_name_derived self v Hpn Hv) as (project & name & _ & _ & ->).
  destruct (project_key_normal_form name) as [Hchars Hfixed].
  eexists. split; [reflexivity|]. split; assumption.
Qed.

Lemma rstrip_while_last p s c :
  p c = true -> rstrip_while p (s +:+ String c "") = rstrip_while p s.
Proof.
  intros Hc. unfold rstrip_while.
  rewrite string_rev_app. change (string_rev (String c "")) with (String c "").
  rewrite append_cons, append_nil_l. simpl. rewrite Hc. reflexivity.
Qed.

(** X22: trailing slashes of the configured URL never reach the request:
    a client whose URL has one more slash at its end makes the same call
    for every path and parameters, and the address requested is the URL
    without its trailing slashes followed by the path. *)
Theorem redmine_call_api_ignores_trailing_slash (c1 c2 : RedMineClient)
  (uri : string) (params : list (string * value)) :
  client_url c2 = client_url c1 +:+ "/" ->
  client_key c2 = client_key c1 ->
  client_auth c2 = client_auth c1 ->
  client_verify_ssl c2 = client_verify_ssl c1 ->
  call_api c2 uri params = call_api c1 uri params /\
  (forall limit query assigned,
     find_issues c2 limit query assigned = find_issues c1 limit query assigned) /\
  rstrip "/" (rstrip "/" (client_url c1)) = rstrip "/" (client_url c1).
Proof.
  intros Hurl Hkey Hauth Hverify.
  assert (Hcall : forall uri params, call_api c2 uri params = call_api c1 uri params).
  { intros uri' params'. unfold call_api. rewrite Hurl, Hkey, Hauth, Hverify.
    unfold rstrip. rewrite rstrip_while_last by reflexivity. reflexivity. }
  split; [apply Hcall|]. split.
  - intros limit query assigned. unfold find_issues. rewrite Hcall. reflexivity.
  - apply rstrip_while_idempotent.
Qed.

(** X23: the client gets basic-auth credentials only when a login is
    configured and the password looked up for it is not empty. Without a
    login the password is not needed: the service is built from the API
    key alone. *)
Theorem redmine_init_auth (cfg : RedMineConfig) (secret : string) :
  get_password "key" None = Ok secret ->
  (login cfg = "" ->
     exists service,
       init cfg = Ok service /\
       client_auth (client service) = None /\
       client_key (client service) = secret) /\
  (forall password,
     login cfg <> "" ->
     get_password "password" (Some (login cfg)) = Ok password ->
     exists service,
       init cfg = Ok service /\
       client_key (client service) = secret /\
       client_auth (client service) =
         if String.eqb password "" then None else Some (login cfg, password)) /\
  (forall e,
     login cfg <> "" ->
     get_password "password" (Some (login cfg)) = Raise e ->
     init cfg = Raise e).
Proof.
  intros Hkey. split; [|split].
  - intros Hlogin. unfold init. rewrite Hkey, Hlogin. simpl. eauto.
  - intros password Hlogin Hpassword. unfold init. rewrite Hkey.
    destruct (String.eqb_spec (login cfg) ""); [contradiction|].
    cbn [mbind result_bind negb]. rewrite Hpassword. cbn [mbind result_bind].
    eexists. split; [reflexivity|]. split; [reflexivity|]. simpl.
    destruct (String.eqb password ""); reflexivity.
  - intros e Hlogin Hpassword. unfold init. rewrite Hkey.
    destruct (String.eqb_spec (login cfg) ""); [contradiction|].
    cbn [mbind result_bind negb]. rewrite Hpassword. reflexivity.
Qed.

(** X24: [issues] makes one request and yields one issue per record of
    its ["issues"] list, in order; a failure of the request, or an answer
    without that list, leaves the generator as an exception before any
    issue. *)
Theorem redmine_issues_one_per_record (self : RedMineService) :
  (forall records,
     find_issues (client self) (Some (issue_limit (config self)))
       (query (config self)) (only_if_assigned (config self)) = Ok (VList records) ->
     issues self =
     Gen (map (fun record => MkIssue record default_extra (config self)) records) None) /\
  (forall e,
     find_issues (client self) (Some (issue_limit (config self)))
       (query (config self)) (only_if_assigned (config self)) = Raise e ->
     issues self = Gen [] (Some e)) /\
  (forall e, call_api (client self) ("/issues.json?" +:+ query (config self))
       ([("limit", VInt (issue_limit (config self)))] ++
        (if only_if_assigned (config self) then [("assigned_to_id", VStr "me")] else []))
       = Raise e ->
     issues self = Gen [] (Some e)) /\
  (forall answer, call_api (client self) ("/issues.json?" +:+ query (config self))
       ([("limit", VInt (issue_limit (config self)))] ++
        (if only_if_assigned (config self) then [("assigned_to_id", VStr "me")] else []))
       = Ok (VDict answer) ->
     dict_lookup "issues" answer = None ->
     issues self = Gen [] (Some (KeyError "issues"))).
Proof.
  assert (Hfind : find_issues (client self) (Some (issue_limit (config self)))
                    (query (config self)) (only_if_assigned (config self)) =
                  (answer ← call_api (client self) ("/issues.json?" +:+ query (config self))
                     ([("limit", VInt (issue_limit (config self)))] ++
                      (if only_if_assigned (config self)
                       then [("assigned_to_id", VStr "me")] else []));
                   getitem answer "issues")).
  { unfold find_issues. destruct (only_if_assigned (config self)); reflexivity. }
  split; [|split; [|split]].
  - intros records Hrecords. unfold issues. rewrite Hrecords. cbn [iter].
    apply gen_for_all_yield. apply List.Forall_forall. intros record _. reflexivity.
  - intros e Hraise. unfold issues. rewrite Hraise. reflexivity.
  - intros e Hcall. unfold issues. rewrite Hfind, Hcall. reflexivity.
  - intros answer Hcall Hmissing. unfold issues. rewrite Hfind, Hcall.
    cbn [mbind result_bind]. rewrite (getitem_missing _ _ Hmissing). reflexivity.
Qed.

(** X26: the assignee and the category of the normalized record are the
    [name] of the issue's [assigned_to] and [category] objects, and
    [None] when the issue has no such field; a missing description
    becomes the empty string. *)
Theorem redmine_optional_fields (self : Issue RedMineConfig)
  (r : list (string * value)) (d : value) :
  record self = VDict r ->
  to_taskwarrior self = Ok d ->
  Forall (fun field =>
            (dict_lookup (fst field) r = None -> getitem d (snd field) = Ok VNone) /\
            (forall o, dict_lookup (fst field) r = Some (VDict o) -> o <> [] ->
               exists name, dict_lookup "name" o = Some name /\
                            getitem d (snd field) = Ok name))
         [("assigned_to", ASSIGNED_TO); ("category", CATEGORY)] /\
  (dict_lookup "description" r = None -> getitem d DESCRIPTION = Ok (VStr "")) /\
  (forall text, dict_lookup "description" r = Some text ->
     getitem d DESCRIPTION = Ok text).
Proof.
  intros Hr Hd. apply redmine_to_taskwarrior_steps in Hd.
  destruct Hd as (due_raw & start_raw & updated_raw & created_raw & spent_raw
    & estimated_raw & category_raw & assigned_raw & due & start & updated & created
    & spent & estimated & category & assigned & project & annotations & priority
    & issue_url & subject & id & description & tracker & status & author
    & remote_name & _ & _ & _ & _ & _ & _ & Hcategory & Hassigned & _ & _ & _ & _
    & _ & _ & Ncategory & Nassigned & _ & _ & _ & _ & _ & _ & Hdescription & Hrest).
  last_conjunct Hrest. subst d.
  rewrite Hr in Hcategory, Hassigned, Hdescription. unfold get in Hcategory, Hassigned.
  rewrite get_default_lookup in Hcategory, Hassigned, Hdescription.
  injection Hcategory as <-. injection Hassigned as <-. injection Hdescription as <-.
  assert (Hname : forall k v,
            name_of (match dict_lookup k r with Some x => x | None => VNone end) = Ok v ->
            (dict_lookup k r = None -> v = VNone) /\
            (forall o, dict_lookup k r = Some (VDict o) -> o <> [] ->
               exists name, dict_lookup "name" o = Some name /\ v = name)).
  { intros k v Hv. split.
    - intros Hnone. rewrite Hnone in Hv. injection Hv as <-. reflexivity.
    - intros o Ho Hne. rewrite Ho in Hv. unfold name_of in Hv.
      destruct o as [|entry o]; [contradiction|]. cbn [truthy] in Hv.
      apply getitem_Ok in Hv. destruct Hv as (kv & [= <-] & Hv). eauto. }
  split; [|split].
  - repeat constructor; cbn [fst snd].
    + intros Hnone. destruct (Hname _ _ Nassigned) as [Habsent _].
      rewrite (Habsent Hnone). reflexivity.
    + intros o Ho Hne. destruct (Hname _ _ Nassigned) as [_ Hpresent].
      destruct (Hpresent o Ho Hne) as (name & Hlookup & ->). eauto.
    + intros Hnone. destruct (Hname _ _ Ncategory) as [Habsent _].
      rewrite (Habsent Hnone). reflexivity.
    + intros o Ho Hne. destruct (Hname _ _ Ncategory) as [_ Hpresent].
      destruct (Hpresent o Ho Hne) as (name & Hlookup & ->). eauto.
  - intros Hnone. rewrite Hnone. reflexivity.
  - intros text Htext. rewrite Htext. reflexivity.
Qed.

End RedmineFurther.

Section RedmineFurtherExamples.
Import Py Base Redmine.

Lemma redmine_to_taskwarrior_mandatory_fields_witness :
  @to_taskwarrior Sample.runtime Sample.helpers Sample.taskwarrior
    (MkIssue (VDict [("id", VInt 42); ("project", VDict [("name", VStr "p")])])
       (VDict []) Sample.redmine_config) <> Ok VNone.
Proof.
  destruct (@redmine_to_taskwarrior_mandatory_fields
              Sample.runtime Sample.helpers Sample.taskwarrior
              (MkIssue (VDict [("id", VInt 42); ("project", VDict [("name", VStr "p")])])
                 (VDict []) Sample.redmine_config) _ eq_refl) as [Hmissing _].
  apply (Hmissing "subject"); [left; reflexivity | reflexivity].
Defined.

Lemma redmine_dates_whole_seconds_witness :
  exists t,
    (d ← @to_taskwarrior Sample.runtime Sample.helpers Sample.taskwarrior
           (MkIssue Sample.redmine_issue_due (VDict []) Sample.redmine_config);
     getitem d DUEDATE) = Ok (VDatetime t) /\
    microsecond t = 0.
Proof.
  pose proof (@redmine_dates_whole_seconds
                Sample.runtime Sample.helpers Sample.taskwarrior
                (MkIssue Sample.redmine_issue_due (VDict []) Sample.redmine_config)
                _ eq_refl) as Hdates.
  apply Forall_cons in Hdates. destruct Hdates as [(raw & v & Hraw & Hv & Hcases) _].
  injection Hraw as <-.
  destruct Hcases as [[Hfalse _] | (_ & t & -> & Ht)]; [discriminate Hfalse|].
  exists t. split; [exact Hv | exact Ht].
Defined.

Lemma redmine_hours_conversion_witness :
  exists d,
    @to_taskwarrior Sample.runtime Sample.helpers Sample.taskwarrior
      (MkIssue Sample.redmine_issue_due (VDict []) Sample.redmine_config) = Ok d /\
    getitem d ESTIMATED_HOURS = Ok (VStr "PT0S").
Proof.
  eexists. split; [vm_compute; reflexivity|].
  destruct (@redmine_hours_conversion Sample.runtime Sample.helpers Sample.taskwarrior
              (MkIssue Sample.redmine_issue_due (VDict []) Sample.redmine_config)
              _ _ eq_refl eq_refl) as [Hinteger _].
  destruct (Hinteger 0 eq_refl) as (calc & text & Hcalc & Hd & -> & _).
  injection Hcalc as <-. exact Hd.
Defined.

Lemma redmine_priority_must_be_object_witness :
  get_priority (MkIssue (VDict [("id", VInt 42); ("priority", VNone)]) (VDict [])
                  Sample.redmine_config) = Raise AttributeError.
Proof.
  apply (@redmine_priority_must_be_object Sample.runtime Sample.helpers Sample.taskwarrior
           (MkIssue (VDict [("id", VInt 42); ("priority", VNone)]) (VDict [])
              Sample.redmine_config) _ VNone eq_refl eq_refl).
  intros p. discriminate.
Defined.

Lemma redmine_project_override_witness :
  get_project_name (MkIssue VNone (VDict []) Sample.redmine_config_login) =
  Ok (VStr "ops").
Proof.
  apply (@redmine_project_override Sample.runtime Sample.helpers Sample.taskwarrior
           (MkIssue VNone (VDict []) Sample.redmine_config_login)).
  discriminate.
Defined.

Lemma redmine_project_key_normal_form_witness :
  lower (re_sub_non_alnum "myproj") = "myproj".
Proof.
  destruct (redmine_project_key_normal_form
              (MkIssue Sample.redmine_issue (VDict []) Sample.redmine_config)
              (VStr "myproj") eq_refl eq_refl) as (key & Hkey & _ & Hfixed).
  injection Hkey as <-. exact Hfixed.
Defined.

Lemma redmine_call_api_ignores_trailing_slash_witness :
  @find_issues Sample.requests (Sample.redmine_client "https://redmine.example.org/")
    (Some 100) "" false =
  @find_issues Sample.requests (Sample.redmine_client "https://redmine.example.org")
    (Some 100) "" false.
Proof.
  apply (@redmine_call_api_ignores_trailing_slash Sample.requests
           (Sample.redmine_client "https://redmine.example.org")
           (Sample.redmine_client "https://redmine.example.org/")
           "" [] eq_refl eq_refl eq_refl eq_refl).
Defined.

Lemma redmine_init_auth_witness :
  exists service,
    @init Sample.service_base Sample.redmine_config_login = Ok service /\
    client_auth (client service) = Some ("al", "pw").
Proof.
  destruct (@redmine_init_auth Sample.service_base Sample.redmine_config_login "k" eq_refl)
    as (_ & Hlogin & _).
  destruct (Hlogin "pw" ltac:(discriminate) eq_refl) as (service & Hinit & _ & Hauth).
  exists service. split; [exact Hinit | exact Hauth].
Defined.

Lemma redmine_issues_one_per_record_witness :
  map record
    (yielded (@issues Sample.requests Sample.service_base
                {| config := Sample.redmine_config;
                   key_secret := "k";
                   client := Sample.redmine_client "https://redmine.example.org" |})) =
  [Sample.redmine_issue; Sample.redmine_issue_zero].
Proof.
  destruct (@redmine_issues_one_per_record Sample.requests Sample.service_base
              {| config := Sample.redmine_config;
                 key_secret := "k";
                 client := Sample.redmine_client "https://redmine.example.org" |})
    as [Hrecords _].
  rewrite (Hrecords [Sample.redmine_issue; Sample.redmine_issue_zero] eq_refl).
  reflexivity.
Defined.

Lemma redmine_optional_fields_witness :
  exists d,
    @to_taskwarrior Sample.runtime Sample.helpers Sample.taskwarrior
      (MkIssue Sample.redmine_issue (VDict []) Sample.redmine_config) = Ok d /\
    getitem d DESCRIPTION = Ok (VStr "").
Proof.
  eexists. split; [vm_compute; reflexivity|].
  destruct (@redmine_optional_fields Sample.runtime Sample.helpers Sample.taskwarrior
              (MkIssue Sample.redmine_issue (VDict []) Sample.redmine_config)
              _ _ eq_refl eq_refl) as (_ & Hdescription & _).
  exact (Hdescription eq_refl).
Defined.

End RedmineFurtherExamples.
